(** * WikiAPI: the crawler of [WikiCrawler.py] and its fetchers

    A shallow embedding of the category crawler ([WikiCrawler]), of the
    category fetcher ([WikiCategory]) and of the article fetcher
    ([WikiArticle]), followed by the properties of the graph
    construction, the ancestor traversal, the skip rules and the archive.

    Conventions of the embedding.
    - A Python [dict] is an association list in insertion order with
      unique keys ([dict_set] keeps the position of a key that is already
      bound, as Python does).
    - A Python [set] of strings is a [gset string]; the order in which
      Python iterates over a set is unspecified, here it is the order of
      [elements].
    - Python's [list] objects stored in [category_tree] are mutable and
      shared by reference: they live in [heap], and [category_tree] binds
      a link to the address of its parent list.
    - Methods are computations in the monad [M]: they thread the crawler
      and the outside world (files, network clock, standard output) and
      end in a value, a raised exception, or exhaustion of the fuel that
      bounds a [while] loop (the pagination of [getPages], the traversal
      of [retrieveCategories]).  A raised exception keeps the state
      reached so far, as in Python.
    - Strings are sequences of 8-bit characters; a file is the list of
      its lines.
    - The logger ([WikiCrawler.print], [printStatus], [clear_output]) only
      produces presentation output and is left out. *)

From stdpp Require Import base list strings gmap pretty.
From Stdlib Require Import ZArith Lia Ascii.

Open Scope string_scope.
Open Scope list_scope.
Open Scope Z_scope.

(** ** Strings *)

Module Str.

(** [s.replace(old, new)] for a non-empty [old]: occurrences are replaced
    from left to right without overlap.  [skip] counts the characters of
    a replaced occurrence that are still to be dropped. *)
Fixpoint replace_from (old new : string) (skip : nat) (s : string) : string :=
  match s with
  | EmptyString => EmptyString
  | String c s' =>
      match skip with
      | S k => replace_from old new k s'
      | O =>
          if String.prefix old s
          then new +:+ replace_from old new (Nat.pred (String.length old)) s'
          else String c (replace_from old new O s')
      end
  end.

Definition replace (old new s : string) : string := replace_from old new O s.

(** [sub in s] for strings. *)
Fixpoint contains (sub s : string) : bool :=
  String.prefix sub s ||
  match s with
  | EmptyString => false
  | String _ s' => contains sub s'
  end.

(** Code points below 256 for which [str.isspace] holds. *)
Definition isspace (c : ascii) : bool :=
  let n := nat_of_ascii c in
  ((9 <=? n) && (n <=? 13))%nat || ((28 <=? n) && (n <=? 32))%nat
  || (n =? 133)%nat || (n =? 160)%nat.

Fixpoint lstrip (s : string) : string :=
  match s with
  | String c s' => if isspace c then lstrip s' else s
  | EmptyString => EmptyString
  end.

Fixpoint rstrip (s : string) : string :=
  match s with
  | EmptyString => EmptyString
  | String c s' =>
      match rstrip s' with
      | EmptyString => if isspace c then EmptyString else String c EmptyString
      | r => String c r
      end
  end.

(** [s.strip()] *)
Definition strip (s : string) : string := rstrip (lstrip s).

(** [s.split(sep)] for a one-character separator: always at least one
    field. *)
Fixpoint split (sep : ascii) (s : string) : list string :=
  match s with
  | EmptyString => [EmptyString]
  | String c s' =>
      if Ascii.eqb c sep then EmptyString :: split sep s'
      else match split sep s' with
           | f :: fs => String c f :: fs
           | [] => [String c EmptyString]
           end
  end.

(** [sep.join(l)] *)
Fixpoint join (sep : string) (l : list string) : string :=
  match l with
  | [] => ""
  | [x] => x
  | x :: l' => x +:+ sep +:+ join sep l'
  end.

End Str.

(** ** Python dictionaries *)

Section Dict.
Context {V : Type}.

Fixpoint dict_get (k : string) (d : list (string * V)) : option V :=
  match d with
  | [] => None
  | (k', v) :: d' => if String.eqb k k' then Some v else dict_get k d'
  end.

(** [d[k] = v] *)
Fixpoint dict_set (k : string) (v : V) (d : list (string * V))
  : list (string * V) :=
  match d with
  | [] => [(k, v)]
  | (k', v') :: d' =>
      if String.eqb k k' then (k', v) :: d' else (k', v') :: dict_set k v d'
  end.

(** [d.update(e)] *)
Definition dict_update (d e : list (string * V)) : list (string * V) :=
  fold_left (fun acc kv => dict_set kv.1 kv.2 acc) e d.

Definition keys (d : list (string * V)) : list string := map fst d.
Definition values (d : list (string * V)) : list V := map snd d.

(** A dict comprehension over a sequence of key/value pairs. *)
Definition dict_of (l : list (string * V)) : list (string * V) :=
  dict_update [] l.
End Dict.

(** The type of a dict with string keys. *)
Abbreviation dict V := (list (string * V)).

(** ** Exceptions and outcomes *)

(** The exceptions the modelled code can raise.  All of them are
    subclasses of Python's [Exception]. *)
Inductive exn :=
| AttributeError      (* attribute missing on an object *)
| TypeError           (* operands of unsupported types *)
| ValueError          (* wrong number of values to unpack *)
| KeyError            (* [d[k]] on a plain dict without [k] *)
| IndexError          (* list index out of range *)
| ZeroDivisionError
| FileNotFoundError
| UnicodeDecodeError  (* a binary snapshot read as text *)
| RequestException    (* [requests]: connection failure or HTTP error *)
| CategoryNotFound.   (* [Exception('The category ... does not exist.')] *)

Inductive outcome (A : Type) :=
| Returns (a : A)
| Raises (e : exn)
| OutOfFuel.

Arguments Returns {A} a.
Arguments Raises {A} e.
Arguments OutOfFuel {A}.

(** ** Pages, as the parser presents them

    [BeautifulSoup] is an external collaborator; a parsed page is given
    by the records the fetchers extract from it. *)
Record document := mkDocument {
  (* [div#mw-category-empty] is present *)
  mw_category_empty : bool;
  (* (href, title) of the anchors of [div#mw-subcategories], in page
     order; empty when the div is absent *)
  mw_subcategories : list (string * string);
  (* (href, title) of the list items of [div#mw-pages]; empty when the
     div is absent *)
  mw_pages : list (string * string);
  (* hrefs of the anchors of [div#mw-pages] whose text contains
     'next page' *)
  mw_pages_next : list string;
  (* (href, title) of the anchors of [div#mw-normal-catlinks] *)
  mw_normal_catlinks : list (string * string);
  (* (href, title) of the anchors of [div.mw-parser-output] whose href
     matches [^/wiki/[^:]+$] *)
  mw_parser_output_links : list (string * string);
  (* the non-empty annotated lines [WikiArticle.getText] returns *)
  mw_content_text : list string
}.

(** What [requests.get] gives: a response with its status code and body,
    or a [RequestException] (no connection). *)
Inductive get_result :=
| Response (status_code : Z) (text : string)
| ConnectionFailed.

(** ** The crawler and the world around it *)

(** A value of [article_texts]: the text itself, or [True] when the text
    went to the archive. *)
Inductive saved_text :=
| TextKept (lines : list string)
| TextArchived.

Record Crawler := mkCrawler {
  archive_path : option string;
  (* [save_path] exists only once [save] has been called *)
  save_path : option string;
  (* [broken_links] is never initialised by the class; [None] is the
     missing attribute *)
  broken_links : option (list string);
  (* the parent lists, by address *)
  heap : list (list string);
  (* defaultdict(list): link -> address of its list of parent links *)
  category_tree : dict nat;
  category_list : dict string;
  article_list : dict string;
  open_categories : dict string;
  skip_categories : list string;
  skip_category_rules : list string;
  article_texts : dict saved_text;
  article_links : dict (list string);
  article_categories : dict (list string);
  article_hieracy_categories : dict (list string);
  skip_articles : list string;
  skip_article_rules : list string;
  skip_article_categories : list string;
  skip_article_category_rules : list string;
  skipped_articles : dict string
}.

(** [_initVariables] *)
Definition _initVariables : Crawler :=
  {| archive_path := None; save_path := None; broken_links := None;
     heap := []; category_tree := []; category_list := [];
     article_list := []; open_categories := [];
     skip_categories := []; skip_category_rules := [];
     article_texts := []; article_links := []; article_categories := [];
     article_hieracy_categories := [];
     skip_articles := []; skip_article_rules := [];
     skip_article_categories := []; skip_article_category_rules := [];
     skipped_articles := [] |}.

Inductive file :=
| TextFile (lines : list string)
| Snapshot (c : Crawler).

Record state := mkState {
  crawler : Crawler;
  files : dict file;
  (* number of HTTP requests made so far *)
  clock : nat;
  (* lines written to standard output by a bare [print] *)
  stdout : list string
}.

Definition set_crawler (c : Crawler) (s : state) : state :=
  {| crawler := c; files := files s; clock := clock s; stdout := stdout s |}.
Definition set_files (f : dict file) (s : state) : state :=
  {| crawler := crawler s; files := f; clock := clock s; stdout := stdout s |}.
Definition set_clock (n : nat) (s : state) : state :=
  {| crawler := crawler s; files := files s; clock := n; stdout := stdout s |}.
Definition set_stdout (o : list string) (s : state) : state :=
  {| crawler := crawler s; files := files s; clock := clock s; stdout := o |}.

(** ** The monad of methods *)

Definition M (A : Type) : Type := state -> outcome A * state.

Definition ret {A} (a : A) : M A := fun s => (Returns a, s).
Definition raise {A} (e : exn) : M A := fun s => (Raises e, s).
Definition out_of_fuel {A} : M A := fun s => (OutOfFuel, s).

Definition bind {A B} (m : M A) (k : A -> M B) : M B :=
  fun s =>
    match m s with
    | (Returns a, s') => k a s'
    | (Raises e, s') => (Raises e, s')
    | (OutOfFuel, s') => (OutOfFuel, s')
    end.

(** [try: m  except Exception as e: h e] *)
Definition try_except {A} (m : M A) (h : exn -> M A) : M A :=
  fun s =>
    match m s with
    | (Raises e, s') => h e s'
    | r => r
    end.

Notation "'do' x <- m ; k" := (bind m (fun x => k))
  (at level 10, x name, m at level 100, k at level 200,
   format "'[v' 'do'  x  <-  m ; '/' k ']'").
Notation "'do' ' p <- m ; k" := (bind m (fun x => let 'p := x in k))
  (at level 10, p pattern, m at level 100, k at level 200).
Notation "'run' m ; k" := (bind m (fun _ => k))
  (at level 10, m at level 100, k at level 200,
   format "'[v' 'run'  m ; '/' k ']'").

Definition get_self : M Crawler := fun s => (Returns (crawler s), s).
Definition modify_self (f : Crawler -> Crawler) : M unit :=
  fun s => (Returns tt, set_crawler (f (crawler s)) s).

(** ** The network

    [requests.get] is an oracle: the answer to a request depends on the
    URL and on how many requests were made before it, so that a failure
    can be transient.  Every request advances the clock. *)
Section Network.
Variable requests_get : nat -> string -> get_result.

(** [response = requests.get(url); response.raise_for_status()]: the body
    of the response, or [RequestException] when there is no connection or
    the status is a client or server error. *)
Definition get_and_raise_for_status (url : string) : M string :=
  fun s =>
    let s' := set_clock (S (clock s)) s in
    match requests_get (clock s) url with
    | Response code text =>
        if (400 <=? code) && (code <? 600)
        then (Raises RequestException, s')
        else (Returns text, s')
    | ConnectionFailed => (Raises RequestException, s')
    end.
End Network.

(** ** WikiCategory.py *)

Module WikiCategory.

Definition BASE_URL : string := "https://en.wikipedia.org".
Definition CATEGORY_URL_PREFIX : string := "/wiki/".
Definition MAX_RETRY : nat := 3.

Record t := mk {
  name : string;
  link : string;
  doc : option document;
  pages : dict string
}.

(** The name [__init__] stores: [name] with the prefix [Category:],
    which is added when [re.match('^Category:.*', name)] fails. *)
Definition normal_name (name : string) : string :=
  if String.prefix "Category:" name then name else "Category:" +:+ name.

(** The link [__init__] stores: the given one, or the one made from the
    stored name. *)
Definition normal_link (name : string) (link : option string) : string :=
  match link with
  | None => CATEGORY_URL_PREFIX +:+ Str.replace " " "_" (normal_name name)
  | Some l => l
  end.

Section Fetch.
Variable requests_get : nat -> string -> get_result.
Variable BeautifulSoup : string -> document.

(** The loop of [_make_request] over the remaining values of [retry].
    Falling off the loop returns [None]. *)
Fixpoint _make_request_loop (retries : list nat) (url : string)
  : M (option string) :=
  match retries with
  | [] => ret None
  | retry :: rest =>
      try_except
        (do text <- get_and_raise_for_status requests_get url;
         ret (Some text))
        (fun e =>
           match e with
           | RequestException =>
               if (retry <? MAX_RETRY - 1)%nat
               then _make_request_loop rest url
               else raise e
           | _ => raise e
           end)
  end.

Definition _make_request (url : string) : M (option string) :=
  _make_request_loop (seq 0 MAX_RETRY) url.

(** [response.text] *)
Definition response_text (response : option string) : M string :=
  match response with
  | Some text => ret text
  | None => raise AttributeError
  end.

Definition _requestCategory (self : t) : M t :=
  do response <- _make_request (BASE_URL +:+ link self);
  do text <- response_text response;
  let d := BeautifulSoup text in
  let self := mk (name self) (link self) (Some d) (pages self) in
  if mw_category_empty d then raise CategoryNotFound else ret self.

(** [WikiCategory(name, link, load)] *)
Definition __init__ (name : string) (link : option string) (load : bool)
  : M t :=
  let self := mk (normal_name name) (normal_link name link) None [] in
  if load then _requestCategory self else ret self.

(** [self.doc.find(...)] needs a loaded page. *)
Definition the_doc (self : t) : M document :=
  match doc self with
  | Some d => ret d
  | None => raise AttributeError
  end.

Definition getSubCategories (self : t) : M (dict string) :=
  do d <- the_doc self;
  ret (dict_of (mw_subcategories d)).

Definition _loadPageLinks (self : t) : M (list string * t) :=
  do d <- the_doc self;
  let self :=
    mk (name self) (link self) (doc self)
       (dict_update (pages self) (dict_of (mw_pages d))) in
  ret (mw_pages_next d, self).

(** The [while] loop of [getPages]; [fuel] bounds the number of
    continuation pages that are followed. *)
Fixpoint getPages_loop (fuel : nat) (next_link : list string) (self : t)
  : M (dict string * t) :=
  match next_link with
  | [] => ret (pages self, self)
  | next :: _ =>
      match fuel with
      | O => out_of_fuel
      | S fuel' =>
          do response <- _make_request (BASE_URL +:+ next);
          do text <- response_text response;
          let self :=
            mk (name self) (link self) (Some (BeautifulSoup text))
               (pages self) in
          do r <- _loadPageLinks self;
          getPages_loop fuel' r.1 r.2
      end
  end.

Definition getPages (fuel : nat) (self : t) : M (dict string * t) :=
  let self := mk (name self) (link self) (doc self) [] in
  do r <- _loadPageLinks self;
  getPages_loop fuel r.1 r.2.

End Fetch.
End WikiCategory.

(** ** WikiArticle.py *)

Module WikiArticle.

Definition BASE_URL : string := "https://en.wikipedia.org".
Definition ARTICLE_URL_PREFIX : string := "/wiki/".

Record t := mk {
  name : string;
  link : string;
  doc : option document
}.

Section Fetch.
Variable requests_get : nat -> string -> get_result.
Variable BeautifulSoup : string -> document.

(** One request, no retry. *)
Definition _load (self : t) : M t :=
  do text <- get_and_raise_for_status requests_get (BASE_URL +:+ link self);
  ret (mk (name self) (link self) (Some (BeautifulSoup text))).

(** [WikiArticle(name, link, load)]; [link or ...] takes the default for
    a missing and for an empty link. *)
Definition __init__ (name : string) (link : option string) (load : bool)
  : M t :=
  let link :=
    match link with
    | Some l =>
        if String.eqb l "" then ARTICLE_URL_PREFIX +:+ Str.replace " " "_" name
        else l
    | None => ARTICLE_URL_PREFIX +:+ Str.replace " " "_" name
    end in
  let self := mk name link None in
  if load then _load self else ret self.

Definition the_doc (self : t) : M document :=
  match doc self with
  | Some d => ret d
  | None => raise AttributeError
  end.

Definition getHeadCategories (self : t) : M (dict string) :=
  do d <- the_doc self;
  ret (dict_of (mw_normal_catlinks d)).

Definition getLinks (self : t) : M (dict string) :=
  do d <- the_doc self;
  ret (dict_of (mw_parser_output_links d)).

Definition getText (self : t) : M (list string) :=
  do d <- the_doc self;
  ret (mw_content_text d).

End Fetch.
End WikiArticle.

(** Assignment to one attribute of the crawler. *)
Definition set_archive_path (v : option string) (c : Crawler) : Crawler :=
  {| archive_path := v; save_path := save_path c;
     broken_links := broken_links c; heap := heap c;
     category_tree := category_tree c; category_list := category_list c;
     article_list := article_list c; open_categories := open_categories c;
     skip_categories := skip_categories c;
     skip_category_rules := skip_category_rules c;
     article_texts := article_texts c; article_links := article_links c;
     article_categories := article_categories c;
     article_hieracy_categories := article_hieracy_categories c;
     skip_articles := skip_articles c;
     skip_article_rules := skip_article_rules c;
     skip_article_categories := skip_article_categories c;
     skip_article_category_rules := skip_article_category_rules c;
     skipped_articles := skipped_articles c |}.
Definition set_save_path (v : option string) (c : Crawler) : Crawler :=
  {| archive_path := archive_path c; save_path := v;
     broken_links := broken_links c; heap := heap c;
     category_tree := category_tree c; category_list := category_list c;
     article_list := article_list c; open_categories := open_categories c;
     skip_categories := skip_categories c;
     skip_category_rules := skip_category_rules c;
     article_texts := article_texts c; article_links := article_links c;
     article_categories := article_categories c;
     article_hieracy_categories := article_hieracy_categories c;
     skip_articles := skip_articles c;
     skip_article_rules := skip_article_rules c;
     skip_article_categories := skip_article_categories c;
     skip_article_category_rules := skip_article_category_rules c;
     skipped_articles := skipped_articles c |}.
Definition set_heap (v : list (list string)) (c : Crawler) : Crawler :=
  {| archive_path := archive_path c; save_path := save_path c;
     broken_links := broken_links c; heap := v;
     category_tree := category_tree c; category_list := category_list c;
     article_list := article_list c; open_categories := open_categories c;
     skip_categories := skip_categories c;
     skip_category_rules := skip_category_rules c;
     article_texts := article_texts c; article_links := article_links c;
     article_categories := article_categories c;
     article_hieracy_categories := article_hieracy_categories c;
     skip_articles := skip_articles c;
     skip_article_rules := skip_article_rules c;
     skip_article_categories := skip_article_categories c;
     skip_article_category_rules := skip_article_category_rules c;
     skipped_articles := skipped_articles c |}.
Definition set_category_tree (v : dict nat) (c : Crawler) : Crawler :=
  {| archive_path := archive_path c; save_path := save_path c;
     broken_links := broken_links c; heap := heap c; category_tree := v;
     category_list := category_list c; article_list := article_list c;
     open_categories := open_categories c;
     skip_categories := skip_categories c;
     skip_category_rules := skip_category_rules c;
     article_texts := article_texts c; article_links := article_links c;
     article_categories := article_categories c;
     article_hieracy_categories := article_hieracy_categories c;
     skip_articles := skip_articles c;
     skip_article_rules := skip_article_rules c;
     skip_article_categories := skip_article_categories c;
     skip_article_category_rules := skip_article_category_rules c;
     skipped_articles := skipped_articles c |}.
Definition set_category_list (v : dict string) (c : Crawler) : Crawler :=
  {| archive_path := archive_path c; save_path := save_path c;
     broken_links := broken_links c; heap := heap c;
     category_tree := category_tree c; category_list := v;
     article_list := article_list c; open_categories := open_categories c;
     skip_categories := skip_categories c;
     skip_category_rules := skip_category_rules c;
     article_texts := article_texts c; article_links := article_links c;
     article_categories := article_categories c;
     article_hieracy_categories := article_hieracy_categories c;
     skip_articles := skip_articles c;
     skip_article_rules := skip_article_rules c;
     skip_article_categories := skip_article_categories c;
     skip_article_category_rules := skip_article_category_rules c;
     skipped_articles := skipped_articles c |}.
Definition set_article_list (v : dict string) (c : Crawler) : Crawler :=
  {| archive_path := archive_path c; save_path := save_path c;
     broken_links := broken_links c; heap := heap c;
     category_tree := category_tree c; category_list := category_list c;
     article_list := v; open_categories := open_categories c;
     skip_categories := skip_categories c;
     skip_category_rules := skip_category_rules c;
     article_texts := article_texts c; article_links := article_links c;
     article_categories := article_categories c;
     article_hieracy_categories := article_hieracy_categories c;
     skip_articles := skip_articles c;
     skip_article_rules := skip_article_rules c;
     skip_article_categories := skip_article_categories c;
     skip_article_category_rules := skip_article_category_rules c;
     skipped_articles := skipped_articles c |}.
Definition set_open_categories (v : dict string) (c : Crawler) : Crawler :=
  {| archive_path := archive_path c; save_path := save_path c;
     broken_links := broken_links c; heap := heap c;
     category_tree := category_tree c; category_list := category_list c;
     article_list := article_list c; open_categories := v;
     skip_categories := skip_categories c;
     skip_category_rules := skip_category_rules c;
     article_texts := article_texts c; article_links := article_links c;
     article_categories := article_categories c;
     article_hieracy_categories := article_hieracy_categories c;
     skip_articles := skip_articles c;
     skip_article_rules := skip_article_rules c;
     skip_article_categories := skip_article_categories c;
     skip_article_category_rules := skip_article_category_rules c;
     skipped_articles := skipped_articles c |}.
Definition set_skip_categories (v : list string) (c : Crawler) : Crawler :=
  {| archive_path := archive_path c; save_path := save_path c;
     broken_links := broken_links c; heap := heap c;
     category_tree := category_tree c; category_list := category_list c;
     article_list := article_list c; open_categories := open_categories c;
     skip_categories := v; skip_category_rules := skip_category_rules c;
     article_texts := article_texts c; article_links := article_links c;
     article_categories := article_categories c;
     article_hieracy_categories := article_hieracy_categories c;
     skip_articles := skip_articles c;
     skip_article_rules := skip_article_rules c;
     skip_article_categories := skip_article_categories c;
     skip_article_category_rules := skip_article_category_rules c;
     skipped_articles := skipped_articles c |}.
Definition set_skip_category_rules (v : list string) (c : Crawler) : Crawler :=
  {| archive_path := archive_path c; save_path := save_path c;
     broken_links := broken_links c; heap := heap c;
     category_tree := category_tree c; category_list := category_list c;
     article_list := article_list c; open_categories := open_categories c;
     skip_categories := skip_categories c; skip_category_rules := v;
     article_texts := article_texts c; article_links := article_links c;
     article_categories := article_categories c;
     article_hieracy_categories := article_hieracy_categories c;
     skip_articles := skip_articles c;
     skip_article_rules := skip_article_rules c;
     skip_article_categories := skip_article_categories c;
     skip_article_category_rules := skip_article_category_rules c;
     skipped_articles := skipped_articles c |}.
Definition set_article_texts (v : dict saved_text) (c : Crawler) : Crawler :=
  {| archive_path := archive_path c; save_path := save_path c;
     broken_links := broken_links c; heap := heap c;
     category_tree := category_tree c; category_list := category_list c;
     article_list := article_list c; open_categories := open_categories c;
     skip_categories := skip_categories c;
     skip_category_rules := skip_category_rules c; article_texts := v;
     article_links := article_links c;
     article_categories := article_categories c;
     article_hieracy_categories := article_hieracy_categories c;
     skip_articles := skip_articles c;
     skip_article_rules := skip_article_rules c;
     skip_article_categories := skip_article_categories c;
     skip_article_category_rules := skip_article_category_rules c;
     skipped_articles := skipped_articles c |}.
Definition set_article_links (v : dict (list string)) (c : Crawler) : Crawler :=
  {| archive_path := archive_path c; save_path := save_path c;
     broken_links := broken_links c; heap := heap c;
     category_tree := category_tree c; category_list := category_list c;
     article_list := article_list c; open_categories := open_categories c;
     skip_categories := skip_categories c;
     skip_category_rules := skip_category_rules c;
     article_texts := article_texts c; article_links := v;
     article_categories := article_categories c;
     article_hieracy_categories := article_hieracy_categories c;
     skip_articles := skip_articles c;
     skip_article_rules := skip_article_rules c;
     skip_article_categories := skip_article_categories c;
     skip_article_category_rules := skip_article_category_rules c;
     skipped_articles := skipped_articles c |}.
Definition set_article_categories (v : dict (list string)) (c : Crawler) : Crawler :=
  {| archive_path := archive_path c; save_path := save_path c;
     broken_links := broken_links c; heap := heap c;
     category_tree := category_tree c; category_list := category_list c;
     article_list := article_list c; open_categories := open_categories c;
     skip_categories := skip_categories c;
     skip_category_rules := skip_category_rules c;
     article_texts := article_texts c; article_links := article_links c;
     article_categories := v;
     article_hieracy_categories := article_hieracy_categories c;
     skip_articles := skip_articles c;
     skip_article_rules := skip_article_rules c;
     skip_article_categories := skip_article_categories c;
     skip_article_category_rules := skip_article_category_rules c;
     skipped_articles := skipped_articles c |}.
Definition set_article_hieracy_categories (v : dict (list string)) (c : Crawler) : Crawler :=
  {| archive_path := archive_path c; save_path := save_path c;
     broken_links := broken_links c; heap := heap c;
     category_tree := category_tree c; category_list := category_list c;
     article_list := article_list c; open_categories := open_categories c;
     skip_categories := skip_categories c;
     skip_category_rules := skip_category_rules c;
     article_texts := article_texts c; article_links := article_links c;
     article_categories := article_categories c;
     article_hieracy_categories := v; skip_articles := skip_articles c;
     skip_article_rules := skip_article_rules c;
     skip_article_categories := skip_article_categories c;
     skip_article_category_rules := skip_article_category_rules c;
     skipped_articles := skipped_articles c |}.
Definition set_skip_articles (v : list string) (c : Crawler) : Crawler :=
  {| archive_path := archive_path c; save_path := save_path c;
     broken_links := broken_links c; heap := heap c;
     category_tree := category_tree c; category_list := category_list c;
     article_list := article_list c; open_categories := open_categories c;
     skip_categories := skip_categories c;
     skip_category_rules := skip_category_rules c;
     article_texts := article_texts c; article_links := article_links c;
     article_categories := article_categories c;
     article_hieracy_categories := article_hieracy_categories c;
     skip_articles := v; skip_article_rules := skip_article_rules c;
     skip_article_categories := skip_article_categories c;
     skip_article_category_rules := skip_article_category_rules c;
     skipped_articles := skipped_articles c |}.
Definition set_skip_article_rules (v : list string) (c : Crawler) : Crawler :=
  {| archive_path := archive_path c; save_path := save_path c;
     broken_links := broken_links c; heap := heap c;
     category_tree := category_tree c; category_list := category_list c;
     article_list := article_list c; open_categories := open_categories c;
     skip_categories := skip_categories c;
     skip_category_rules := skip_category_rules c;
     article_texts := article_texts c; article_links := article_links c;
     article_categories := article_categories c;
     article_hieracy_categories := article_hieracy_categories c;
     skip_articles := skip_articles c; skip_article_rules := v;
     skip_article_categories := skip_article_categories c;
     skip_article_category_rules := skip_article_category_rules c;
     skipped_articles := skipped_articles c |}.
Definition set_skip_article_categories (v : list string) (c : Crawler) : Crawler :=
  {| archive_path := archive_path c; save_path := save_path c;
     broken_links := broken_links c; heap := heap c;
     category_tree := category_tree c; category_list := category_list c;
     article_list := article_list c; open_categories := open_categories c;
     skip_categories := skip_categories c;
     skip_category_rules := skip_category_rules c;
     article_texts := article_texts c; article_links := article_links c;
     article_categories := article_categories c;
     article_hieracy_categories := article_hieracy_categories c;
     skip_articles := skip_articles c;
     skip_article_rules := skip_article_rules c;
     skip_article_categories := v;
     skip_article_category_rules := skip_article_category_rules c;
     skipped_articles := skipped_articles c |}.
Definition set_skip_article_category_rules (v : list string) (c : Crawler) : Crawler :=
  {| archive_path := archive_path c; save_path := save_path c;
     broken_links := broken_links c; heap := heap c;
     category_tree := category_tree c; category_list := category_list c;
     article_list := article_list c; open_categories := open_categories c;
     skip_categories := skip_categories c;
     skip_category_rules := skip_category_rules c;
     article_texts := article_texts c; article_links := article_links c;
     article_categories := article_categories c;
     article_hieracy_categories := article_hieracy_categories c;
     skip_articles := skip_articles c;
     skip_article_rules := skip_article_rules c;
     skip_article_categories := skip_article_categories c;
     skip_article_category_rules := v;
     skipped_articles := skipped_articles c |}.
Definition set_skipped_articles (v : dict string) (c : Crawler) : Crawler :=
  {| archive_path := archive_path c; save_path := save_path c;
     broken_links := broken_links c; heap := heap c;
     category_tree := category_tree c; category_list := category_list c;
     article_list := article_list c; open_categories := open_categories c;
     skip_categories := skip_categories c;
     skip_category_rules := skip_category_rules c;
     article_texts := article_texts c; article_links := article_links c;
     article_categories := article_categories c;
     article_hieracy_categories := article_hieracy_categories c;
     skip_articles := skip_articles c;
     skip_article_rules := skip_article_rules c;
     skip_article_categories := skip_article_categories c;
     skip_article_category_rules := skip_article_category_rules c;
     skipped_articles := v |}.

(** ** Iteration *)

(** [for x in l: body x] *)
Fixpoint for_each {A} (l : list A) (body : A -> M unit) : M unit :=
  match l with
  | [] => ret tt
  | x :: l' => run body x; for_each l' body
  end.

(** A list comprehension whose element expression can raise. *)
Fixpoint comprehension {A B} (l : list A) (f : A -> M B) : M (list B) :=
  match l with
  | [] => ret []
  | x :: l' => do y <- f x; do ys <- comprehension l' f; ret (y :: ys)
  end.

(** ** The objects behind [category_tree] *)

(** A new list object. *)
Definition new_list (l : list string) : M nat :=
  do c <- get_self;
  run modify_self (set_heap (heap c ++ [l]));
  ret (length (heap c)).

(** The contents of the list object at address [a]. *)
Definition read_list (a : nat) : M (list string) :=
  do c <- get_self;
  ret (default [] (heap c !! a)).

(** [l.append(x)] on the list object at address [a]. *)
Definition list_append (a : nat) (x : string) : M unit :=
  modify_self (fun c => set_heap (alter (fun l => l ++ [x]) a (heap c)) c).

(** [self.category_tree[k]] on the defaultdict: a missing key is bound
    to a new empty list first. *)
Definition category_tree_getitem (k : string) : M nat :=
  do c <- get_self;
  match dict_get k (category_tree c) with
  | Some a => ret a
  | None =>
      do a <- new_list [];
      run modify_self (fun c => set_category_tree (dict_set k a (category_tree c)) c);
      ret a
  end.

(** [d[k]] on a plain dict. *)
Definition getitem {V} (d : dict V) (k : string) : M V :=
  match dict_get k d with
  | Some v => ret v
  | None => raise KeyError
  end.

(** ** Files *)

(** [open(path, 'w')] followed by the given lines. *)
Definition write_lines (path : string) (lines : list string) : M unit :=
  fun s => (Returns tt, set_files (dict_set path (TextFile lines) (files s)) s).

(** [open(path, 'a')] without a write: the file is created when it is
    missing and left alone otherwise. *)
Definition open_append (path : string) : M unit :=
  fun s =>
    match dict_get path (files s) with
    | Some _ => (Returns tt, s)
    | None => (Returns tt, set_files (dict_set path (TextFile []) (files s)) s)
    end.

(** [open(path, 'r')] and the lines of the file. *)
Definition read_lines (path : string) : M (list string) :=
  fun s =>
    match dict_get path (files s) with
    | Some (TextFile lines) => (Returns lines, s)
    | Some (Snapshot _) => (Raises UnicodeDecodeError, s)
    | None => (Raises FileNotFoundError, s)
    end.

(** [print(line)] without [file=]: the line goes to standard output. *)
Definition print (line : string) : M unit :=
  fun s => (Returns tt, set_stdout (stdout s ++ [line]) s).

(** [f"{self.archive_path}"] *)
Definition format_path (p : option string) : string :=
  match p with
  | Some p => p
  | None => "None"
  end.

(** ** WikiCrawler.py *)

Module WikiCrawler.

(** A value of the meta record: a string or a list of strings. *)
Inductive meta_value :=
| MStr (s : string)
| MList (l : list string).

Section Crawler.
Variable requests_get : nat -> string -> get_result.
Variable BeautifulSoup : string -> document.
(** [hashlib.md5(link.encode('utf-8')).hexdigest()] *)
Variable md5_hexdigest : string -> string.
(** [re.match(rule, name)] is not [None] *)
Variable re_match : string -> string -> bool.
(** Bound on the continuation pages [getPages] follows. *)
Variable page_fuel : nat.
(** Bound on the iterations of the loop of [retrieveCategories]. *)
Variable ancestor_fuel : nat.

(** [save]: every attribute of the crawler goes to the snapshot. *)
Definition save (file_name : string) : M unit :=
  run modify_self (set_save_path (Some file_name));
  do c <- get_self;
  fun s => (Returns tt, set_files (dict_set file_name (Snapshot c) (files s)) s).

Definition addCategory (name : string) (link : option string)
  (root : option nat) : M WikiCategory.t :=
  do new_category <-
    WikiCategory.__init__ requests_get BeautifulSoup name link true;
  let new_link_of_category := WikiCategory.link new_category in
  do root <- match root with
             | None => new_list [""]
             | Some r => ret r
             end;
  run modify_self (fun c =>
    set_category_tree (dict_set new_link_of_category root (category_tree c)) c);
  do sub_categories <- WikiCategory.getSubCategories new_category;
  run modify_self (fun c =>
    set_category_list (dict_update (category_list c) sub_categories) c);
  run modify_self (fun c =>
    set_open_categories (dict_update (open_categories c) sub_categories) c);
  run for_each (keys sub_categories) (fun new_link =>
    do a <- category_tree_getitem new_link;
    list_append a new_link_of_category);
  do r <- WikiCategory.getPages requests_get BeautifulSoup page_fuel
            new_category;
  let category_pages := r.1 in
  let new_category := r.2 in
  run modify_self (fun c =>
    set_article_list (dict_update (article_list c) category_pages) c);
  run for_each (keys category_pages) (fun new_link =>
    do a <- category_tree_getitem new_link;
    list_append a new_link_of_category);
  ret new_category.

Definition startFrom (category : string) : M unit :=
  do init_category <- addCategory category None None;
  modify_self (fun c =>
    set_category_list
      (dict_set (WikiCategory.link init_category) category (category_list c))
      c).

Definition addSkipCategoryExplicit (skip : list string) : M unit :=
  modify_self (set_skip_categories skip).

Definition addSkipCategoryRulebased (skip_rules : list string) : M unit :=
  modify_self (set_skip_category_rules skip_rules).

Definition categoryIsValid (name : string) : M bool :=
  do c <- get_self;
  if bool_decide (name ∈ skip_categories c) then ret false
  else ret (negb (existsb (fun rule => re_match rule name)
                    (skip_category_rules c))).

(** One pass of the [for lvl in range(levels)] loop. *)
Definition followDeeper_level : M unit :=
  do c <- get_self;
  let process_categories := open_categories c in
  run modify_self (set_open_categories []);
  for_each process_categories (fun entry =>
    let link := entry.1 in
    let name := entry.2 in
    do valid <- categoryIsValid name;
    if valid then
      do root <- category_tree_getitem link;
      run addCategory name (Some link) (Some root);
      ret tt
    else ret tt).

Fixpoint followDeeper_range (levels : nat) : M unit :=
  match levels with
  | O => ret tt
  | S n => run followDeeper_level; followDeeper_range n
  end.

Definition followDeeper (levels : Z) : M unit :=
  followDeeper_range (Z.to_nat levels).

(** [for parent in ancestor_generation:
       next_ancestor_generation.update(self.category_tree[parent])] *)
Fixpoint gather_parents (generation : list string) (next : gset string)
  : M (gset string) :=
  match generation with
  | [] => ret next
  | parent :: rest =>
      do a <- category_tree_getitem parent;
      do l <- read_list a;
      gather_parents rest (next ∪ list_to_set l)
  end.

(** [any(a for a in ancestor_generation) > 0 and len(ancestors) < 100] *)
Definition ancestors_guard (ancestor_generation ancestors : gset string)
  : bool :=
  existsb (fun a => negb (String.eqb a "")) (elements ancestor_generation)
  && (Z.of_nat (size ancestors) <? 100).

(** The [while] loop of [retrieveCategories]. *)
Fixpoint ancestors_loop (fuel : nat)
  (ancestor_generation ancestors : gset string) : M (gset string) :=
  if ancestors_guard ancestor_generation ancestors then
    match fuel with
    | O => out_of_fuel
    | S fuel' =>
        do next_ancestor_generation <-
          gather_parents (elements ancestor_generation) ∅;
        let next_ancestor_generation := next_ancestor_generation ∖ ancestors in
        let ancestor_generation := next_ancestor_generation in
        ancestors_loop fuel' ancestor_generation
          (ancestors ∪ ancestor_generation)
    end
  else ret ancestors.

(** [[link for link, name in self.article_list.items() if name == article]] *)
Definition links_named (article : string) (article_list : dict string)
  : list string :=
  map fst (filter (fun entry => entry.2 = article) article_list).

(** The traversal of [retrieveCategories] from the article's link on. *)
Definition ancestors_of (article_link : string) : M (gset string) :=
  do a <- category_tree_getitem article_link;
  do parents <- read_list a;
  ancestors_loop ancestor_fuel (list_to_set parents) ∅.

(** The final comprehension of [retrieveCategories]. *)
Definition category_names (ancestors : gset string) : M (list string) :=
  do c <- get_self;
  comprehension (filter (fun a => a ≠ "") (elements ancestors)) (fun a =>
    do n <- getitem (category_list c) a;
    ret (Str.replace "Category:" "" n)).

Definition retrieveCategories (article : string) : M (list string) :=
  do c <- get_self;
  match links_named article (article_list c) with
  | [] => raise IndexError
  | article_link :: _ =>
      do ancestors <- ancestors_of article_link;
      category_names ancestors
  end.

Definition addSkipArticleExplicit (skip : list string) : M unit :=
  modify_self (set_skip_articles skip).

Definition addSkipArticleRulebased (skip_rules : list string) : M unit :=
  modify_self (set_skip_article_rules skip_rules).

Definition addSkipArticleCategoryBased (skip : list string) : M unit :=
  modify_self (set_skip_article_categories skip).

Definition addSkipArticleCategoryRuleBased (skip_rules : list string)
  : M unit :=
  modify_self (set_skip_article_category_rules skip_rules).

(** [self.skipped_articles.append[name] = reason]: [skipped_articles] is
    a dict, and a dict has no attribute [append]. *)
Definition skipped_articles_append_setitem (name reason : string) : M unit :=
  raise AttributeError.

(** [for rule in self.skip_article_rules: ...] of [articleIsValid] *)
Fixpoint articleIsValid_rules (rules : list string) (name : string)
  : M bool :=
  match rules with
  | [] => ret true
  | rule :: rest =>
      if re_match rule name then
        run skipped_articles_append_setitem name ("Rule: " +:+ rule);
        ret false
      else articleIsValid_rules rest name
  end.

Definition articleIsValid (name : string) : M bool :=
  do c <- get_self;
  if bool_decide (name ∈ skip_articles c) then
    run skipped_articles_append_setitem name ("Explicit: " +:+ name);
    ret false
  else articleIsValid_rules (skip_article_rules c) name.

(** [self.skipped_articles[name] = reason] *)
Definition skipped_articles_setitem (name reason : string) : M unit :=
  modify_self (fun c =>
    set_skipped_articles (dict_set name reason (skipped_articles c)) c).

(** The first rule of [rules] that matches [category]. *)
Definition first_matching_rule (rules : list string) (category : string)
  : option string :=
  List.find (fun rule => re_match rule category) rules.

Fixpoint articleCategoriesAreValid_loop (name : string)
  (categories : list string) : M bool :=
  match categories with
  | [] => ret true
  | category :: rest =>
      do c <- get_self;
      if bool_decide (category ∈ skip_article_categories c) then
        run skipped_articles_setitem name ("Category: " +:+ category);
        ret false
      else
        match first_matching_rule (skip_article_category_rules c) category with
        | Some rule =>
            run skipped_articles_setitem name ("Rule: " +:+ rule);
            ret false
        | None => articleCategoriesAreValid_loop name rest
        end
  end.

Definition articleCategoriesAreValid (name : string)
  (article_categories : dict string) : M bool :=
  articleCategoriesAreValid_loop name (values article_categories).

(** The directory itself is not part of the model: it is taken to
    exist once the path is set. *)
Definition setArchivePath (path : string) : M unit :=
  modify_self (set_archive_path (Some path)).

Definition index_path (c : Crawler) : string :=
  format_path (archive_path c) +:+ "/index.txt".

(** [_, link = line.strip().split('=')] *)
Definition unpack_entry (line : string) : M string :=
  match Str.split "=" (Str.strip line) with
  | [_; link] => ret link
  | _ => raise ValueError
  end.

Definition readIndex : M (list string) :=
  do c <- get_self;
  do lines <- read_lines (index_path c);
  comprehension lines unpack_entry.

Definition collectMetaInfo (name article_link : string)
  (article_categories : dict string) (categories : bool)
  : M (dict meta_value) :=
  let meta_info := [("Article", MStr name); ("Link", MStr article_link)] in
  if categories then
    do hierachical_categories <- retrieveCategories name;
    let meta_info :=
      dict_update meta_info
        [("Hierachical_categories", MList hierachical_categories)] in
    let category_link :=
      map (Str.replace "Category:" "")
        (filter (fun c => Str.contains " stubs" c = false)
           (values article_categories)) in
    ret (dict_update meta_info [("Article_categories", MList category_link)])
  else ret meta_info.

(** The value of a list-valued meta field; the fields the crawler stores
    are always lists. *)
Definition as_list (v : meta_value) : list string :=
  match v with
  | MList l => l
  | MStr s => [s]
  end.

(** [print(f"{name}: {value}", file=fp)] *)
Definition meta_line (entry : string * meta_value) : string :=
  match entry.2 with
  | MList l => entry.1 +:+ ": " +:+ Str.join ", " l
  | MStr s => entry.1 +:+ ": " +:+ s
  end.

Definition writeMetaInfo (article_link : string)
  (meta_infos : dict meta_value) : M unit :=
  run match dict_get "Article_categories" meta_infos with
      | Some v => modify_self (fun c =>
          set_article_categories
            (dict_set article_link (as_list v) (article_categories c)) c)
      | None => ret tt
      end;
  run match dict_get "Hierachical_categories" meta_infos with
      | Some v => modify_self (fun c =>
          set_article_hieracy_categories
            (dict_set article_link (as_list v) (article_hieracy_categories c))
            c)
      | None => ret tt
      end;
  run match dict_get "Article_links" meta_infos with
      | Some v => modify_self (fun c =>
          set_article_links
            (dict_set article_link (as_list v) (article_links c)) c)
      | None => ret tt
      end;
  do c <- get_self;
  match archive_path c with
  | Some path =>
      let identifyer := md5_hexdigest article_link in
      write_lines (path +:+ "/" +:+ identifyer +:+ ".meta")
        (map meta_line meta_infos)
  | None => ret tt
  end.

Definition saveArticle (article_link : string) (article_text : list string)
  : M unit :=
  do c <- get_self;
  let save_link :=
    match archive_path c with
    | None => TextKept article_text
    | Some _ => TextArchived
    end in
  run modify_self (fun c =>
    set_article_texts (dict_set article_link save_link (article_texts c)) c);
  match archive_path c with
  | Some path =>
      let identifyer := md5_hexdigest article_link in
      run write_lines (path +:+ "/" +:+ identifyer +:+ ".txt") article_text;
      run open_append (path +:+ "/index.txt");
      print (identifyer +:+ "=" +:+ article_link)
  | None => ret tt
  end.

(** The handler of the [try] around the page load:
    [self.broken_links.append(f"Link broken: {article_link}:" + e)].
    The class never creates [broken_links]; were the attribute there,
    the argument adds an exception to a string. *)
Definition record_broken_link {A} (article_link : string) (e : exn) : M A :=
  do c <- get_self;
  match broken_links c with
  | None => raise AttributeError
  | Some _ => raise TypeError
  end.

(** [if hasattr(self, 'save_path') and (i+1) % save_intervall == 0:
       self.save(self.save_path)] *)
Definition checkpoint (save_intervall : Z) (i : Z) : M unit :=
  do c <- get_self;
  match save_path c with
  | Some path =>
      if save_intervall =? 0 then raise ZeroDivisionError
      else if (i + 1) mod save_intervall =? 0 then save path
      else ret tt
  | None => ret tt
  end.

(** The body of the loop of [collectArticles] for the [i]-th pending
    article. *)
Definition collect_article (links text categories : bool)
  (save_intervall : Z) (i : Z) (article_link : string) : M unit :=
  do c <- get_self;
  do name <- getitem (article_list c) article_link;
  do name_is_valid <- articleIsValid name;
  do page <-
    try_except
      (WikiArticle.__init__ requests_get BeautifulSoup name
         (Some article_link) true)
      (fun e => record_broken_link article_link e);
  do article_categories <- WikiArticle.getHeadCategories page;
  do categories_are_valid <- articleCategoriesAreValid name article_categories;
  let article_is_valid := name_is_valid && categories_are_valid in
  run (if article_is_valid then
         do meta_info <-
           collectMetaInfo name article_link article_categories categories;
         do meta_info <-
           (if links then
              do page_links <- WikiArticle.getLinks page;
              ret (dict_update meta_info
                     [("Article_links", MList (keys page_links))])
            else ret meta_info);
         run (if text then
                do article_text <- WikiArticle.getText page;
                saveArticle article_link article_text
              else ret tt);
         writeMetaInfo article_link meta_info
       else ret tt);
  checkpoint save_intervall i.

(** [for i, article_link in enumerate(articles_to_collect)] from index
    [i] on. *)
Fixpoint collect_loop (links text categories : bool) (limit : Z)
  (save_intervall : Z) (i : Z) (pending : list string) : M unit :=
  match pending with
  | [] => ret tt
  | article_link :: rest =>
      if i =? limit then ret tt
      else
        run collect_article links text categories save_intervall i
              article_link;
        collect_loop links text categories limit save_intervall (i + 1) rest
  end.

(** [articles_to_collect] *)
Definition articles_to_collect (article_list : dict string)
  (artilces_loaded : list string) : gset string :=
  list_to_set (keys article_list) ∖ list_to_set artilces_loaded.

(** [artilces_loaded] *)
Definition artilces_loaded : M (list string) :=
  do c <- get_self;
  match archive_path c with
  | Some _ => readIndex
  | None => ret (keys (article_texts c))
  end.

Definition collectArticles (links text categories : bool)
  (limit : option Z) (save_intervall : Z) : M unit :=
  do loaded <- artilces_loaded;
  do c <- get_self;
  let pending := articles_to_collect (article_list c) loaded in
  let n_collect := Z.of_nat (size pending) in
  let limit := match limit with
               | None => n_collect
               | Some l => l
               end in
  collect_loop links text categories limit save_intervall 0
    (elements pending).

End Crawler.
End WikiCrawler.

(** * Reading the state, and concrete scenarios *)

(** The parent links recorded for [k]: a read of [category_tree] that
    does not touch the defaultdict. *)
Definition parents_of (c : Crawler) (k : string) : list string :=
  match dict_get k (category_tree c) with
  | Some a => default [] (heap c !! a)
  | None => []
  end.

(** [c] occurs in [s]. *)
Fixpoint occurs (c : ascii) (s : string) : bool :=
  match s with
  | EmptyString => false
  | String c' s' => Ascii.eqb c' c || occurs c s'
  end.

(** Some character of [s] is white space. *)
Fixpoint has_space (s : string) : bool :=
  match s with
  | EmptyString => false
  | String c s' => Str.isspace c || has_space s'
  end.

(** The line [saveArticle] formats for the index. *)
Definition index_entry (entry : string * string) : string :=
  entry.1 +:+ "=" +:+ entry.2.

(** A digest and a link as [saveArticle] would pair them: no [=] and no
    white space in either. *)
Definition well_formed_entry (entry : string * string) : Prop :=
  occurs "=" entry.1 = false /\ occurs "=" entry.2 = false
  /\ has_space entry.1 = false /\ has_space entry.2 = false.

(** The lines of the index of the archive, if it is a text file. *)
Definition index_lines (s : state) : option (list string) :=
  match dict_get (WikiCrawler.index_path (crawler s)) (files s) with
  | Some (TextFile lines) => Some lines
  | _ => None
  end.

(** A computation that never runs out of fuel. *)
Definition fuel_free {A} (m : M A) : Prop := forall s, (m s).1 <> OutOfFuel.

(** [m] moves every state to a state related to it by [R], whatever its
    outcome. *)
Definition stable {A} (R : relation state) (m : M A) : Prop :=
  forall s, R s (m s).2.

(** The two states differ in the network clock at most. *)
Definition same_but_clock (s s' : state) : Prop :=
  crawler s' = crawler s /\ files s' = files s /\ stdout s' = stdout s.

(** From [s] to [s'] the links in [P] keep the list object they are
    bound to, and every list object keeps its elements: it is extended at
    its end at most. *)
Definition edges_kept (P : string -> Prop) (s s' : state) : Prop :=
  (forall k a, P k ->
     dict_get k (category_tree (crawler s)) = Some a ->
     dict_get k (category_tree (crawler s')) = Some a)
  /\ (forall a l, heap (crawler s) !! a = Some l ->
        exists l', heap (crawler s') !! a = Some (l ++ l')).

(** The archive is at [path], its index exists, and the snapshot of the
    crawler does not go to the index. *)
Definition archive_ready (path : string) (s : state) : Prop :=
  archive_path (crawler s) = Some path
  /\ save_path (crawler s) <> Some (path +:+ "/index.txt")
  /\ dict_get (path +:+ "/index.txt") (files s) <> None.

(** From [s] to [s'] the archive stays ready, and neither its index nor
    the article index changes. *)
Definition index_kept (path : string) (s s' : state) : Prop :=
  archive_ready path s ->
  archive_ready path s'
  /\ dict_get (path +:+ "/index.txt") (files s')
     = dict_get (path +:+ "/index.txt") (files s)
  /\ article_list (crawler s') = article_list (crawler s).

(** The two states agree on the files and on what [collectArticles]
    reads of the crawler before its loop. *)
Definition bookkeeping (s s' : state) : Prop :=
  files s' = files s
  /\ archive_path (crawler s') = archive_path (crawler s)
  /\ save_path (crawler s') = save_path (crawler s)
  /\ article_list (crawler s') = article_list (crawler s).

(** The articles a call of [collectArticles] would go through. *)
Definition pending_articles (s : state) : outcome (gset string) :=
  match (WikiCrawler.artilces_loaded s).1 with
  | Returns loaded =>
      Returns
        (WikiCrawler.articles_to_collect (article_list (crawler s)) loaded)
  | Raises e => Raises e
  | OutOfFuel => OutOfFuel
  end.

Module Scenario.

Definition empty_document : document := mkDocument false [] [] [] [] [] [].

(** A small encyclopedia: the category Science has the subcategory
    Physics, which holds the one page A, whose only head category is
    Physics.  The body of a response is the
    URL that was asked for, and the parser tells the pages apart by it. *)
Definition physics_url : string :=
  "https://en.wikipedia.org/wiki/Category:Physics".
Definition page_A_url : string := "https://en.wikipedia.org/wiki/A".

Definition web (n : nat) (url : string) : get_result := Response 200 url.

Definition science_url : string :=
  "https://en.wikipedia.org/wiki/Category:Science".

Definition parse (text : string) : document :=
  if String.eqb text science_url then
    mkDocument false [("/wiki/Category:Physics", "Category:Physics")] [] []
      [] [] []
  else if String.eqb text physics_url then
    mkDocument false [] [("/wiki/A", "A")] [] [] [] []
  else if String.eqb text page_A_url then
    mkDocument false [] [] []
      [("/wiki/Category:Physics", "Category:Physics")] [] ["<HL1> A"]
  else empty_document.

(** The same encyclopedia when no request gets through. *)
Definition web_down (n : nat) (url : string) : get_result := ConnectionFailed.

(** The first request fails, every later one is answered. *)
Definition web_flaky (n : nat) (url : string) : get_result :=
  match n with
  | O => ConnectionFailed
  | S _ => Response 200 url
  end.

(** The digest function of the scenarios: MD5 on the link of the page
    A, the only link that is archived, and 32 zeros elsewhere. *)
Definition md5 (link : string) : string :=
  if String.eqb link "/wiki/A" then "8cc500a7fd9b832a8c2369b07849390f"
  else "00000000000000000000000000000000".

(** Rules without metacharacters: [re.match] then tests for a prefix. *)
Definition literal_match (rule name : string) : bool := String.prefix rule name.

Definition fresh : state := mkState _initVariables [] 0 [].

(** The crawler after [WikiCrawler('Physics')]. *)
Definition started : state :=
  (WikiCrawler.startFrom web parse 0 "Physics" fresh).2.

(** The crawler after [WikiCrawler('Science')]: Physics is known as a
    subcategory of Science and waits in the frontier. *)
Definition science_started : state :=
  (WikiCrawler.startFrom web parse 0 "Science" fresh).2.

(** ... with an archive whose index exists and is empty. *)
Definition archiving : state :=
  set_files [("arch/index.txt", TextFile [])]
    (set_crawler (set_archive_path (Some "arch") (crawler started)) started).

(** Two articles with one display name, under different categories. *)
Definition twins : state :=
  mkState
    (set_article_list
       [("/wiki/Mercury_(planet)", "Mercury");
        ("/wiki/Mercury_(element)", "Mercury")]
    (set_category_list
       [("/wiki/Category:Planets", "Category:Planets");
        ("/wiki/Category:Astronomy", "Category:Astronomy");
        ("/wiki/Category:Elements", "Category:Elements");
        ("/wiki/Category:Chemistry", "Category:Chemistry")]
    (set_category_tree
       [("/wiki/Mercury_(planet)", 0%nat); ("/wiki/Mercury_(element)", 1%nat);
        ("/wiki/Category:Planets", 2%nat); ("/wiki/Category:Elements", 3%nat);
        ("/wiki/Category:Astronomy", 4%nat);
        ("/wiki/Category:Chemistry", 5%nat)]
    (set_heap
       [["/wiki/Category:Planets"]; ["/wiki/Category:Elements"];
        ["/wiki/Category:Astronomy"]; ["/wiki/Category:Chemistry"];
        [""]; [""]]
       _initVariables))))
    [] 0 [].

(** A crawler that skips the article name Draft explicitly and, by rule,
    the names that start with List or with List of. *)
Definition skipping : state :=
  mkState
    (set_skip_articles ["Draft"]
       (set_skip_article_rules ["List"; "List of"] _initVariables))
    [] 0 [].

(** The same crawler after someone has set [broken_links] to an empty
    list from outside. *)
Definition with_broken_links : state :=
  let c := crawler archiving in
  set_crawler
    {| archive_path := archive_path c; save_path := save_path c;
       broken_links := Some [];
       heap := heap c; category_tree := category_tree c;
       category_list := category_list c; article_list := article_list c;
       open_categories := open_categories c;
       skip_categories := skip_categories c;
       skip_category_rules := skip_category_rules c;
       article_texts := article_texts c; article_links := article_links c;
       article_categories := article_categories c;
       article_hieracy_categories := article_hieracy_categories c;
       skip_articles := skip_articles c;
       skip_article_rules := skip_article_rules c;
       skip_article_categories := skip_article_categories c;
       skip_article_category_rules := skip_article_category_rules c;
       skipped_articles := skipped_articles c |}
    archiving.

(** An archive whose index holds one entry and the beginning of a
    second one, cut before the [=]. *)
Definition truncated : state :=
  set_files
    [("arch/index.txt",
      TextFile ["8cc500a7fd9b832a8c2369b07849390f=/wiki/A"; "4bbb91385c50"])]
    archiving.

(** The same archive with two complete entries. *)
Definition complete : state :=
  set_files
    [("arch/index.txt",
      TextFile ["8cc500a7fd9b832a8c2369b07849390f=/wiki/A";
                "4bbb91385c5020b678b5b671bc1d02bf=/wiki/Beta"])]
    archiving.

(** A category graph with a cycle: the article X is in Loop A, whose
    parent is Loop B, whose parent is Loop A again. *)
Definition cyclic : state :=
  mkState
    (set_article_list [("/wiki/X", "X")]
    (set_category_list
       [("/wiki/Category:Loop_A", "Category:Loop A");
        ("/wiki/Category:Loop_B", "Category:Loop B")]
    (set_category_tree
       [("/wiki/X", 0%nat); ("/wiki/Category:Loop_A", 1%nat);
        ("/wiki/Category:Loop_B", 2%nat)]
    (set_heap
       [["/wiki/Category:Loop_A"]; ["/wiki/Category:Loop_B"];
        ["/wiki/Category:Loop_A"]]
       _initVariables))))
    [] 0 [].

(** The link and the display name of the [i]-th of many categories. *)
Definition numbered_link (i : nat) : string := "/wiki/Category:P" +:+ pretty i.
Definition numbered_name (i : nat) : string := "Category:P" +:+ pretty i.

(** A wide graph: the article X is in the category Hub, and Hub is a
    subcategory of 101 categories P0 ... P100. *)
Definition crowded : state :=
  mkState
    (set_article_list [("/wiki/X", "X")]
    (set_category_list
       (("/wiki/Category:Hub", "Category:Hub")
        :: map (fun i => (numbered_link i, numbered_name i)) (seq 0 101))
    (set_category_tree [("/wiki/X", 0%nat); ("/wiki/Category:Hub", 1%nat)]
    (set_heap [["/wiki/Category:Hub"]; map numbered_link (seq 0 101)]
       _initVariables))))
    [] 0 [].

End Scenario.

(** * More of the crawler, and what is needed to speak about it *)

(** From [s] to [s'] nothing changes but the defaultdict behind
    [category_tree], and that one only gains links without parents: every
    link has the same parents in [s'] as in [s]. *)
Definition reads_graph (s s' : state) : Prop :=
  (exists h t, crawler s' = set_category_tree t (set_heap h (crawler s)))
  /\ files s' = files s /\ clock s' = clock s /\ stdout s' = stdout s
  /\ forall k, parents_of (crawler s') k = parents_of (crawler s) k.

(** [a] is reached from [k] by one parent edge or more. *)
Inductive ancestor (c : Crawler) : string -> string -> Prop :=
| ancestor_parent (k a : string) :
    a ∈ parents_of c k -> ancestor c k a
| ancestor_step (k p a : string) :
    p ∈ parents_of c k -> ancestor c p a -> ancestor c k a.

(** How often [c] occurs in [s]. *)
Fixpoint count_char (c : ascii) (s : string) : nat :=
  match s with
  | EmptyString => O
  | String c' s' => (if Ascii.eqb c' c then 1 else 0) + count_char c s'
  end.

(** A head category that the category policy of the crawler [c] rejects:
    it is in the explicit list, or some rule matches it. *)
Definition rejected_category (re_match : string -> string -> bool)
  (c : Crawler) (category : string) : bool :=
  bool_decide (category ∈ skip_article_categories c)
  || existsb (fun rule => re_match rule category)
       (skip_article_category_rules c).

(** The reason [articleCategoriesAreValid] records for a rejected
    category. *)
Definition rejection_reason (re_match : string -> string -> bool)
  (c : Crawler) (category : string) : string :=
  if bool_decide (category ∈ skip_article_categories c) then
    "Category: " +:+ category
  else
    match WikiCrawler.first_matching_rule re_match
            (skip_article_category_rules c) category with
    | Some rule => "Rule: " +:+ rule
    | None => ""
    end.

Module Cases.

(** The crawler started from Science, told to skip, by rule, the
    categories whose name starts with Category:Phys. *)
Definition pruning : state :=
  set_crawler
    (set_skip_category_rules ["Category:Phys"]
       (crawler Scenario.science_started))
    Scenario.science_started.

End Cases.

(** Every link of [category_tree] is bound to a list object that
    exists. *)
Definition graph_well_formed (c : Crawler) : Prop :=
  forall k a, dict_get k (category_tree c) = Some a ->
              (a < length (heap c))%nat.

(** From [s] to [s'] the crawler changes in its graph only, the lists and
    the defaultdict. *)
Definition writes_graph_only (s s' : state) : Prop :=
  exists h t, crawler s' = set_category_tree t (set_heap h (crawler s)).

Module Cases2.

(** The object [addCategory] returns for Physics. *)
Definition physics_object : WikiCategory.t :=
  WikiCategory.mk "Category:Physics" "/wiki/Category:Physics"
    (Some (mkDocument false [] [("/wiki/A", "A")] [] [] [] []))
    [("/wiki/A", "A")].

End Cases2.

Module Cases3.

(** A crawler that skips the articles of the category Living people
    explicitly and, by the literal rule [Category:Physics s], those of
    the categories whose name starts that way, such as Category:Physics
    stubs. *)
Definition category_policy : state :=
  mkState
    (set_skip_article_categories ["Category:Living people"]
       (set_skip_article_category_rules ["Category:Physics s"] _initVariables))
    [] 0 [].

(** Head categories of an article: a stub category, then an explicitly
    skipped one. *)
Definition head_categories : dict string :=
  [("/wiki/Category:Physics", "Category:Physics");
   ("/wiki/Category:Physics_stubs", "Category:Physics stubs");
   ("/wiki/Category:Living_people", "Category:Living people")].

End Cases3.

Module Cases4.

(** An archive whose index holds an entry for a link with [=] in it. *)
Definition equals_in_link : state :=
  set_files
    [("arch/index.txt",
      TextFile ["8cc500a7fd9b832a8c2369b07849390f=/wiki/A";
                "00000000000000000000000000000000=/wiki/E=mc2"])]
    Scenario.archiving.

(** The crawler with the archive path set and nothing in the archive
    directory yet. *)
Definition new_archive : state := set_files [] Scenario.archiving.

End Cases4.

(** [printCategoryHierachy] and [_printChildNodes] of the crawler. *)
Module Hierarchy.

Definition tab : string := String (ascii_of_nat 9) "".

(** [s * n] for a string [s] and an integer [n]: empty for [n <= 0]. *)
Definition str_mul (s : string) (n : Z) : string :=
  String.concat "" (replicate (Z.to_nat n) s).

(** ["/wiki/Category:" in link] *)
Definition is_category_link (link : string) : bool :=
  Str.contains "/wiki/Category:" link.

(** [[link for link, roots in self.category_tree.items()
      if node in roots and <keep link>]] *)
Definition links_below (c : Crawler) (node : string)
  (keep : string -> bool) : list string :=
  map fst
    (filter (fun entry : string * nat =>
               node ∈ default [] (heap c !! entry.2) /\ keep entry.1 = true)
       (category_tree c)).

(** The line printed for a child at [level]. *)
Definition hierarchy_line (level : Z) (name : string)
  (n_categories n_articles : nat) : string :=
  str_mul tab (level - 1) +:+ Str.replace "Category:" "" name
  +:+ "(" +:+ pretty n_categories +:+ " Categories,"
  +:+ pretty n_articles +:+ " Articles)".

(** [fuel] bounds the depth of the recursion. *)
Fixpoint _printChildNodes (fuel : nat) (node : string) (level max_level : Z)
  {struct fuel} : M unit :=
  do c <- get_self;
  let children := links_below c node is_category_link in
  for_each children (fun child =>
    do c <- get_self;
    let child_articles :=
      links_below c child (fun link => negb (is_category_link link)) in
    let child_categories := links_below c child is_category_link in
    do name <- getitem (category_list c) child;
    run print (hierarchy_line level name (length child_categories)
                 (length child_articles));
    if max_level >=? level then
      match fuel with
      | O => out_of_fuel
      | S fuel' => _printChildNodes fuel' child (level + 1) max_level
      end
    else ret tt).

(** The argument [node] is not used: the hierarchy is printed from the
    empty link. *)
Definition printCategoryHierachy (fuel : nat) (node : string)
  (max_level : Z) : M unit :=
  _printChildNodes fuel "" 1 max_level.

End Hierarchy.

(** From [s] to [s'] nothing changes but the output, which gains the
    lines [out]. *)
Definition prints (out : list string) (s s' : state) : Prop :=
  crawler s' = crawler s /\ files s' = files s /\ clock s' = clock s
  /\ stdout s' = stdout s ++ out.

Module Cases5.

(** Science with its subcategory Physics and the article A of Physics,
    as [startFrom] and one level of [followDeeper] leave them. *)
Definition two_levels : state :=
  mkState
    (set_article_list [("/wiki/A", "A")]
    (set_category_list
       [("/wiki/Category:Science", "Science");
        ("/wiki/Category:Physics", "Category:Physics")]
    (set_category_tree
       [("/wiki/Category:Science", 0%nat);
        ("/wiki/Category:Physics", 1%nat); ("/wiki/A", 2%nat)]
    (set_heap
       [[""]; ["/wiki/Category:Science"]; ["/wiki/Category:Physics"]]
       _initVariables))))
    [] 0 [].

End Cases5.

(** From [s] to [s'] the crawler keeps its [save_path]: the attribute
    stays missing, or stays what it is. *)
Definition save_path_kept (s s' : state) : Prop :=
  save_path (crawler s') = save_path (crawler s).

Module Cases6.

(** The archiving crawler, told to skip the articles of the category
    Physics. *)
Definition strict : state :=
  set_crawler
    (set_skip_article_categories ["Category:Physics"]
       (crawler Scenario.archiving))
    Scenario.archiving.

End Cases6.

(** * Properties *)

(** ** The monad *)

Lemma bind_ret_l {A B} (a : A) (k : A -> M B) (s : state) :
  bind (ret a) k s = k a s.
Proof. reflexivity. Qed.

Lemma bind_assoc {A B C} (m : M A) (k : A -> M B) (h : B -> M C) (s : state) :
  bind (bind m k) h s = bind m (fun a => bind (k a) h) s.
Proof. unfold bind. destruct (m s) as [[a|e|] s']; reflexivity. Qed.

Lemma bind_ext {A B} (m : M A) (k k' : A -> M B) (s : state) :
  (forall a s', k a s' = k' a s') -> bind m k s = bind m k' s.
Proof.
  intros H. unfold bind. destruct (m s) as [[a|e|] s']; [apply H|done|done].
Qed.

Lemma bind_returns {A B} (m : M A) (k : A -> M B) (s s' : state) (a : A) :
  m s = (Returns a, s') -> bind m k s = k a s'.
Proof. intros H. unfold bind. rewrite H. reflexivity. Qed.

Lemma bind_raises {A B} (m : M A) (k : A -> M B) (s s' : state) (e : exn) :
  m s = (Raises e, s') -> bind m k s = (Raises e, s').
Proof. intros H. unfold bind. rewrite H. reflexivity. Qed.

Lemma bind_out_of_fuel {A B} (m : M A) (k : A -> M B) (s s' : state) :
  m s = (OutOfFuel, s') -> bind m k s = (OutOfFuel, s').
Proof. intros H. unfold bind. rewrite H. reflexivity. Qed.

Lemma bind_ret_r (m : M unit) (s : state) :
  bind m (fun _ => ret tt) s = m s.
Proof. unfold bind. destruct (m s) as [[[]|e|] s']; reflexivity. Qed.

(** ** Frontier expansion by levels *)

Section FollowDeeper.
Variable requests_get : nat -> string -> get_result.
Variable BeautifulSoup : string -> document.
Variable re_match : string -> string -> bool.
Variable page_fuel : nat.

Local Abbreviation followDeeper :=
  (WikiCrawler.followDeeper requests_get BeautifulSoup re_match page_fuel).
Local Abbreviation followDeeper_range :=
  (WikiCrawler.followDeeper_range requests_get BeautifulSoup re_match
     page_fuel).

Lemma followDeeper_range_add (n m : nat) (s : state) :
  followDeeper_range (n + m) s
  = (run followDeeper_range n; followDeeper_range m) s.
Proof.
  revert s. induction n as [|n IH]; intros s.
  - reflexivity.
  - cbn [Nat.add WikiCrawler.followDeeper_range]. rewrite bind_assoc.
    apply bind_ext. intros _ s'. apply IH.
Qed.

(** C8.  [followDeeper(2)] is [followDeeper(1)] followed by
    [followDeeper(1)]: from every crawler state both end in the same
    outcome and in the same state, hence in the same graph, category
    index, article index and frontier.  When the first level raises,
    both stop there. *)
Theorem followDeeper_two_levels (s : state) :
  followDeeper 2 s = (run followDeeper 1; followDeeper 1) s.
Proof.
  unfold WikiCrawler.followDeeper.
  change (Z.to_nat 2) with (1 + 1)%nat. change (Z.to_nat 1) with 1%nat.
  apply followDeeper_range_add.
Qed.

(** A level swaps the frontier into the batch, clears it, and expands
    the batch only. *)
Lemma followDeeper_level_batch (s : state) :
  WikiCrawler.followDeeper_level requests_get BeautifulSoup re_match
    page_fuel s
  = for_each (open_categories (crawler s)) (fun entry =>
      do valid <- WikiCrawler.categoryIsValid re_match entry.2;
      if valid then
        do root <- category_tree_getitem entry.1;
        run WikiCrawler.addCategory requests_get BeautifulSoup page_fuel
              entry.2 (Some entry.1) (Some root);
        ret tt
      else ret tt)
      (set_crawler (set_open_categories [] (crawler s)) s).
Proof. reflexivity. Qed.

End FollowDeeper.

(** ** Resolving an article name *)

Lemma links_named_none (article : string) (d : dict string) :
  Forall (fun entry => entry.2 <> article) d ->
  WikiCrawler.links_named article d = [].
Proof.
  unfold WikiCrawler.links_named. induction 1 as [|e d He _ IH]; [reflexivity|].
  rewrite filter_cons_False by exact He. exact IH.
Qed.

Lemma links_named_first (article link : string) (l1 l2 : dict string) :
  Forall (fun entry => entry.2 <> article) l1 ->
  WikiCrawler.links_named article (l1 ++ (link, article) :: l2)
  = link :: WikiCrawler.links_named article l2.
Proof.
  intros H. unfold WikiCrawler.links_named.
  rewrite filter_app, filter_cons_True by reflexivity.
  apply links_named_none in H. unfold WikiCrawler.links_named in H.
  apply map_eq_nil in H. rewrite H. reflexivity.
Qed.

(** C10.  A name that is the display name of no article makes
    [retrieveCategories] raise [IndexError] (element 0 of the empty list
    of matching links) and leaves the crawler as it was; a name shared by
    several links is resolved to the first link that carries it, whatever
    follows in the article index. *)
Theorem retrieveCategories_unknown_and_shared_names
  (fuel : nat) (s : state) (unknown article link : string)
  (l1 l2 : dict string) :
  Forall (fun entry => entry.2 <> unknown) (article_list (crawler s)) ->
  article_list (crawler s) = l1 ++ (link, article) :: l2 ->
  Forall (fun entry => entry.2 <> article) l1 ->
  WikiCrawler.retrieveCategories fuel unknown s = (Raises IndexError, s)
  /\ WikiCrawler.retrieveCategories fuel article s
     = (do ancestors <- WikiCrawler.ancestors_of fuel link;
        WikiCrawler.category_names ancestors) s.
Proof.
  intros Hunknown Hlist Hfirst. split.
  - unfold WikiCrawler.retrieveCategories, bind, get_self.
    rewrite links_named_none by exact Hunknown. reflexivity.
  - unfold WikiCrawler.retrieveCategories at 1. unfold bind at 1, get_self.
    rewrite Hlist, links_named_first by exact Hfirst. reflexivity.
Qed.

(** The two cases on the crawler with the two Mercury articles: Venus is
    unknown, Mercury is shared. *)
Lemma retrieveCategories_unknown_and_shared_names_witness :
  WikiCrawler.retrieveCategories 101 "Venus" Scenario.twins
  = (Raises IndexError, Scenario.twins)
  /\ WikiCrawler.retrieveCategories 101 "Mercury" Scenario.twins
     = (do ancestors <- WikiCrawler.ancestors_of 101 "/wiki/Mercury_(planet)";
        WikiCrawler.category_names ancestors) Scenario.twins.
Proof.
  apply (retrieveCategories_unknown_and_shared_names 101 Scenario.twins
           "Venus" "Mercury" "/wiki/Mercury_(planet)" []
           [("/wiki/Mercury_(element)", "Mercury")]).
  - repeat constructor; discriminate.
  - reflexivity.
  - constructor.
Defined.

(** On the two Mercury articles the planet comes first, and its
    ancestors are the answer. *)
Example retrieveCategories_twins :
  (WikiCrawler.retrieveCategories 101 "Mercury" Scenario.twins).1
  = Returns ["Astronomy"].
Proof. vm_compute. reflexivity. Qed.

(** ** Article skip rules *)

Lemma articleIsValid_rules_raises (re_match : string -> string -> bool)
  (rules : list string) (name : string) (s : state) :
  WikiCrawler.articleIsValid_rules re_match rules name s
  = (if existsb (fun rule => re_match rule name) rules
     then Raises AttributeError else Returns true, s).
Proof.
  induction rules as [|rule rules IH]; [reflexivity|].
  cbn [WikiCrawler.articleIsValid_rules existsb].
  destruct (re_match rule name); [reflexivity | exact IH].
Qed.

Lemma articleIsValid_eq
  (re_match : string -> string -> bool) (name : string) (s : state) :
  WikiCrawler.articleIsValid re_match name s
  = (if bool_decide (name ∈ skip_articles (crawler s))
        || existsb (fun rule => re_match rule name)
             (skip_article_rules (crawler s))
     then Raises AttributeError else Returns true, s).
Proof.
  unfold WikiCrawler.articleIsValid, bind, get_self.
  destruct (bool_decide (name ∈ skip_articles (crawler s))); [reflexivity|].
  apply articleIsValid_rules_raises.
Qed.

(** C6 (what the code does).  [articleIsValid] looks at the explicit set
    first and then at the rules in order, but at the first match the
    assignment [self.skipped_articles.append[name] = ...] raises
    [AttributeError]: the call neither returns [False] nor records a
    reason, and [skipped_articles] is left as it was.  A name that
    matches nothing is accepted. *)
Theorem articleIsValid_raises_on_match
  (re_match : string -> string -> bool) (name : string) (s : state) :
  WikiCrawler.articleIsValid re_match name s
  = (if bool_decide (name ∈ skip_articles (crawler s))
        || existsb (fun rule => re_match rule name)
             (skip_article_rules (crawler s))
     then Raises AttributeError else Returns true, s)
  /\ (WikiCrawler.articleIsValid re_match name s).1 <> Returns false.
Proof.
  split; [apply articleIsValid_eq|]. rewrite articleIsValid_eq.
  destruct (_ || _); discriminate.
Qed.

(** The explicitly skipped name and a name matched by both rules, on a
    concrete crawler. *)
Example articleIsValid_explicit_and_rule :
  WikiCrawler.articleIsValid Scenario.literal_match "Draft" Scenario.skipping
  = (Raises AttributeError, Scenario.skipping)
  /\ WikiCrawler.articleIsValid Scenario.literal_match "List of moons"
       Scenario.skipping
     = (Raises AttributeError, Scenario.skipping)
  /\ WikiCrawler.articleIsValid Scenario.literal_match "Moon"
       Scenario.skipping
     = (Returns true, Scenario.skipping).
Proof. repeat split. Qed.

(** ** The retry budget of the fetchers *)

Section Retry.
Variable requests_get : nat -> string -> get_result.
Variable BeautifulSoup : string -> document.

Local Abbreviation get := (get_and_raise_for_status requests_get).

(** Every request advances the clock by one, whatever its outcome. *)
Lemma get_ticks (url : string) (s : state) :
  (get url s).2 = set_clock (S (clock s)) s.
Proof.
  unfold get_and_raise_for_status.
  destruct (requests_get (clock s) url) as [code text|]; [|reflexivity].
  destruct (_ && _); reflexivity.
Qed.

Lemma get_eq (url : string) (s : state) (o : outcome string) :
  (get url s).1 = o -> get url s = (o, set_clock (S (clock s)) s).
Proof.
  intros H. rewrite <- H, <- (get_ticks url s). apply surjective_pairing.
Qed.

Lemma get_not_out_of_fuel (url : string) (s : state) :
  (get url s).1 <> OutOfFuel.
Proof.
  unfold get_and_raise_for_status.
  destruct (requests_get (clock s) url) as [code text|]; [|discriminate].
  destruct (_ && _); discriminate.
Qed.

Lemma get_raises_only_RequestException (url : string) (s : state) (e : exn) :
  (get url s).1 = Raises e -> e = RequestException.
Proof.
  unfold get_and_raise_for_status.
  destruct (requests_get (clock s) url) as [code text|];
    [destruct (_ && _)|]; simpl; congruence.
Qed.

(** The retry contract of [WikiCategory._make_request]: the first of
    three attempts that succeeds gives the response. *)
Lemma _make_request_first_success (url text : string) (s : state) :
  (get url s).1 = Returns text ->
  WikiCategory._make_request requests_get url s
  = (Returns (Some text), set_clock (S (clock s)) s).
Proof.
  intros H. unfold WikiCategory._make_request. simpl.
  unfold try_except, bind. rewrite (get_eq _ _ _ H). reflexivity.
Qed.

Lemma _make_request_second_success (url text : string) (s : state) :
  (get url s).1 = Raises RequestException ->
  (get url (set_clock (S (clock s)) s)).1 = Returns text ->
  WikiCategory._make_request requests_get url s
  = (Returns (Some text), set_clock (S (S (clock s))) s).
Proof.
  intros H1 H2. unfold WikiCategory._make_request. simpl.
  unfold try_except at 1. unfold bind at 1. rewrite (get_eq _ _ _ H1).
  simpl. unfold try_except, bind. rewrite (get_eq _ _ _ H2). reflexivity.
Qed.

Lemma _make_request_third_success (url text : string) (s : state) :
  (get url s).1 = Raises RequestException ->
  (get url (set_clock (S (clock s)) s)).1 = Raises RequestException ->
  (get url (set_clock (S (S (clock s))) s)).1 = Returns text ->
  WikiCategory._make_request requests_get url s
  = (Returns (Some text), set_clock (S (S (S (clock s)))) s).
Proof.
  intros H1 H2 H3. unfold WikiCategory._make_request. simpl.
  unfold try_except at 1. unfold bind at 1. rewrite (get_eq _ _ _ H1).
  simpl. unfold try_except at 1. unfold bind at 1.
  rewrite (get_eq _ _ _ H2).
  change (set_clock (S (clock (set_clock (S (clock s)) s)))
            (set_clock (S (clock s)) s))
    with (set_clock (S (S (clock s))) s).
  simpl. unfold try_except, bind. rewrite (get_eq _ _ _ H3). reflexivity.
Qed.

(** After the third failed attempt the error is raised again. *)
Lemma _make_request_budget_exhausted (url : string) (s : state) :
  (get url s).1 = Raises RequestException ->
  (get url (set_clock (S (clock s)) s)).1 = Raises RequestException ->
  (get url (set_clock (S (S (clock s))) s)).1 = Raises RequestException ->
  WikiCategory._make_request requests_get url s
  = (Raises RequestException, set_clock (S (S (S (clock s)))) s).
Proof.
  intros H1 H2 H3. unfold WikiCategory._make_request. simpl.
  unfold try_except at 1. unfold bind at 1. rewrite (get_eq _ _ _ H1).
  simpl. unfold try_except at 1. unfold bind at 1.
  rewrite (get_eq _ _ _ H2).
  change (set_clock (S (clock (set_clock (S (clock s)) s)))
            (set_clock (S (clock s)) s))
    with (set_clock (S (S (clock s))) s).
  simpl. unfold try_except, bind. rewrite (get_eq _ _ _ H3). reflexivity.
Qed.

(** [WikiArticle(name, link)] makes one request and raises its error. *)
Lemma article_init_single_attempt (name link : string) (s : state) :
  link <> "" ->
  (get (WikiArticle.BASE_URL +:+ link) s).1 = Raises RequestException ->
  WikiArticle.__init__ requests_get BeautifulSoup name (Some link) true s
  = (Raises RequestException, set_clock (S (clock s)) s).
Proof.
  intros Hlink H1. unfold WikiArticle.__init__.
  apply String.eqb_neq in Hlink. rewrite Hlink.
  unfold WikiArticle._load. cbn [WikiArticle.link].
  apply bind_raises, get_eq, H1.
Qed.

(** C9 (what the code does).  A category page is asked for up to three
    times, an article page once: when the first request for a URL fails
    and the second would be answered, [WikiCategory._make_request]
    returns the second response, while [WikiArticle(name, link)] raises
    the error of the first and makes no second request. *)
Theorem article_load_has_no_retry
  (name link text : string) (s : state) :
  link <> "" ->
  (get (WikiArticle.BASE_URL +:+ link) s).1 = Raises RequestException ->
  (get (WikiArticle.BASE_URL +:+ link) (set_clock (S (clock s)) s)).1
  = Returns text ->
  WikiArticle.__init__ requests_get BeautifulSoup name (Some link) true s
  = (Raises RequestException, set_clock (S (clock s)) s)
  /\ WikiCategory._make_request requests_get (WikiArticle.BASE_URL +:+ link) s
     = (Returns (Some text), set_clock (S (S (clock s))) s).
Proof.
  intros Hlink H1 H2. split.
  - apply article_init_single_attempt; assumption.
  - apply _make_request_second_success; assumption.
Qed.

End Retry.

(** The two fetchers on a network whose first answer is lost. *)
Lemma article_load_has_no_retry_witness :
  WikiArticle.__init__ Scenario.web_flaky Scenario.parse "A" (Some "/wiki/A")
    true Scenario.fresh
  = (Raises RequestException, set_clock 1 Scenario.fresh)
  /\ WikiCategory._make_request Scenario.web_flaky
       (WikiArticle.BASE_URL +:+ "/wiki/A") Scenario.fresh
     = (Returns (Some Scenario.page_A_url), set_clock 2 Scenario.fresh).
Proof.
  apply (article_load_has_no_retry Scenario.web_flaky Scenario.parse "A"
           "/wiki/A" Scenario.page_A_url Scenario.fresh).
  - discriminate.
  - reflexivity.
  - reflexivity.
Defined.

(** ** The ancestors of an article *)

(** C3 (what the code does).  After [WikiCrawler('Physics')] on an
    encyclopedia whose category Physics holds the page A, the parent list
    of A is the link of Physics and Physics is in the category index, yet
    [retrieveCategories('A')] returns the empty list: the visited set
    starts empty and only receives the generations after the first, so
    the direct parent category is not in the result. *)
Theorem retrieveCategories_omits_direct_parent :
  parents_of (crawler Scenario.started) "/wiki/A" = ["/wiki/Category:Physics"]
  /\ dict_get "/wiki/Category:Physics" (category_list (crawler Scenario.started))
     = Some "Physics"
  /\ WikiCrawler.retrieveCategories 101 "A" Scenario.started
     = (Returns [], Scenario.started).
Proof. vm_compute. repeat split. Qed.

(** ** Reading the index of the archive *)

Lemma split_no_separator (sep : ascii) (s : string) :
  occurs sep s = false -> Str.split sep s = [s].
Proof.
  induction s as [|c s IH]; [reflexivity|]. cbn [occurs Str.split].
  intros H. apply orb_false_iff in H as [Hc Hs].
  rewrite Hc, (IH Hs). reflexivity.
Qed.

Lemma split_one_separator (sep : ascii) (d l : string) :
  occurs sep d = false -> occurs sep l = false ->
  Str.split sep (d +:+ String sep l) = [d; l].
Proof.
  intros Hd Hl. induction d as [|c d IH].
  - change ("" +:+ String sep l) with (String sep l). cbn [Str.split].
    rewrite Ascii.eqb_refl, (split_no_separator _ _ Hl). reflexivity.
  - cbn [occurs] in Hd. apply orb_false_iff in Hd as [Hc Hd].
    change (String c d +:+ String sep l)
      with (String c (d +:+ String sep l)).
    cbn [Str.split]. rewrite Hc, (IH Hd). reflexivity.
Qed.

Lemma lstrip_no_space (s : string) : has_space s = false -> Str.lstrip s = s.
Proof.
  destruct s as [|c s]; [reflexivity|]. cbn. intros H.
  apply orb_false_iff in H as [-> _]. reflexivity.
Qed.

Lemma rstrip_no_space (s : string) : has_space s = false -> Str.rstrip s = s.
Proof.
  induction s as [|c s IH]; [reflexivity|]. cbn [has_space Str.rstrip].
  intros H. apply orb_false_iff in H as [Hc Hs]. rewrite (IH Hs), Hc.
  destruct s; reflexivity.
Qed.

Lemma strip_no_space (s : string) : has_space s = false -> Str.strip s = s.
Proof.
  intros H. unfold Str.strip. rewrite (lstrip_no_space _ H).
  apply rstrip_no_space, H.
Qed.

Lemma has_space_append (a b : string) :
  has_space (a +:+ b) = has_space a || has_space b.
Proof.
  induction a as [|c a IH]; [reflexivity|].
  change (String c a +:+ b) with (String c (a +:+ b)).
  cbn [has_space]. rewrite IH. apply orb_assoc.
Qed.

Lemma occurs_lstrip (c : ascii) (s : string) :
  occurs c s = false -> occurs c (Str.lstrip s) = false.
Proof.
  induction s as [|c' s IH]; [reflexivity|]. cbn [Str.lstrip]. intros H.
  destruct (Str.isspace c'); [|exact H].
  cbn in H. apply orb_false_iff in H as [_ H]. apply IH, H.
Qed.

Lemma occurs_rstrip (c : ascii) (s : string) :
  occurs c s = false -> occurs c (Str.rstrip s) = false.
Proof.
  induction s as [|c' s IH]; [reflexivity|]. cbn [Str.rstrip occurs].
  intros H. apply orb_false_iff in H as [Hc Hs]. specialize (IH Hs).
  destruct (Str.rstrip s) as [|c'' r].
  - destruct (Str.isspace c'); [reflexivity|]. cbn. rewrite Hc. reflexivity.
  - cbn [occurs]. cbn [occurs] in IH. rewrite Hc, IH. reflexivity.
Qed.

Lemma occurs_strip (c : ascii) (s : string) :
  occurs c s = false -> occurs c (Str.strip s) = false.
Proof. intros H. apply occurs_rstrip, occurs_lstrip, H. Qed.

(** A well-formed entry unpacks to its link. *)
Lemma unpack_entry_well_formed (entry : string * string) (s : state) :
  well_formed_entry entry ->
  WikiCrawler.unpack_entry (index_entry entry) s = (Returns entry.2, s).
Proof.
  intros (Hd & Hl & Sd & Sl). unfold WikiCrawler.unpack_entry, index_entry.
  rewrite strip_no_space.
  - change (entry.1 +:+ "=" +:+ entry.2)
      with (entry.1 +:+ String "=" entry.2).
    rewrite (split_one_separator _ _ _ Hd Hl). reflexivity.
  - rewrite !has_space_append, Sd, Sl. reflexivity.
Qed.

(** A line without [=] cannot be unpacked. *)
Lemma unpack_entry_no_separator (line : string) (s : state) :
  occurs "=" line = false ->
  WikiCrawler.unpack_entry line s = (Raises ValueError, s).
Proof.
  intros H. unfold WikiCrawler.unpack_entry.
  rewrite (split_no_separator _ _ (occurs_strip _ _ H)). reflexivity.
Qed.

(** Unpacking a line is pure, and [ValueError] is its only failure. *)
Lemma unpack_entry_cases (line : string) (s : state) :
  (exists link, WikiCrawler.unpack_entry line s = (Returns link, s))
  \/ WikiCrawler.unpack_entry line s = (Raises ValueError, s).
Proof.
  unfold WikiCrawler.unpack_entry.
  destruct (Str.split "=" (Str.strip line)) as [|a [|b [|c l]]];
    [right|right|left; exists b|right]; reflexivity.
Qed.

Lemma comprehension_well_formed (entries : list (string * string))
  (s : state) :
  Forall well_formed_entry entries ->
  comprehension (map index_entry entries) WikiCrawler.unpack_entry s
  = (Returns (map snd entries), s).
Proof.
  induction 1 as [|e entries He _ IH]; [reflexivity|].
  cbn [map comprehension]. unfold bind at 1.
  rewrite (unpack_entry_well_formed _ _ He).
  unfold bind at 1. rewrite IH. reflexivity.
Qed.

Lemma comprehension_malformed (lines : list string) (s : state) :
  Exists (fun line => occurs "=" line = false) lines ->
  comprehension lines WikiCrawler.unpack_entry s = (Raises ValueError, s).
Proof.
  induction lines as [|line lines IH]; intros H; [inversion H|].
  cbn [comprehension]. unfold bind at 1.
  destruct (unpack_entry_cases line s) as [[link Hl]|Hl]; rewrite Hl;
    [|reflexivity].
  unfold bind at 1. rewrite IH; [reflexivity|].
  inversion H as [? ? Hbad|? ? Hbad]; subst; [|exact Hbad].
  rewrite (unpack_entry_no_separator _ s Hbad) in Hl. discriminate.
Qed.

Lemma readIndex_lines (s : state) (lines : list string) :
  index_lines s = Some lines ->
  WikiCrawler.readIndex s = comprehension lines WikiCrawler.unpack_entry s.
Proof.
  unfold index_lines, WikiCrawler.readIndex, bind, get_self, read_lines.
  destruct (dict_get _ _) as [[l|c]|]; [|discriminate|discriminate].
  intros [= ->]. reflexivity.
Qed.

(** C7, amended.  [readIndex] is all or nothing.  When every line of the
    index is a well-formed [digest=link] entry it returns the links of
    all entries in file order; when some line holds no [=] -- the last
    one or any other -- it raises [ValueError] and returns no link at
    all. *)
Theorem readIndex_all_or_nothing
  (s : state) (entries : list (string * string))
  (s' : state) (lines' : list string) :
  index_lines s = Some (map index_entry entries) ->
  Forall well_formed_entry entries ->
  index_lines s' = Some lines' ->
  Exists (fun line => occurs "=" line = false) lines' ->
  WikiCrawler.readIndex s = (Returns (map snd entries), s)
  /\ WikiCrawler.readIndex s' = (Raises ValueError, s').
Proof.
  intros Hs Hwf Hs' Hbad. split.
  - rewrite (readIndex_lines _ _ Hs). apply comprehension_well_formed, Hwf.
  - rewrite (readIndex_lines _ _ Hs'). apply comprehension_malformed, Hbad.
Qed.

(** The two cases on the archive of the scenarios: a complete index and
    one with a line cut short. *)
Lemma readIndex_all_or_nothing_witness :
  WikiCrawler.readIndex Scenario.complete
  = (Returns ["/wiki/A"; "/wiki/Beta"], Scenario.complete)
  /\ WikiCrawler.readIndex Scenario.truncated
     = (Raises ValueError, Scenario.truncated).
Proof.
  apply (readIndex_all_or_nothing Scenario.complete
           [("8cc500a7fd9b832a8c2369b07849390f", "/wiki/A");
            ("4bbb91385c5020b678b5b671bc1d02bf", "/wiki/Beta")]
           Scenario.truncated
           ["8cc500a7fd9b832a8c2369b07849390f=/wiki/A"; "4bbb91385c50"]).
  - reflexivity.
  - repeat constructor.
  - reflexivity.
  - right. left. reflexivity.
Defined.

(** C7 as stated fails: with one complete entry followed by a line cut
    before its [=], [readIndex] does not return the link of the complete
    entry; the whole read raises [ValueError]. *)
Lemma readIndex_truncated_line_fails :
  index_lines Scenario.truncated
  = Some ["8cc500a7fd9b832a8c2369b07849390f=/wiki/A"; "4bbb91385c50"]
  /\ (WikiCrawler.readIndex Scenario.truncated).1 = Raises ValueError
  /\ (WikiCrawler.readIndex Scenario.truncated).1 <> Returns ["/wiki/A"].
Proof. vm_compute. repeat split. discriminate. Qed.

(** ** Termination of the ancestor traversal *)

Lemma fuel_free_ret {A} (a : A) : fuel_free (ret a).
Proof. intros s. discriminate. Qed.

Lemma fuel_free_raise {A} (e : exn) : fuel_free (@raise A e).
Proof. intros s. discriminate. Qed.

Lemma fuel_free_bind {A B} (m : M A) (k : A -> M B) :
  fuel_free m -> (forall a, fuel_free (k a)) -> fuel_free (bind m k).
Proof.
  intros Hm Hk s. unfold bind. specialize (Hm s).
  destruct (m s) as [[a|e|] s']; [apply Hk | discriminate | contradiction].
Qed.

Lemma fuel_free_comprehension {A B} (l : list A) (f : A -> M B) :
  (forall a, fuel_free (f a)) -> fuel_free (comprehension l f).
Proof.
  intros Hf. induction l as [|x l IH]; [apply fuel_free_ret|].
  cbn [comprehension]. apply fuel_free_bind; [apply Hf|]. intros y.
  apply fuel_free_bind; [exact IH|]. intros ys. apply fuel_free_ret.
Qed.

Lemma category_tree_getitem_returns (k : string) (s : state) :
  exists a s', category_tree_getitem k s = (Returns a, s').
Proof.
  unfold category_tree_getitem, bind, get_self.
  destruct (dict_get k (category_tree (crawler s))); eauto.
Qed.

(** Collecting the parents of a generation never fails. *)
Lemma gather_parents_returns (generation : list string) (next : gset string)
  (s : state) :
  exists r s', WikiCrawler.gather_parents generation next s = (Returns r, s').
Proof.
  revert next s. induction generation as [|p ps IH]; intros next s.
  - eexists _, _. reflexivity.
  - cbn [WikiCrawler.gather_parents]. unfold bind at 1.
    destruct (category_tree_getitem_returns p s) as (a & s' & ->).
    unfold bind at 1, read_list at 1, get_self, bind. apply IH.
Qed.

Lemma ancestors_loop_unfold (fuel : nat) (generation ancestors : gset string) :
  WikiCrawler.ancestors_loop fuel generation ancestors
  = if WikiCrawler.ancestors_guard generation ancestors then
      match fuel with
      | O => out_of_fuel
      | S fuel' =>
          do next <- WikiCrawler.gather_parents (elements generation) ∅;
          WikiCrawler.ancestors_loop fuel' (next ∖ ancestors)
            (ancestors ∪ (next ∖ ancestors))
      end
    else ret ancestors.
Proof. destruct fuel; reflexivity. Qed.

Lemma ancestors_guard_empty (ancestors : gset string) :
  WikiCrawler.ancestors_guard ∅ ancestors = false.
Proof. unfold WikiCrawler.ancestors_guard. rewrite elements_empty. reflexivity. Qed.

Lemma ancestors_guard_size (generation ancestors : gset string) :
  WikiCrawler.ancestors_guard generation ancestors = true ->
  (size ancestors < 100)%nat.
Proof.
  unfold WikiCrawler.ancestors_guard. intros H.
  apply andb_true_iff in H as [_ H]. apply Z.ltb_lt in H. lia.
Qed.

(** What one iteration does to the visited set: nothing when the new
    generation is empty, and then the loop is over; a strict growth
    otherwise. *)
Lemma ancestors_step_progress (ancestors next : gset string) :
  (next ∖ ancestors = ∅
   /\ ancestors ∪ (next ∖ ancestors) = ancestors
   /\ WikiCrawler.ancestors_guard (next ∖ ancestors)
        (ancestors ∪ (next ∖ ancestors)) = false)
  \/ (size ancestors < size (ancestors ∪ (next ∖ ancestors)))%nat.
Proof.
  destruct (decide (next ∖ ancestors = ∅)) as [E|NE].
  - left. rewrite E. split; [reflexivity|]. split.
    + apply union_empty_r_L.
    + apply ancestors_guard_empty.
  - right.
    rewrite size_union
      by (intros x Hx Hy; apply elem_of_difference in Hy; tauto).
    assert (size (next ∖ ancestors) <> 0%nat).
    { intros H. apply size_empty_iff in H. apply NE, leibniz_equiv, H. }
    lia.
Qed.

(** Enough fuel: the loop is over, or the room left under the cap is
    smaller than the fuel. *)
Lemma ancestors_loop_enough_fuel (fuel : nat) :
  forall (fuel' : nat) (generation ancestors : gset string) (s : state),
    WikiCrawler.ancestors_guard generation ancestors = false
    \/ (100 < size ancestors + fuel)%nat ->
    (fuel <= fuel')%nat ->
    WikiCrawler.ancestors_loop fuel' generation ancestors s
    = WikiCrawler.ancestors_loop fuel generation ancestors s
    /\ exists r s',
        WikiCrawler.ancestors_loop fuel generation ancestors s
        = (Returns r, s').
Proof.
  induction fuel as [|fuel IH]; intros fuel' generation ancestors s H Hle;
    rewrite !ancestors_loop_unfold;
    destruct (WikiCrawler.ancestors_guard generation ancestors) eqn:G.
  - apply ancestors_guard_size in G. destruct H as [H|H]; [discriminate|lia].
  - split; [reflexivity|]. eexists _, _. reflexivity.
  - destruct fuel' as [|fuel']; [lia|].
    apply ancestors_guard_size in G. unfold bind.
    destruct (gather_parents_returns (elements generation) ∅ s)
      as (next & s' & ->).
    apply IH; [|lia].
    destruct (ancestors_step_progress ancestors next) as [(_ & _ & E)|Hlt];
      [left; exact E|right].
    destruct H as [H|H]; [discriminate|lia].
  - split; [reflexivity|]. eexists _, _. reflexivity.
Qed.

Lemma ancestors_of_enough_fuel (fuel : nat) (link : string) (s : state) :
  (101 <= fuel)%nat ->
  WikiCrawler.ancestors_of fuel link s = WikiCrawler.ancestors_of 101 link s
  /\ exists r s', WikiCrawler.ancestors_of 101 link s = (Returns r, s').
Proof.
  intros Hle. unfold WikiCrawler.ancestors_of, bind at 1 3 5.
  destruct (category_tree_getitem_returns link s) as (a & s' & ->).
  unfold bind, read_list, get_self.
  apply ancestors_loop_enough_fuel; [right; rewrite size_empty; lia|exact Hle].
Qed.

Lemma category_names_fuel_free (ancestors : gset string) :
  fuel_free (WikiCrawler.category_names ancestors).
Proof.
  unfold WikiCrawler.category_names. apply fuel_free_bind.
  - intros s. discriminate.
  - intros c. apply fuel_free_comprehension. intros a.
    apply fuel_free_bind; [|intros n; apply fuel_free_ret].
    unfold getitem. destruct (dict_get a (category_list c));
      [apply fuel_free_ret | apply fuel_free_raise].
Qed.

(** C4, amended.  On every category graph, cyclic or not,
    [retrieveCategories] terminates: with room for 101 iterations of its
    loop it never runs out, and more room changes nothing.  An iteration
    starts only while fewer than 100 nodes are visited; it always
    completes, and it either finds no new ancestor, after which the loop
    is over, or strictly grows the visited set.  (The visited set itself
    may end above 100: the test comes before a whole generation is
    added.) *)
Theorem retrieveCategories_terminates
  (fuel : nat) (article : string) (s : state)
  (fuel0 : nat) (generation ancestors : gset string) (s0 : state) :
  (101 <= fuel)%nat ->
  WikiCrawler.ancestors_guard generation ancestors = true ->
  ((WikiCrawler.retrieveCategories fuel article s).1 <> OutOfFuel
   /\ WikiCrawler.retrieveCategories fuel article s
      = WikiCrawler.retrieveCategories 101 article s)
  /\ (size ancestors < 100)%nat
  /\ exists (next : gset string) (s1 : state),
      WikiCrawler.gather_parents (elements generation) ∅ s0
      = (Returns next, s1)
      /\ WikiCrawler.ancestors_loop (S fuel0) generation ancestors s0
         = WikiCrawler.ancestors_loop fuel0 (next ∖ ancestors)
             (ancestors ∪ (next ∖ ancestors)) s1
      /\ ((ancestors ∪ (next ∖ ancestors) = ancestors
           /\ WikiCrawler.ancestors_loop fuel0 (next ∖ ancestors)
                (ancestors ∪ (next ∖ ancestors)) s1
              = (Returns ancestors, s1))
          \/ (size ancestors < size (ancestors ∪ (next ∖ ancestors)))%nat).
Proof.
  intros Hle G. split; [|split].
  - unfold WikiCrawler.retrieveCategories, bind at 1 3 5, get_self.
    destruct (WikiCrawler.links_named article _) as [|link _];
      [split; [discriminate|reflexivity]|].
    unfold bind.
    destruct (ancestors_of_enough_fuel fuel link s Hle) as (-> & r & s' & ->).
    split; [apply category_names_fuel_free|reflexivity].
  - apply ancestors_guard_size in G. exact G.
  - destruct (gather_parents_returns (elements generation) ∅ s0)
      as (next & s1 & Hnext).
    exists next, s1. split; [exact Hnext|]. split.
    + rewrite (ancestors_loop_unfold (S fuel0)), G. unfold bind.
      rewrite Hnext. reflexivity.
    + destruct (ancestors_step_progress ancestors next)
        as [(_ & E & Hg)|Hlt]; [left|right; exact Hlt].
      split; [exact E|].
      rewrite ancestors_loop_unfold, Hg, E. reflexivity.
Qed.

(** The traversal on the graph with a cycle, from the first generation
    of the article X. *)
Lemma retrieveCategories_terminates_witness :
  ((WikiCrawler.retrieveCategories 101 "X" Scenario.cyclic).1 <> OutOfFuel
   /\ WikiCrawler.retrieveCategories 101 "X" Scenario.cyclic
      = WikiCrawler.retrieveCategories 101 "X" Scenario.cyclic)
  /\ (size (∅ : gset string) < 100)%nat
  /\ exists (next : gset string) (s1 : state),
      WikiCrawler.gather_parents (elements ({["/wiki/Category:Loop_A"]} : gset string)) ∅
        Scenario.cyclic
      = (Returns next, s1)
      /\ WikiCrawler.ancestors_loop 101 {["/wiki/Category:Loop_A"]} ∅
           Scenario.cyclic
         = WikiCrawler.ancestors_loop 100 (next ∖ ∅) (∅ ∪ (next ∖ ∅)) s1
      /\ ((∅ ∪ (next ∖ ∅) = ∅
           /\ WikiCrawler.ancestors_loop 100 (next ∖ ∅) (∅ ∪ (next ∖ ∅)) s1
              = (Returns ∅, s1))
          \/ (size (∅ : gset string) < size (∅ ∪ (next ∖ ∅)))%nat).
Proof.
  apply (retrieveCategories_terminates 101 "X" Scenario.cyclic 100
           {["/wiki/Category:Loop_A"]} ∅ Scenario.cyclic).
  - lia.
  - vm_compute. reflexivity.
Defined.

(** On the cyclic graph the traversal ends with both categories of the
    cycle. *)
Example retrieveCategories_cyclic :
  (WikiCrawler.retrieveCategories 101 "X" Scenario.cyclic).1
  = Returns ["Loop A"; "Loop B"].
Proof. vm_compute. reflexivity. Qed.

(** C4 as stated fails: the visited set is not bounded by 100.  When the
    one category of an article is a subcategory of 101 categories, the
    first iteration starts with an empty visited set and adds all 101 of
    them; [retrieveCategories] returns 101 names. *)
Lemma retrieveCategories_exceeds_cap :
  match (WikiCrawler.ancestors_of 101 "/wiki/X" Scenario.crowded).1 with
  | Returns visited => size visited
  | _ => 0%nat
  end = 101%nat
  /\ match (WikiCrawler.retrieveCategories 101 "X" Scenario.crowded).1 with
     | Returns names => length names
     | _ => 0%nat
     end = 101%nat.
Proof. split; vm_compute; reflexivity. Qed.

(** ** Relations kept by every step of a method *)

Section Stable.
Context (R : relation state) `{!PreOrder R}.

Lemma stable_ret {A} (a : A) : stable R (ret a).
Proof. intros s. reflexivity. Qed.

Lemma stable_raise {A} (e : exn) : stable R (@raise A e).
Proof. intros s. reflexivity. Qed.

Lemma stable_out_of_fuel {A} : stable R (@out_of_fuel A).
Proof. intros s. reflexivity. Qed.

Lemma stable_get_self : stable R get_self.
Proof. intros s. reflexivity. Qed.

Lemma stable_bind {A B} (m : M A) (k : A -> M B) :
  stable R m -> (forall a, stable R (k a)) -> stable R (bind m k).
Proof.
  intros Hm Hk s. unfold bind. specialize (Hm s).
  destruct (m s) as [[a|e|] s']; [|exact Hm|exact Hm].
  etransitivity; [exact Hm|apply Hk].
Qed.

(** The same, when the rest needs a fact about the value [m] returns. *)
Lemma stable_bind_post {A B} (Q : A -> Prop) (m : M A) (k : A -> M B) :
  (forall s a s', m s = (Returns a, s') -> Q a) ->
  stable R m -> (forall a, Q a -> stable R (k a)) -> stable R (bind m k).
Proof.
  intros HQ Hm Hk s. unfold bind. specialize (Hm s). specialize (HQ s).
  destruct (m s) as [[a|e|] s']; [|exact Hm|exact Hm].
  etransitivity; [exact Hm|]. apply Hk, (HQ a s'). reflexivity.
Qed.

Lemma stable_try_except {A} (m : M A) (h : exn -> M A) :
  stable R m -> (forall e, stable R (h e)) -> stable R (try_except m h).
Proof.
  intros Hm Hh s. unfold try_except. specialize (Hm s).
  destruct (m s) as [[a|e|] s']; [exact Hm| |exact Hm].
  etransitivity; [exact Hm|apply Hh].
Qed.

Lemma stable_for_each {A} (l : list A) (body : A -> M unit) :
  (forall x, stable R (body x)) -> stable R (for_each l body).
Proof.
  intros Hb. induction l as [|x l IH]; [apply stable_ret|].
  cbn [for_each]. apply stable_bind; [apply Hb|intros _; exact IH].
Qed.

Lemma stable_comprehension {A B} (l : list A) (f : A -> M B) :
  (forall x, stable R (f x)) -> stable R (comprehension l f).
Proof.
  intros Hf. induction l as [|x l IH]; [apply stable_ret|].
  cbn [comprehension]. apply stable_bind; [apply Hf|intros y].
  apply stable_bind; [exact IH|intros ys; apply stable_ret].
Qed.

Lemma stable_getitem {V} (d : dict V) (k : string) : stable R (getitem d k).
Proof.
  unfold getitem. destruct (dict_get k d); [apply stable_ret|apply stable_raise].
Qed.

End Stable.

(** One step of a proof of [stable]: the shape of the computation picks
    the rule. *)
Ltac stable_step :=
  lazymatch goal with
  | |- stable _ (bind _ _) => apply stable_bind; [apply _| |intros ?]
  | |- stable _ (ret _) => apply stable_ret, _
  | |- stable _ (raise _) => apply stable_raise, _
  | |- stable _ out_of_fuel => apply stable_out_of_fuel, _
  | |- stable _ get_self => apply stable_get_self, _
  | |- stable _ (getitem _ _) => apply stable_getitem, _
  | |- stable _ (try_except _ _) =>
      apply stable_try_except; [apply _| |intros ?]
  | |- stable _ (for_each _ _) => apply stable_for_each; [apply _|intros ?]
  | |- stable _ (comprehension _ _) =>
      apply stable_comprehension; [apply _|intros ?]
  | |- stable _ (if ?b then _ else _) => destruct b
  | |- stable _ (match ?x with _ => _ end) => destruct x
  end.

Ltac stable_auto := repeat (stable_step; try assumption).

#[local] Instance same_but_clock_preorder : PreOrder same_but_clock.
Proof.
  split.
  - intros s. repeat split.
  - intros s1 s2 s3 (C1 & F1 & O1) (C2 & F2 & O2). repeat split; congruence.
Qed.

(** A relation that does not look at the clock is kept by every
    computation that only advances the clock. *)
Lemma stable_clock {A} (R : relation state) (m : M A) :
  (forall s s', same_but_clock s s' -> R s s') ->
  stable same_but_clock m -> stable R m.
Proof. intros HR Hm s. apply HR, Hm. Qed.

(** *** The fetchers only advance the clock *)

Section FetchersClock.
Variable requests_get : nat -> string -> get_result.
Variable BeautifulSoup : string -> document.

Lemma get_clock (url : string) :
  stable same_but_clock (get_and_raise_for_status requests_get url).
Proof. intros s. rewrite get_ticks. repeat split. Qed.

Lemma _make_request_loop_clock (retries : list nat) (url : string) :
  stable same_but_clock
    (WikiCategory._make_request_loop requests_get retries url).
Proof.
  induction retries as [|retry rest IH]; [apply stable_ret; apply _|].
  cbn [WikiCategory._make_request_loop].
  apply stable_try_except; [apply _| |].
  - apply stable_bind; [apply _|apply get_clock|].
    intros text. apply stable_ret, _.
  - intros e. destruct e; try (apply stable_raise, _).
    destruct (_ <? _)%nat; [exact IH|apply stable_raise, _].
Qed.

Lemma _make_request_clock (url : string) :
  stable same_but_clock (WikiCategory._make_request requests_get url).
Proof. apply _make_request_loop_clock. Qed.

Lemma category_init_clock (name : string) (link : option string)
  (load : bool) :
  stable same_but_clock
    (WikiCategory.__init__ requests_get BeautifulSoup name link load).
Proof.
  unfold WikiCategory.__init__, WikiCategory._requestCategory,
    WikiCategory.response_text.
  cbv zeta. destruct load; [|apply stable_ret, _].
  apply stable_bind; [apply _|apply _make_request_clock|intros response].
  stable_auto.
Qed.

Lemma getSubCategories_clock (self : WikiCategory.t) :
  stable same_but_clock (WikiCategory.getSubCategories self).
Proof.
  unfold WikiCategory.getSubCategories, WikiCategory.the_doc. stable_auto.
Qed.

Lemma _loadPageLinks_clock (self : WikiCategory.t) :
  stable same_but_clock (WikiCategory._loadPageLinks self).
Proof.
  unfold WikiCategory._loadPageLinks, WikiCategory.the_doc. stable_auto.
Qed.

Lemma getPages_loop_clock (fuel : nat) :
  forall (next_link : list string) (self : WikiCategory.t),
    stable same_but_clock
      (WikiCategory.getPages_loop requests_get BeautifulSoup fuel next_link
         self).
Proof.
  induction fuel as [|fuel IH]; intros [|next rest] self;
    cbn [WikiCategory.getPages_loop]; try (stable_auto; fail).
  apply stable_bind; [apply _|apply _make_request_clock|intros response].
  apply stable_bind;
    [apply _|unfold WikiCategory.response_text; stable_auto|intros text].
  cbv zeta.
  apply stable_bind; [apply _|apply _loadPageLinks_clock|intros r].
  apply IH.
Qed.

Lemma getPages_clock (fuel : nat) (self : WikiCategory.t) :
  stable same_but_clock
    (WikiCategory.getPages requests_get BeautifulSoup fuel self).
Proof.
  unfold WikiCategory.getPages. cbv zeta.
  apply stable_bind; [apply _|apply _loadPageLinks_clock|intros r].
  apply getPages_loop_clock.
Qed.

Lemma article_init_clock (name : string) (link : option string)
  (load : bool) :
  stable same_but_clock
    (WikiArticle.__init__ requests_get BeautifulSoup name link load).
Proof.
  unfold WikiArticle.__init__, WikiArticle._load. cbv zeta.
  destruct load; [|apply stable_ret, _].
  apply stable_bind; [apply _|apply get_clock|intros text].
  apply stable_ret, _.
Qed.

End FetchersClock.

(** ** Edges of the category graph *)

Lemma dict_get_set_eq {V} (k : string) (v : V) (d : dict V) :
  dict_get k (dict_set k v d) = Some v.
Proof.
  induction d as [|[k' v'] d IH]; cbn [dict_set dict_get].
  - rewrite String.eqb_refl. reflexivity.
  - destruct (String.eqb k k') eqn:E; cbn [dict_get]; rewrite E;
      [reflexivity|exact IH].
Qed.

Lemma dict_get_set_ne {V} (k k' : string) (v : V) (d : dict V) :
  k <> k' -> dict_get k (dict_set k' v d) = dict_get k d.
Proof.
  intros Hne. induction d as [|[k'' v''] d IH]; cbn [dict_set dict_get].
  - apply String.eqb_neq in Hne. rewrite Hne. reflexivity.
  - destruct (String.eqb k' k'') eqn:E; cbn [dict_get].
    + apply String.eqb_eq in E. subst k''.
      apply String.eqb_neq in Hne. rewrite Hne. reflexivity.
    + destruct (String.eqb k k''); [reflexivity|exact IH].
Qed.

#[local] Instance edges_kept_preorder (P : string -> Prop) :
  PreOrder (edges_kept P).
Proof.
  split.
  - intros s. split; [auto|]. intros a l H. exists []. rewrite app_nil_r.
    exact H.
  - intros s1 s2 s3 [T1 H1] [T2 H2]. split; [auto|].
    intros a l H. destruct (H1 a l H) as [l1 H']. destruct (H2 a _ H') as [l2 H''].
    exists (l1 ++ l2). rewrite app_assoc. exact H''.
Qed.

Lemma edges_kept_clock (P : string -> Prop) (s s' : state) :
  same_but_clock s s' -> edges_kept P s s'.
Proof.
  intros (C & _ & _). unfold edges_kept. rewrite C.
  apply (@reflexivity _ _ (@PreOrder_Reflexive _ _ (edges_kept_preorder P)) s).
Qed.

(** An assignment to an attribute other than the graph. *)
Lemma edges_kept_modify (P : string -> Prop) (f : Crawler -> Crawler) :
  (forall c, category_tree (f c) = category_tree c) ->
  (forall c, heap (f c) = heap c) ->
  stable (edges_kept P) (modify_self f).
Proof.
  intros Ht Hh s. unfold edges_kept, modify_self. cbn. rewrite Ht, Hh.
  split; [auto|]. intros a l H. exists []. rewrite app_nil_r. exact H.
Qed.

(** [self.category_tree[link] = root] keeps the binding of every other
    link. *)
Lemma edges_kept_assign (P : string -> Prop) (link : string) (root : nat) :
  (forall k, P k -> k <> link) ->
  stable (edges_kept P)
    (modify_self (fun c =>
       set_category_tree (dict_set link root (category_tree c)) c)).
Proof.
  intros HP s. unfold edges_kept, modify_self. cbn. split.
  - intros k a Hk H. rewrite dict_get_set_ne by (apply HP, Hk). exact H.
  - intros a l H. exists []. rewrite app_nil_r. exact H.
Qed.

(** ... and the binding of [link] too when [root] is the list it is
    bound to already. *)
Lemma edges_kept_assign_same (P : string -> Prop) (link : string) (root : nat)
  (s : state) :
  dict_get link (category_tree (crawler s)) = Some root ->
  edges_kept P s
    (modify_self (fun c =>
       set_category_tree (dict_set link root (category_tree c)) c) s).2.
Proof.
  intros Hroot. unfold edges_kept, modify_self. cbn. split.
  - intros k a _ H. destruct (decide (k = link)) as [->|Hne].
    + rewrite dict_get_set_eq. congruence.
    + rewrite dict_get_set_ne by exact Hne. exact H.
  - intros a l H. exists []. rewrite app_nil_r. exact H.
Qed.

Lemma edges_kept_new_list (P : string -> Prop) (l : list string) :
  stable (edges_kept P) (new_list l).
Proof.
  intros s. unfold edges_kept, new_list, bind, get_self, modify_self. cbn.
  split; [auto|]. intros a l0 H. exists [].
  rewrite app_nil_r. apply lookup_app_l_Some, H.
Qed.

Lemma edges_kept_list_append (P : string -> Prop) (a : nat) (x : string) :
  stable (edges_kept P) (list_append a x).
Proof.
  intros s. unfold edges_kept, list_append, modify_self. cbn.
  split; [auto|]. intros a0 l H. destruct (decide (a = a0)) as [->|Hne].
  - exists [x]. rewrite list_lookup_alter_eq, H. reflexivity.
  - exists []. rewrite list_lookup_alter_ne by exact Hne.
    rewrite app_nil_r. exact H.
Qed.

Lemma edges_kept_read_list (P : string -> Prop) (a : nat) :
  stable (edges_kept P) (read_list a).
Proof. unfold read_list. stable_auto. Qed.

Lemma edges_kept_getitem (P : string -> Prop) (k : string) :
  stable (edges_kept P) (category_tree_getitem k).
Proof.
  intros s. unfold category_tree_getitem, bind at 1, get_self.
  destruct (dict_get k (category_tree (crawler s))) as [a|] eqn:E.
  - apply (@reflexivity _ _ (@PreOrder_Reflexive _ _ (edges_kept_preorder P))).
  - unfold edges_kept, new_list, bind, get_self, modify_self. cbn. split.
    + intros k' a' _ H. rewrite dict_get_set_ne; [exact H|].
      intros ->. congruence.
    + intros a' l H. exists []. rewrite app_nil_r.
      apply lookup_app_l_Some, H.
Qed.

Create HintDb stable.

#[local] Hint Resolve edges_kept_new_list edges_kept_list_append
  edges_kept_read_list edges_kept_getitem : stable.
#[local] Hint Extern 1 (stable (edges_kept _) (modify_self _)) =>
  (apply edges_kept_modify; intros; reflexivity) : stable.
#[local] Hint Extern 2 (stable (edges_kept _) _) =>
  (apply stable_clock; [apply edges_kept_clock|]) : stable.
#[local] Hint Resolve category_init_clock getSubCategories_clock
  getPages_clock article_init_clock : stable.

Ltac stable_solve :=
  repeat first [ assumption | solve [eauto 3 with stable nocore] | stable_step ].

Section AddCategory.
Variable requests_get : nat -> string -> get_result.
Variable BeautifulSoup : string -> document.
Variable page_fuel : nat.

Local Abbreviation addCategory :=
  (WikiCrawler.addCategory requests_get BeautifulSoup page_fuel).

(** The object [WikiCategory(name, link)] carries the normal link. *)
Lemma category_init_link (name : string) (link : option string)
  (s s' : state) (new_category : WikiCategory.t) :
  WikiCategory.__init__ requests_get BeautifulSoup name link true s
  = (Returns new_category, s') ->
  WikiCategory.link new_category = WikiCategory.normal_link name link.
Proof.
  unfold WikiCategory.__init__, WikiCategory._requestCategory, bind.
  destruct (WikiCategory._make_request _ _ s) as [[[text|]|e|] s1];
    cbn; try discriminate.
  destruct (mw_category_empty _); [discriminate|].
  intros [= <- _]. reflexivity.
Qed.

(** What [addCategory] does once the category's list is assigned. *)
Lemma addCategory_rest_keeps_all (P : string -> Prop)
  (new_category : WikiCategory.t) :
  stable (edges_kept P)
    (do sub_categories <- WikiCategory.getSubCategories new_category;
     run modify_self (fun c =>
       set_category_list (dict_update (category_list c) sub_categories) c);
     run modify_self (fun c =>
       set_open_categories (dict_update (open_categories c) sub_categories)
         c);
     run for_each (keys sub_categories) (fun new_link =>
       do a <- category_tree_getitem new_link;
       list_append a (WikiCategory.link new_category));
     do r <- WikiCategory.getPages requests_get BeautifulSoup page_fuel
               new_category;
     run modify_self (fun c =>
       set_article_list (dict_update (article_list c) r.1) c);
     run for_each (keys r.1) (fun new_link =>
       do a <- category_tree_getitem new_link;
       list_append a (WikiCategory.link new_category));
     ret r.2).
Proof. stable_solve. Qed.

(** Whatever [root] is, the links other than the category's own keep
    their list, and no list loses an element. *)
Lemma addCategory_keeps_others (name : string) (link : option string)
  (root : option nat) :
  stable (edges_kept (fun k => k <> WikiCategory.normal_link name link))
    (addCategory name link root).
Proof.
  unfold WikiCrawler.addCategory. cbv zeta.
  apply (stable_bind_post _
           (fun c => WikiCategory.link c = WikiCategory.normal_link name link)).
  - intros s a s'. apply category_init_link.
  - stable_solve.
  - intros new_category Hlink.
    stable_step; [stable_solve|].
    stable_step; [|apply addCategory_rest_keeps_all].
    apply edges_kept_assign. intros k Hk. rewrite Hlink. exact Hk.
Qed.

Lemma edges_kept_prefix (P : string -> Prop) (s s' : state) (k : string) :
  edges_kept P s s' -> P k ->
  parents_of (crawler s) k `prefix_of` parents_of (crawler s') k.
Proof.
  intros [Ht Hh] Hk. unfold parents_of.
  destruct (dict_get k (category_tree (crawler s))) as [a|] eqn:E;
    [|apply prefix_nil].
  rewrite (Ht k a Hk E).
  destruct (heap (crawler s) !! a) as [l|] eqn:El; [|apply prefix_nil].
  destruct (Hh a l El) as [l' ->]. cbn. apply prefix_app_r. reflexivity.
Qed.

(** When [root] is the list the category is bound to, as [followDeeper]
    passes it, every link keeps its list. *)
Lemma addCategory_keeps_all (name : string) (link : option string)
  (root : nat) (s : state) :
  dict_get (WikiCategory.normal_link name link) (category_tree (crawler s))
  = Some root ->
  edges_kept (fun _ => True) s (addCategory name link (Some root) s).2.
Proof.
  intros Hroot. unfold WikiCrawler.addCategory. cbv zeta. unfold bind at 1.
  pose proof (category_init_clock requests_get BeautifulSoup name link true s)
    as Hclock.
  pose proof (category_init_link name link s) as Hlink.
  destruct (WikiCategory.__init__ _ _ name link true s)
    as [[new_category|e|] s1]; cbn [snd] in *;
    [|apply edges_kept_clock, Hclock|apply edges_kept_clock, Hclock].
  specialize (Hlink s1 new_category eq_refl).
  rewrite bind_ret_l. unfold bind at 1.
  etransitivity; [apply edges_kept_clock, Hclock|].
  etransitivity.
  - apply (edges_kept_assign_same _ (WikiCategory.link new_category) root).
    destruct Hclock as (-> & _). rewrite Hlink. exact Hroot.
  - cbn [modify_self snd fst]. apply addCategory_rest_keeps_all.
Qed.

(** Without [root] the category is bound to a new list that starts with
    the synthetic root. *)
Lemma addCategory_without_root (name : string) (link : option string)
  (s s1 : state) (new_category : WikiCategory.t) :
  WikiCategory.__init__ requests_get BeautifulSoup name link true s
  = (Returns new_category, s1) ->
  exists l,
    parents_of (crawler (addCategory name link None s).2)
      (WikiCategory.normal_link name link)
    = "" :: l.
Proof.
  intros Hinit. pose proof (category_init_link _ _ _ _ _ Hinit) as Hlink.
  unfold WikiCrawler.addCategory. cbv zeta. unfold bind at 1.
  rewrite Hinit. unfold bind at 1, new_list at 1, bind at 1, get_self at 1.
  unfold bind at 1, modify_self at 1. cbn [ret]. unfold bind at 1.
  cbn [modify_self].
  match goal with
  | |- context [(?rest ?s3).2] =>
      pose proof (addCategory_rest_keeps_all (fun _ => True) new_category s3)
        as [Ht Hh]
  end.
  cbn [snd] in Ht, Hh. unfold parents_of. rewrite <- Hlink.
  erewrite Ht; [|exact I|cbn; apply dict_get_set_eq].
  edestruct Hh as [l' ->]; [cbn; apply list_lookup_middle; reflexivity|].
  exists l'. reflexivity.
Qed.

(** C5, amended.  [addCategory] only appends to the parent lists: every
    link other than the category's own keeps the parents it had, in
    order, at the front of its list.  The category's own list is the
    [root] argument: it keeps its parents when [root] is the list it is
    bound to already, which is what [followDeeper] passes; called without
    [root], the category is bound to a new list that starts with the
    synthetic root. *)
Theorem addCategory_keeps_edges (name : string) (link : option string)
  (root : option nat) (s : state) (k : string) :
  k <> WikiCategory.normal_link name link
  \/ (exists a, root = Some a
       /\ dict_get (WikiCategory.normal_link name link)
            (category_tree (crawler s)) = Some a) ->
  parents_of (crawler s) k
    `prefix_of` parents_of (crawler (addCategory name link root s).2) k
  /\ forall new_category s1,
       WikiCategory.__init__ requests_get BeautifulSoup name link true s
       = (Returns new_category, s1) ->
       exists l,
         parents_of (crawler (addCategory name link None s).2)
           (WikiCategory.normal_link name link)
         = "" :: l.
Proof.
  intros H. split.
  - destruct H as [Hk|(a & -> & Ha)].
    + apply (edges_kept_prefix _ _ _ _ (addCategory_keeps_others _ _ _ s) Hk).
    + apply (edges_kept_prefix _ _ _ _ (addCategory_keeps_all _ _ _ _ Ha) I).
  - intros new_category s1. apply addCategory_without_root.
Qed.

End AddCategory.

(** Physics added again the way [followDeeper] does it, with the list
    it is bound to. *)
Lemma addCategory_keeps_edges_witness :
  parents_of (crawler Scenario.science_started) "/wiki/Category:Physics"
    `prefix_of`
    parents_of
      (crawler
         (WikiCrawler.addCategory Scenario.web Scenario.parse 0
            "Category:Physics" (Some "/wiki/Category:Physics") (Some 1%nat)
            Scenario.science_started).2)
      "/wiki/Category:Physics"
  /\ forall new_category s1,
       WikiCategory.__init__ Scenario.web Scenario.parse "Category:Physics"
         (Some "/wiki/Category:Physics") true Scenario.science_started
       = (Returns new_category, s1) ->
       exists l,
         parents_of
           (crawler
              (WikiCrawler.addCategory Scenario.web Scenario.parse 0
                 "Category:Physics" (Some "/wiki/Category:Physics") None
                 Scenario.science_started).2)
           (WikiCategory.normal_link "Category:Physics"
              (Some "/wiki/Category:Physics"))
         = "" :: l.
Proof.
  apply (addCategory_keeps_edges Scenario.web Scenario.parse 0
           "Category:Physics" (Some "/wiki/Category:Physics") (Some 1%nat)
           Scenario.science_started "/wiki/Category:Physics").
  right. exists 1%nat. split; reflexivity.
Defined.

(** Expanding the frontier keeps the edge from Physics to Science and
    adds the page of Physics. *)
Example followDeeper_keeps_parent :
  let s' :=
    (WikiCrawler.followDeeper Scenario.web Scenario.parse
       Scenario.literal_match 0 1 Scenario.science_started).2 in
  parents_of (crawler s') "/wiki/Category:Physics"
  = ["/wiki/Category:Science"]
  /\ parents_of (crawler s') "/wiki/A" = ["/wiki/Category:Physics"].
Proof. vm_compute. split; reflexivity. Qed.

(** C5 as stated fails: Physics is in the graph with the parent Science;
    adding it again by name, [addCategory('Physics')], returns normally
    and leaves Physics with the synthetic root as its only parent.  The
    edge to Science is gone. *)
Lemma addCategory_again_replaces_parents :
  let s' :=
    (WikiCrawler.addCategory Scenario.web Scenario.parse 0 "Physics" None None
       Scenario.science_started) in
  parents_of (crawler Scenario.science_started) "/wiki/Category:Physics"
  = ["/wiki/Category:Science"]
  /\ (exists new_category, s'.1 = Returns new_category)
  /\ parents_of (crawler s'.2) "/wiki/Category:Physics" = [""]
  /\ ~ (parents_of (crawler Scenario.science_started) "/wiki/Category:Physics"
        `prefix_of` parents_of (crawler s'.2) "/wiki/Category:Physics").
Proof.
  vm_compute. split; [reflexivity|]. split; [eexists; reflexivity|].
  split; [reflexivity|]. intros [l Hl]. discriminate.
Qed.

(** ** A failed page load during collection *)

Section FetchFailure.
Variable requests_get : nat -> string -> get_result.
Variable BeautifulSoup : string -> document.
Variable md5_hexdigest : string -> string.
Variable re_match : string -> string -> bool.
Variable ancestor_fuel : nat.

Local Abbreviation collect_article :=
  (WikiCrawler.collect_article requests_get BeautifulSoup md5_hexdigest
     re_match ancestor_fuel).

(** C2 (what the code does).  When the page of a pending article cannot
    be loaded, the body of the loop of [collectArticles] does not go on
    to the next article: it raises.  For a name that passes the name
    rules the exception comes from the handler itself, which asks for the
    attribute [broken_links] that the class never creates
    ([AttributeError]) and, were it there, would add the exception to a
    string ([TypeError]).  Nothing is recorded: the crawler and the files
    are as before the call. *)
Theorem collect_article_fetch_failure_is_fatal
  (links text categories : bool) (save_intervall i : Z)
  (article_link name : string) (s : state) :
  dict_get article_link (article_list (crawler s)) = Some name ->
  article_link <> "" ->
  (get_and_raise_for_status requests_get
     (WikiArticle.BASE_URL +:+ article_link) s).1 = Raises RequestException ->
  let r := collect_article links text categories save_intervall i
             article_link s in
  (exists e, r.1 = Raises e)
  /\ crawler r.2 = crawler s /\ files r.2 = files s
  /\ ((WikiCrawler.articleIsValid re_match name s).1 = Returns true ->
      r.1 = Raises match broken_links (crawler s) with
                   | None => AttributeError
                   | Some _ => TypeError
                   end).
Proof.
  intros Hname Hlink Hget r. subst r. unfold WikiCrawler.collect_article.
  rewrite (bind_returns _ _ s s (crawler s)) by reflexivity.
  rewrite (bind_returns _ _ s s name)
    by (unfold getitem; rewrite Hname; reflexivity).
  pose proof (articleIsValid_eq re_match name s) as Hvalid.
  destruct (_ || _) in Hvalid.
  - rewrite (bind_raises _ _ _ _ _ Hvalid), Hvalid.
    split; [eexists; reflexivity|]. split; [reflexivity|].
    split; [reflexivity|discriminate].
  - rewrite (bind_returns _ _ _ _ _ Hvalid).
    rewrite (bind_raises _ _ s (set_clock (S (clock s)) s)
               match broken_links (crawler s) with
               | None => AttributeError
               | Some _ => TypeError
               end).
    { split; [eexists; reflexivity|]. split; [reflexivity|].
      split; [reflexivity|]. intros _. reflexivity. }
    unfold try_except.
    rewrite (article_init_single_attempt _ _ _ _ _ Hlink Hget).
    unfold WikiCrawler.record_broken_link, bind, get_self.
    cbn [fst snd crawler set_clock].
    destruct (broken_links (crawler s)); reflexivity.
Qed.

End FetchFailure.

(** With the whole encyclopedia out of reach, [collectArticles] stops at
    the first pending article with the exception of the handler, whether
    or not someone has given the crawler a [broken_links] list; no skip
    reason is recorded and nothing is archived. *)
Example collectArticles_fetch_failure :
  let collect := WikiCrawler.collectArticles Scenario.web_down Scenario.parse
               Scenario.md5 Scenario.literal_match 101 true true true None 10 in
  (collect Scenario.archiving).1 = Raises AttributeError
  /\ crawler (collect Scenario.archiving).2 = crawler Scenario.archiving
  /\ files (collect Scenario.archiving).2 = files Scenario.archiving
  /\ (collect Scenario.with_broken_links).1 = Raises TypeError
  /\ crawler (collect Scenario.with_broken_links).2
     = crawler Scenario.with_broken_links.
Proof. vm_compute. repeat split. Qed.

(** The page A while the encyclopedia is out of reach. *)
Lemma collect_article_fetch_failure_is_fatal_witness :
  let r := WikiCrawler.collect_article Scenario.web_down Scenario.parse
             Scenario.md5 Scenario.literal_match 101 true true true 10 0
             "/wiki/A" Scenario.archiving in
  (exists e, r.1 = Raises e)
  /\ crawler r.2 = crawler Scenario.archiving
  /\ files r.2 = files Scenario.archiving
  /\ ((WikiCrawler.articleIsValid Scenario.literal_match "A"
         Scenario.archiving).1 = Returns true ->
      r.1 = Raises match broken_links (crawler Scenario.archiving) with
                   | None => AttributeError
                   | Some _ => TypeError
                   end).
Proof.
  apply (collect_article_fetch_failure_is_fatal Scenario.web_down
           Scenario.parse Scenario.md5 Scenario.literal_match 101
           true true true 10 0 "/wiki/A" "A" Scenario.archiving).
  - reflexivity.
  - discriminate.
  - reflexivity.
Defined.

(** ** The index of the archive during collection *)

Lemma string_length_append (a b : string) :
  String.length (a +:+ b) = (String.length a + String.length b)%nat.
Proof.
  induction a as [|c a IH]; [reflexivity|].
  change (String c a +:+ b) with (String c (a +:+ b)). cbn. rewrite IH.
  reflexivity.
Qed.

(** A file named after a digest of 32 characters is not the index. *)
Lemma digest_file_is_not_index (path digest extension : string) :
  String.length digest = 32%nat ->
  path +:+ "/" +:+ digest +:+ extension <> path +:+ "/index.txt".
Proof.
  intros Hd H. apply (f_equal String.length) in H.
  rewrite !string_length_append, Hd in H. cbn in H. lia.
Qed.

#[local] Instance bookkeeping_preorder : PreOrder bookkeeping.
Proof.
  split.
  - intros s. repeat split.
  - intros s1 s2 s3 (F1 & A1 & S1 & L1) (F2 & A2 & S2 & L2).
    repeat split; congruence.
Qed.

Lemma bookkeeping_clock (s s' : state) :
  same_but_clock s s' -> bookkeeping s s'.
Proof. intros (C & F & _). unfold bookkeeping. rewrite C, F. repeat split. Qed.

Lemma bookkeeping_modify (f : Crawler -> Crawler) :
  (forall c, archive_path (f c) = archive_path c) ->
  (forall c, save_path (f c) = save_path c) ->
  (forall c, article_list (f c) = article_list c) ->
  stable bookkeeping (modify_self f).
Proof. intros Ha Hs Hl s. unfold bookkeeping. cbn. auto. Qed.

Lemma bookkeeping_new_list (l : list string) : stable bookkeeping (new_list l).
Proof. intros s. repeat split. Qed.

Lemma bookkeeping_list_append (a : nat) (x : string) :
  stable bookkeeping (list_append a x).
Proof. intros s. repeat split. Qed.

Lemma bookkeeping_read_list (a : nat) : stable bookkeeping (read_list a).
Proof. intros s. repeat split. Qed.

Lemma bookkeeping_getitem (k : string) :
  stable bookkeeping (category_tree_getitem k).
Proof.
  intros s. unfold category_tree_getitem, bind at 1, get_self.
  destruct (dict_get k (category_tree (crawler s))); repeat split.
Qed.

Lemma bookkeeping_print (line : string) : stable bookkeeping (print line).
Proof. intros s. repeat split. Qed.

#[local] Hint Resolve bookkeeping_new_list bookkeeping_list_append
  bookkeeping_read_list bookkeeping_getitem bookkeeping_print : stable.
#[local] Hint Extern 1 (stable bookkeeping (modify_self _)) =>
  (apply bookkeeping_modify; intros; reflexivity) : stable.
#[local] Hint Extern 2 (stable bookkeeping _) =>
  (apply stable_clock; [apply bookkeeping_clock|]) : stable.

Lemma gather_parents_bookkeeping (generation : list string)
  (next : gset string) :
  stable bookkeeping (WikiCrawler.gather_parents generation next).
Proof.
  revert next. induction generation as [|p ps IH]; intros next;
    cbn [WikiCrawler.gather_parents]; stable_solve.
Qed.

Lemma ancestors_loop_bookkeeping (fuel : nat) :
  forall generation ancestors : gset string,
    stable bookkeeping (WikiCrawler.ancestors_loop fuel generation ancestors).
Proof.
  induction fuel as [|fuel IH]; intros generation ancestors;
    rewrite ancestors_loop_unfold;
    destruct (WikiCrawler.ancestors_guard generation ancestors);
    try (stable_solve; fail).
  stable_step; [apply gather_parents_bookkeeping|apply IH].
Qed.

Lemma retrieveCategories_bookkeeping (fuel : nat) (article : string) :
  stable bookkeeping (WikiCrawler.retrieveCategories fuel article).
Proof.
  unfold WikiCrawler.retrieveCategories, WikiCrawler.ancestors_of,
    WikiCrawler.category_names.
  pose proof ancestors_loop_bookkeeping. stable_solve.
Qed.

Section Validation.
Variable re_match : string -> string -> bool.

Lemma articleIsValid_bookkeeping (name : string) :
  stable bookkeeping (WikiCrawler.articleIsValid re_match name).
Proof.
  intros s. rewrite articleIsValid_eq. repeat split.
Qed.

Lemma articleCategoriesAreValid_bookkeeping (name : string)
  (article_categories : dict string) :
  stable bookkeeping
    (WikiCrawler.articleCategoriesAreValid re_match name article_categories).
Proof.
  unfold WikiCrawler.articleCategoriesAreValid.
  induction (values article_categories) as [|category rest IH];
    cbn [WikiCrawler.articleCategoriesAreValid_loop];
    unfold WikiCrawler.skipped_articles_setitem; stable_solve.
Qed.

End Validation.

#[local] Instance index_kept_preorder (path : string) :
  PreOrder (index_kept path).
Proof.
  split.
  - intros s H. repeat split; apply H.
  - intros s1 s2 s3 H1 H2 H. destruct (H1 H) as (R2 & F2 & L2).
    destruct (H2 R2) as (R3 & F3 & L3). repeat split; try apply R3; congruence.
Qed.

Lemma index_kept_bookkeeping (path : string) (s s' : state) :
  bookkeeping s s' -> index_kept path s s'.
Proof.
  intros (F & A & S & L) (Ha & Hs & He). unfold archive_ready.
  rewrite F, A, S, L. auto.
Qed.

Lemma stable_index_of_bookkeeping {A} (path : string) (m : M A) :
  stable bookkeeping m -> stable (index_kept path) m.
Proof. intros H s. apply index_kept_bookkeeping, H. Qed.

(** Under [index_kept] the crawler that [self] gives has its archive at
    [path] and does not save to the index. *)
Lemma index_kept_get_self {A} (path : string) (k : Crawler -> M A) :
  (forall c, archive_path c = Some path ->
             save_path c <> Some (path +:+ "/index.txt") ->
             stable (index_kept path) (k c)) ->
  stable (index_kept path) (bind get_self k).
Proof.
  intros H s Hready. unfold bind, get_self.
  apply H; [apply Hready|apply Hready|exact Hready].
Qed.

Lemma index_kept_write_lines (path file : string) (lines : list string) :
  file <> path +:+ "/index.txt" ->
  stable (index_kept path) (write_lines file lines).
Proof.
  intros Hne s (Ha & Hs & He). unfold archive_ready. cbn.
  rewrite dict_get_set_ne by congruence. auto.
Qed.

Lemma index_kept_open_append (path file : string) :
  stable (index_kept path) (open_append file).
Proof.
  intros s (Ha & Hs & He). unfold open_append.
  destruct (dict_get file (files s)) eqn:E; [repeat split; assumption|].
  unfold archive_ready. cbn.
  rewrite dict_get_set_ne by (intros <-; congruence). auto.
Qed.

Lemma index_kept_save (path file : string) :
  file <> path +:+ "/index.txt" ->
  stable (index_kept path) (WikiCrawler.save file).
Proof.
  intros Hne s (Ha & Hs & He). unfold archive_ready. cbn.
  rewrite dict_get_set_ne by congruence.
  repeat split; [exact Ha|congruence|exact He].
Qed.

Ltac index_step :=
  lazymatch goal with
  | |- stable (index_kept _) (bind get_self _) =>
      apply index_kept_get_self; intros ? ? ?
  | _ => stable_step
  end.

Ltac index_solve :=
  repeat first
    [ assumption
    | solve [eauto 2 with stable nocore]
    | solve [apply stable_index_of_bookkeeping; stable_solve]
    | index_step ].

Section Collect.
Variable requests_get : nat -> string -> get_result.
Variable BeautifulSoup : string -> document.
Variable md5_hexdigest : string -> string.
Variable re_match : string -> string -> bool.
Variable ancestor_fuel : nat.
Hypothesis md5_length : forall link, String.length (md5_hexdigest link) = 32%nat.

Lemma saveArticle_index_kept (path article_link : string)
  (article_text : list string) :
  stable (index_kept path)
    (WikiCrawler.saveArticle md5_hexdigest article_link article_text).
Proof.
  unfold WikiCrawler.saveArticle.
  apply index_kept_get_self. intros c Hc _. rewrite Hc. cbv zeta.
  stable_step; [index_solve|].
  stable_step;
    [apply index_kept_write_lines, digest_file_is_not_index, md5_length|].
  stable_step; [apply index_kept_open_append|].
  index_solve.
Qed.

Lemma writeMetaInfo_index_kept (path article_link : string)
  (meta_infos : dict WikiCrawler.meta_value) :
  stable (index_kept path)
    (WikiCrawler.writeMetaInfo md5_hexdigest article_link meta_infos).
Proof.
  unfold WikiCrawler.writeMetaInfo.
  stable_step; [index_solve|].
  stable_step; [index_solve|].
  stable_step; [index_solve|].
  apply index_kept_get_self. intros c Hc _. rewrite Hc. cbv zeta.
  apply index_kept_write_lines, digest_file_is_not_index, md5_length.
Qed.

Lemma checkpoint_index_kept (path : string) (save_intervall i : Z) :
  stable (index_kept path) (WikiCrawler.checkpoint save_intervall i).
Proof.
  unfold WikiCrawler.checkpoint.
  apply index_kept_get_self. intros c _ Hs.
  destruct (save_path c) as [file|]; [|index_solve].
  destruct (_ =? _); [index_solve|].
  destruct (_ =? _); [|index_solve].
  apply index_kept_save. congruence.
Qed.

Lemma collectMetaInfo_bookkeeping (name article_link : string)
  (article_categories : dict string) (categories : bool) :
  stable bookkeeping
    (WikiCrawler.collectMetaInfo ancestor_fuel name article_link
       article_categories categories).
Proof.
  unfold WikiCrawler.collectMetaInfo. cbv zeta.
  pose proof retrieveCategories_bookkeeping. stable_solve.
Qed.

Lemma collect_article_index_kept (path : string)
  (links text categories : bool) (save_intervall i : Z)
  (article_link : string) :
  stable (index_kept path)
    (WikiCrawler.collect_article requests_get BeautifulSoup md5_hexdigest
       re_match ancestor_fuel links text categories save_intervall i
       article_link).
Proof.
  unfold WikiCrawler.collect_article.
  pose proof saveArticle_index_kept.
  pose proof writeMetaInfo_index_kept.
  pose proof checkpoint_index_kept.
  pose proof collectMetaInfo_bookkeeping.
  pose proof (articleIsValid_bookkeeping re_match).
  pose proof (articleCategoriesAreValid_bookkeeping re_match).
  unfold WikiCrawler.record_broken_link, WikiArticle.getHeadCategories,
    WikiArticle.getLinks, WikiArticle.getText, WikiArticle.the_doc.
  index_solve.
Qed.

Lemma collect_loop_index_kept (path : string)
  (links text categories : bool) (limit save_intervall : Z)
  (pending : list string) :
  forall i,
    stable (index_kept path)
      (WikiCrawler.collect_loop requests_get BeautifulSoup md5_hexdigest
         re_match ancestor_fuel links text categories limit save_intervall i
         pending).
Proof.
  induction pending as [|article_link rest IH]; intros i;
    cbn [WikiCrawler.collect_loop]; [index_solve|].
  destruct (i =? limit); [index_solve|].
  stable_step; [apply collect_article_index_kept|apply IH].
Qed.

(** Unpacking the lines of the index neither reads nor changes the
    state. *)
Lemma comprehension_unpack_pure (lines : list string) :
  exists o, forall s,
    comprehension lines WikiCrawler.unpack_entry s = (o, s).
Proof.
  induction lines as [|line lines [o IH]].
  - eexists. intros s. reflexivity.
  - cbn [comprehension]. unfold WikiCrawler.unpack_entry at 1.
    destruct (Str.split "=" (Str.strip line)) as [|a [|b [|c l]]];
      try (eexists; intros s; reflexivity).
    destruct o as [links|e|]; eexists; intros s; unfold bind at 1; cbn [ret];
      unfold bind; rewrite IH; reflexivity.
Qed.

(** What [artilces_loaded] gives depends on the archive path and on the
    index file only, and it leaves the state alone. *)
Lemma artilces_loaded_by_index (path : string) (s s' : state) :
  archive_path (crawler s) = Some path ->
  archive_path (crawler s') = Some path ->
  dict_get (path +:+ "/index.txt") (files s')
  = dict_get (path +:+ "/index.txt") (files s) ->
  (WikiCrawler.artilces_loaded s').1 = (WikiCrawler.artilces_loaded s).1
  /\ (WikiCrawler.artilces_loaded s).2 = s
  /\ (forall loaded, (WikiCrawler.artilces_loaded s).1 = Returns loaded ->
      dict_get (path +:+ "/index.txt") (files s) <> None).
Proof.
  intros Hs Hs' Hfile.
  unfold WikiCrawler.artilces_loaded, WikiCrawler.readIndex, bind, get_self,
    read_lines, WikiCrawler.index_path.
  rewrite Hs, Hs'. cbv beta. rewrite Hs, Hs'. cbn [format_path].
  rewrite Hfile.
  destruct (dict_get _ (files s)) as [[lines|c]|];
    [|repeat split; discriminate|repeat split; discriminate].
  destruct (comprehension_unpack_pure lines) as [o Ho]. rewrite !Ho.
  repeat split. discriminate.
Qed.

(** C1 (what the code does).  [collectArticles] never changes the index
    of the archive: [saveArticle] opens [index.txt] for appending and
    then prints the entry without [file=fp], so the entry goes to
    standard output.  Whatever was archived, the index holds the same
    lines after the call as before it, and a second call finds the same
    articles pending as the first: the archived ones are not excluded. *)
Theorem collectArticles_never_extends_index
  (links text categories : bool) (limit : option Z) (save_intervall : Z)
  (path : string) (s : state) :
  archive_path (crawler s) = Some path ->
  save_path (crawler s) <> Some (path +:+ "/index.txt") ->
  let s' :=
    (WikiCrawler.collectArticles requests_get BeautifulSoup md5_hexdigest
       re_match ancestor_fuel links text categories limit save_intervall
       s).2 in
  index_lines s' = index_lines s
  /\ pending_articles s' = pending_articles s.
Proof.
  intros Hpath Hsave s'.
  assert (H : archive_path (crawler s') = Some path
              /\ dict_get (path +:+ "/index.txt") (files s')
                 = dict_get (path +:+ "/index.txt") (files s)
              /\ article_list (crawler s') = article_list (crawler s)).
  { subst s'. unfold WikiCrawler.collectArticles.
    destruct (artilces_loaded_by_index path s s Hpath Hpath eq_refl)
      as (_ & Hstate & Hexists).
    destruct (WikiCrawler.artilces_loaded s) as [[loaded|e|] s0] eqn:E;
      cbn [fst snd] in *; subst s0.
    - rewrite (bind_returns _ _ _ _ _ E).
      rewrite (bind_returns _ _ s s (crawler s)) by reflexivity.
      assert (Hready : archive_ready path s).
      { split; [exact Hpath|]. split; [exact Hsave|].
        apply (Hexists loaded eq_refl). }
      match goal with
      | |- context [WikiCrawler.collect_loop _ _ _ _ _ ?l ?t ?c ?lim ?si ?i ?p s] =>
          destruct (collect_loop_index_kept path l t c lim si p i s Hready)
            as ((Ha & _) & Hf & Hl)
      end.
      auto.
    - rewrite (bind_raises _ _ _ _ _ E). auto.
    - rewrite (bind_out_of_fuel _ _ _ _ E). auto. }
  destruct H as (Hpath' & Hfile & Hlist).
  destruct (artilces_loaded_by_index path s s' Hpath Hpath' Hfile)
    as (Hloaded & _ & _).
  split.
  - unfold index_lines, WikiCrawler.index_path.
    rewrite Hpath, Hpath'. cbn [format_path]. rewrite Hfile. reflexivity.
  - unfold pending_articles. rewrite Hloaded, Hlist. reflexivity.
Qed.

End Collect.

(** One collection run over the archive with the empty index. *)
Lemma collectArticles_never_extends_index_witness :
  let s' :=
    (WikiCrawler.collectArticles Scenario.web Scenario.parse Scenario.md5
       Scenario.literal_match 101 true true true None 10
       Scenario.archiving).2 in
  index_lines s' = index_lines Scenario.archiving
  /\ pending_articles s' = pending_articles Scenario.archiving.
Proof.
  apply (collectArticles_never_extends_index Scenario.web Scenario.parse
           Scenario.md5 Scenario.literal_match 101) with (path := "arch").
  - intros link. unfold Scenario.md5.
    destruct (String.eqb link "/wiki/A"); reflexivity.
  - reflexivity.
  - discriminate.
Defined.

(** The first call archives the page A: its text and its meta record are
    written, the entry for the index is printed, and the index stays
    empty.  A pending again, the second call loads and archives it once
    more. *)
Example collectArticles_twice :
  let collect :=
    WikiCrawler.collectArticles Scenario.web Scenario.parse Scenario.md5
      Scenario.literal_match 101 true true true None 10 in
  let s1 := (collect Scenario.archiving).2 in
  let s2 := (collect s1).2 in
  (collect Scenario.archiving).1 = Returns tt
  /\ dict_get "arch/8cc500a7fd9b832a8c2369b07849390f.txt" (files s1)
     = Some (TextFile ["<HL1> A"])
  /\ dict_get "/wiki/A" (article_texts (crawler s1)) = Some TextArchived
  /\ index_lines s1 = Some []
  /\ stdout s1 = ["8cc500a7fd9b832a8c2369b07849390f=/wiki/A"]
  /\ match pending_articles s1 with
     | Returns pending => elements pending
     | _ => []
     end = ["/wiki/A"]
  /\ clock s1 = 2%nat /\ clock s2 = 3%nat
  /\ stdout s2 = ["8cc500a7fd9b832a8c2369b07849390f=/wiki/A";
                  "8cc500a7fd9b832a8c2369b07849390f=/wiki/A"].
Proof. vm_compute. repeat split. Qed.

(** * Further properties *)

(** ** Levels of frontier expansion *)

Section FollowDeeperMore.
Variable requests_get : nat -> string -> get_result.
Variable BeautifulSoup : string -> document.
Variable re_match : string -> string -> bool.
Variable page_fuel : nat.

Local Abbreviation followDeeper :=
  (WikiCrawler.followDeeper requests_get BeautifulSoup re_match page_fuel).
Local Abbreviation followDeeper_level :=
  (WikiCrawler.followDeeper_level requests_get BeautifulSoup re_match
     page_fuel).

(** X1.  Levels add up: for non-negative [n] and [m], [followDeeper(n + m)]
    is [followDeeper(n)] followed by [followDeeper(m)], in outcome and in
    state; and a call with no level left to do, [followDeeper(0)] or a
    negative number of levels, returns at once without touching
    anything. *)
Theorem followDeeper_levels_add (n m k : Z) (s : state) :
  0 <= n -> 0 <= m -> k <= 0 ->
  followDeeper (n + m) s = (run followDeeper n; followDeeper m) s
  /\ followDeeper k s = (Returns tt, s).
Proof.
  intros Hn Hm Hk. unfold WikiCrawler.followDeeper. split.
  - rewrite Z2Nat.inj_add by assumption. apply followDeeper_range_add.
  - replace (Z.to_nat k) with O by lia. reflexivity.
Qed.

End FollowDeeperMore.

(** Four levels from the seed Science, as one call and as 1 + 3. *)
Lemma followDeeper_levels_add_witness :
  WikiCrawler.followDeeper Scenario.web Scenario.parse Scenario.literal_match
    0 (1 + 3) Scenario.science_started
  = (run WikiCrawler.followDeeper Scenario.web Scenario.parse
           Scenario.literal_match 0 1;
     WikiCrawler.followDeeper Scenario.web Scenario.parse
       Scenario.literal_match 0 3) Scenario.science_started
  /\ WikiCrawler.followDeeper Scenario.web Scenario.parse
       Scenario.literal_match 0 (-1) Scenario.science_started
     = (Returns tt, Scenario.science_started).
Proof.
  apply (followDeeper_levels_add Scenario.web Scenario.parse
           Scenario.literal_match 0 1 3 (-1) Scenario.science_started);
    lia.
Defined.

(** ** Reading the graph through the defaultdict *)

Lemma set_graph_id (c : Crawler) :
  set_category_tree (category_tree c) (set_heap (heap c) c) = c.
Proof. destruct c. reflexivity. Qed.

#[local] Instance reads_graph_preorder : PreOrder reads_graph.
Proof.
  split.
  - intros s. split; [|auto].
    exists (heap (crawler s)), (category_tree (crawler s)).
    symmetry. apply set_graph_id.
  - intros s1 s2 s3 ((h1 & t1 & C1) & F1 & K1 & O1 & P1)
      ((h2 & t2 & C2) & F2 & K2 & O2 & P2).
    split; [exists h2, t2; rewrite C2, C1; reflexivity|].
    repeat split; congruence.
Qed.

Lemma parents_of_fresh (c : Crawler) (k k' : string) :
  dict_get k (category_tree c) = None ->
  parents_of
    (set_category_tree (dict_set k (length (heap c)) (category_tree c))
       (set_heap (heap c ++ [[]]) c)) k'
  = parents_of c k'.
Proof.
  intros Hk. unfold parents_of. cbn.
  destruct (decide (k' = k)) as [->|Hne].
  - rewrite dict_get_set_eq, Hk. rewrite list_lookup_middle by reflexivity.
    reflexivity.
  - rewrite dict_get_set_ne by exact Hne.
    destruct (dict_get k' (category_tree c)) as [a|]; [|reflexivity].
    destruct (heap c !! a) as [l|] eqn:E.
    + rewrite (lookup_app_l_Some _ _ _ _ E). reflexivity.
    + apply lookup_ge_None in E.
      destruct (decide (a = length (heap c))) as [->|Ha].
      * rewrite list_lookup_middle by reflexivity. reflexivity.
      * rewrite lookup_ge_None_2; [reflexivity|].
        rewrite length_app. cbn. lia.
Qed.

Lemma category_tree_getitem_reads (k : string) :
  stable reads_graph (category_tree_getitem k).
Proof.
  intros s. unfold category_tree_getitem, bind at 1, get_self.
  destruct (dict_get k (category_tree (crawler s))) as [a|] eqn:E.
  - reflexivity.
  - unfold new_list, bind, get_self, modify_self. cbn.
    split; [|repeat split].
    + eexists _, _. reflexivity.
    + intros k'. apply parents_of_fresh, E.
Qed.

(** The list [self.category_tree[k]] gives holds the parents of [k]. *)
Lemma category_tree_getitem_parents (k : string) (s : state) :
  exists a s',
    category_tree_getitem k s = (Returns a, s')
    /\ default [] (heap (crawler s') !! a) = parents_of (crawler s) k.
Proof.
  unfold category_tree_getitem, bind at 1, get_self, parents_of.
  destruct (dict_get k (category_tree (crawler s))) as [a|] eqn:E.
  - eexists _, _. split; reflexivity.
  - unfold new_list, bind, get_self, modify_self. cbn.
    eexists _, _. split; [reflexivity|]. cbn [heap crawler set_crawler
      set_category_tree set_heap].
    rewrite list_lookup_middle by reflexivity. reflexivity.
Qed.

Lemma read_list_reads (a : nat) : stable reads_graph (read_list a).
Proof. intros s. reflexivity. Qed.

#[local] Hint Resolve category_tree_getitem_reads read_list_reads : stable.

(** ** Pruning and failure during frontier expansion *)

Section FollowDeeperEdges.
Variable requests_get : nat -> string -> get_result.
Variable BeautifulSoup : string -> document.
Variable re_match : string -> string -> bool.
Variable page_fuel : nat.

Local Abbreviation followDeeper :=
  (WikiCrawler.followDeeper requests_get BeautifulSoup re_match page_fuel).
Local Abbreviation followDeeper_level :=
  (WikiCrawler.followDeeper_level requests_get BeautifulSoup re_match
     page_fuel).
Local Abbreviation followDeeper_range :=
  (WikiCrawler.followDeeper_range requests_get BeautifulSoup re_match
     page_fuel).
Local Abbreviation expand :=
  (fun entry : string * string =>
     do valid <- WikiCrawler.categoryIsValid re_match entry.2;
     if valid then
       do root <- category_tree_getitem entry.1;
       run WikiCrawler.addCategory requests_get BeautifulSoup page_fuel
             entry.2 (Some entry.1) (Some root);
       ret tt
     else ret tt).

(** [categoryIsValid] answers from the explicit names and the rules, and
    touches nothing. *)
Lemma categoryIsValid_eq (name : string) (s : state) :
  WikiCrawler.categoryIsValid re_match name s
  = (Returns
       (negb (bool_decide (name ∈ skip_categories (crawler s))
              || existsb (fun rule => re_match rule name)
                   (skip_category_rules (crawler s)))), s).
Proof.
  unfold WikiCrawler.categoryIsValid, bind, get_self.
  destruct (bool_decide (name ∈ skip_categories (crawler s))); reflexivity.
Qed.

Lemma rejected_name_bool (name : string) (c : Crawler) :
  name ∈ skip_categories c
  \/ (exists rule, rule ∈ skip_category_rules c /\ re_match rule name = true) ->
  bool_decide (name ∈ skip_categories c)
  || existsb (fun rule => re_match rule name) (skip_category_rules c) = true.
Proof.
  intros [H|(rule & Hin & Hm)].
  - rewrite bool_decide_eq_true_2 by exact H. reflexivity.
  - apply orb_true_iff. right. apply existsb_exists. exists rule.
    split; [apply list_elem_of_In, Hin|exact Hm].
Qed.

Lemma for_each_all_rejected (batch : list (string * string)) (s : state) :
  Forall (fun entry =>
            entry.2 ∈ skip_categories (crawler s)
            \/ exists rule, rule ∈ skip_category_rules (crawler s)
                            /\ re_match rule entry.2 = true) batch ->
  for_each batch expand s = (Returns tt, s).
Proof.
  induction 1 as [|entry batch He _ IH]; [reflexivity|].
  cbn [for_each]. erewrite bind_returns; [exact IH|].
  erewrite bind_returns by apply categoryIsValid_eq.
  rewrite (rejected_name_bool _ _ He). reflexivity.
Qed.

Lemma followDeeper_range_all_rejected (n : nat) (s : state) :
  Forall (fun entry =>
            entry.2 ∈ skip_categories (crawler s)
            \/ exists rule, rule ∈ skip_category_rules (crawler s)
                            /\ re_match rule entry.2 = true)
    (open_categories (crawler s)) ->
  followDeeper_range (S n) s
  = (Returns tt, set_crawler (set_open_categories [] (crawler s)) s).
Proof.
  revert s. induction n as [|n IH]; intros s H.
  - cbn [WikiCrawler.followDeeper_range]. rewrite bind_ret_r.
    rewrite followDeeper_level_batch. apply for_each_all_rejected, H.
  - change (followDeeper_range (S (S n)))
      with (run followDeeper_level; followDeeper_range (S n)).
    erewrite bind_returns;
      [|rewrite followDeeper_level_batch; apply for_each_all_rejected, H].
    rewrite IH by constructor. reflexivity.
Qed.

(** X2.  Rejected categories are pruned without a request: when every
    category of the frontier is skipped, explicitly or by a rule -- and
    so when the frontier is empty -- [followDeeper] with one level or
    more returns with the frontier empty and everything else, graph,
    indexes, files and clock, as before (the messages of the logger
    apart). *)
Theorem followDeeper_prunes_rejected (levels : Z) (s : state) :
  1 <= levels ->
  Forall (fun entry =>
            entry.2 ∈ skip_categories (crawler s)
            \/ exists rule, rule ∈ skip_category_rules (crawler s)
                            /\ re_match rule entry.2 = true)
    (open_categories (crawler s)) ->
  followDeeper levels s
  = (Returns tt, set_crawler (set_open_categories [] (crawler s)) s).
Proof.
  intros Hl H. unfold WikiCrawler.followDeeper.
  destruct (Z.to_nat levels) as [|n] eqn:E; [lia|].
  apply followDeeper_range_all_rejected, H.
Qed.

(** The outcome of a request depends on the time and on the URL only. *)
Lemma get_by_clock (url : string) (s s' : state) :
  clock s = clock s' ->
  (get_and_raise_for_status requests_get url s).1
  = (get_and_raise_for_status requests_get url s').1.
Proof.
  intros H. unfold get_and_raise_for_status. rewrite H.
  destruct (requests_get (clock s') url) as [code text|]; [|reflexivity].
  destruct (_ && _); reflexivity.
Qed.

(** X3.  A category page that cannot be loaded ends the expansion and
    costs the frontier: when the first category of the frontier passes
    the skip rules and its three requests fail, [followDeeper] raises the
    error of the last request; the frontier, swapped out before the
    batch, is left empty, so the categories that were waiting are in
    neither the frontier nor the graph.  The parent edges and the two
    indexes are as before. *)
Theorem followDeeper_failure_drops_frontier
  (levels : Z) (s : state) (link name : string)
  (rest : list (string * string)) :
  1 <= levels ->
  open_categories (crawler s) = (link, name) :: rest ->
  name ∉ skip_categories (crawler s) ->
  Forall (fun rule => re_match rule name = false)
    (skip_category_rules (crawler s)) ->
  (forall s', (clock s <= clock s' < clock s + 3)%nat ->
     (get_and_raise_for_status requests_get
        (WikiCategory.BASE_URL +:+ link) s').1 = Raises RequestException) ->
  let r := followDeeper levels s in
  r.1 = Raises RequestException
  /\ open_categories (crawler r.2) = []
  /\ clock r.2 = (clock s + 3)%nat
  /\ category_list (crawler r.2) = category_list (crawler s)
  /\ article_list (crawler r.2) = article_list (crawler s)
  /\ forall k, parents_of (crawler r.2) k = parents_of (crawler s) k.
Proof.
  intros Hl Hopen Hexplicit Hrules Hfail r. subst r.
  unfold WikiCrawler.followDeeper.
  destruct (Z.to_nat levels) as [|n] eqn:E; [lia|]. clear E Hl.
  cbn [WikiCrawler.followDeeper_range].
  set (s1 := set_crawler (set_open_categories [] (crawler s)) s).
  destruct (category_tree_getitem_returns link s1) as (root & s2 & Hget).
  pose proof (category_tree_getitem_reads link s1) as Hreads.
  rewrite Hget in Hreads. cbn [snd] in Hreads.
  destruct Hreads as ((h & t & Hc) & Hf & Hk & Ho & Hp).
  assert (Hk' : clock s2 = clock s) by (rewrite Hk; reflexivity).
  assert (Hraise : followDeeper_level s
                   = (Raises RequestException,
                      set_clock (S (S (S (clock s2)))) s2)).
  { rewrite followDeeper_level_batch, Hopen. cbn [for_each].
    apply bind_raises.
    erewrite bind_returns by apply categoryIsValid_eq.
    replace (negb _) with true.
    2:{ symmetry. apply negb_true_iff, orb_false_iff. split.
        - apply bool_decide_eq_false_2, Hexplicit.
        - clear -Hrules. cbn.
          induction Hrules as [|rule rules Hr _ IH]; [reflexivity|].
          cbn. rewrite Hr. exact IH. }
    cbn [fst snd]. fold s1. rewrite (bind_returns _ _ _ _ _ Hget).
    apply bind_raises. unfold WikiCrawler.addCategory. apply bind_raises.
    unfold WikiCategory.__init__, WikiCategory._requestCategory.
    cbn [WikiCategory.link WikiCategory.normal_link]. apply bind_raises.
    apply _make_request_budget_exhausted; apply Hfail;
      cbn [clock set_clock]; lia. }
  rewrite (bind_raises _ _ _ _ _ Hraise). cbn [fst snd].
  split; [reflexivity|]. cbn [crawler set_clock clock].
  rewrite Hc. split; [reflexivity|]. split; [lia|].
  split; [reflexivity|]. split; [reflexivity|].
  intros k. rewrite <- Hc. apply Hp.
Qed.

End FollowDeeperEdges.

(** Physics waits in the frontier and is skipped by rule. *)
Lemma followDeeper_prunes_rejected_witness :
  WikiCrawler.followDeeper Scenario.web Scenario.parse Scenario.literal_match
    0 2 Cases.pruning
  = (Returns tt,
     set_crawler (set_open_categories [] (crawler Cases.pruning))
       Cases.pruning).
Proof.
  apply (followDeeper_prunes_rejected Scenario.web Scenario.parse
           Scenario.literal_match 0 2 Cases.pruning).
  - lia.
  - apply Forall_cons; split; [|constructor].
    right. exists "Category:Phys". split; [constructor|reflexivity].
Defined.

(** Physics waits in the frontier while the encyclopedia is out of
    reach. *)
Lemma followDeeper_failure_drops_frontier_witness :
  let r := WikiCrawler.followDeeper Scenario.web_down Scenario.parse
             Scenario.literal_match 0 1 Scenario.science_started in
  r.1 = Raises RequestException
  /\ open_categories (crawler r.2) = []
  /\ clock r.2 = (clock Scenario.science_started + 3)%nat
  /\ category_list (crawler r.2)
     = category_list (crawler Scenario.science_started)
  /\ article_list (crawler r.2)
     = article_list (crawler Scenario.science_started)
  /\ forall k, parents_of (crawler r.2) k
               = parents_of (crawler Scenario.science_started) k.
Proof.
  apply (followDeeper_failure_drops_frontier Scenario.web_down Scenario.parse
           Scenario.literal_match 0 1 Scenario.science_started
           "/wiki/Category:Physics" "Category:Physics" []).
  - lia.
  - reflexivity.
  - apply not_elem_of_nil.
  - constructor.
  - intros s' _. reflexivity.
Defined.

(** ** The retry budget, in full *)

Lemma bind_returns_inv {A B} (m : M A) (k : A -> M B) (s s' : state) (b : B) :
  bind m k s = (Returns b, s') ->
  exists a s1, m s = (Returns a, s1) /\ k a s1 = (Returns b, s').
Proof.
  unfold bind. destruct (m s) as [[a|e|] s1]; [eauto|discriminate|discriminate].
Qed.

Section RetryContract.
Variable requests_get : nat -> string -> get_result.

Local Abbreviation get := (get_and_raise_for_status requests_get).

Lemma get_outcome (url : string) (s : state) :
  (exists text, (get url s).1 = Returns text)
  \/ (get url s).1 = Raises RequestException.
Proof.
  unfold get_and_raise_for_status.
  destruct (requests_get (clock s) url) as [code text|]; [|right; reflexivity].
  destruct (_ && _); [right; reflexivity|left; eexists; reflexivity].
Qed.

(** X4.  [WikiCategory._make_request] in full: it makes one, two or
    three requests and no more; it returns the body of the first request
    that is answered, and never [None]; it raises only after three failed
    requests, and then the [RequestException] of the third. *)
Theorem make_request_contract (url : string) (s : state) :
  let r := WikiCategory._make_request requests_get url s in
  (exists (text : string) (n : nat),
      (1 <= n <= 3)%nat
      /\ r = (Returns (Some text), set_clock (clock s + n) s)
      /\ (get url (set_clock (clock s + (n - 1)) s)).1 = Returns text
      /\ forall i, (i < n - 1)%nat ->
           (get url (set_clock (clock s + i) s)).1 = Raises RequestException)
  \/ (r = (Raises RequestException, set_clock (clock s + 3) s)
      /\ forall i, (i < 3)%nat ->
           (get url (set_clock (clock s + i) s)).1 = Raises RequestException).
Proof.
  intros r. subst r.
  assert (At : forall i o, (get url (set_clock (clock s + i) s)).1 = o ->
                 forall s', clock s' = (clock s + i)%nat -> (get url s').1 = o).
  { intros i o H s' Hs'. rewrite <- H. apply get_by_clock.
    rewrite Hs'. reflexivity. }
  replace (clock s + 3)%nat with (S (S (S (clock s)))) by lia.
  destruct (get_outcome url (set_clock (clock s + 0) s)) as [[t0 H0]|H0].
  { left. exists t0, 1%nat. split; [lia|].
    replace (clock s + 1)%nat with (S (clock s)) by lia.
    split; [apply _make_request_first_success, (At 0%nat _ H0); lia|].
    split; [exact H0|]. intros i Hi. lia. }
  destruct (get_outcome url (set_clock (clock s + 1) s)) as [[t1 H1]|H1].
  { left. exists t1, 2%nat. split; [lia|].
    replace (clock s + 2)%nat with (S (S (clock s))) by lia.
    split.
    - apply _make_request_second_success;
        [apply (At 0%nat _ H0)|apply (At 1%nat _ H1)]; cbn; lia.
    - split; [exact H1|]. intros i Hi.
      replace i with 0%nat by lia. exact H0. }
  destruct (get_outcome url (set_clock (clock s + 2) s)) as [[t2 H2]|H2].
  { left. exists t2, 3%nat. split; [lia|].
    replace (clock s + 3)%nat with (S (S (S (clock s)))) by lia.
    split.
    - apply _make_request_third_success;
        [apply (At 0%nat _ H0)|apply (At 1%nat _ H1)|apply (At 2%nat _ H2)];
        cbn; lia.
    - split; [exact H2|]. intros i Hi.
      destruct i as [|[|i]]; [exact H0|exact H1|lia]. }
  right. split.
  - apply _make_request_budget_exhausted;
      [apply (At 0%nat _ H0)|apply (At 1%nat _ H1)|apply (At 2%nat _ H2)];
      cbn; lia.
  - intros i Hi. destruct i as [|[|[|i]]]; [exact H0|exact H1|exact H2|lia].
Qed.

End RetryContract.

(** ** Adding a category: failure and success *)

Section AddCategoryMore.
Variable requests_get : nat -> string -> get_result.
Variable BeautifulSoup : string -> document.
Variable page_fuel : nat.

Local Abbreviation addCategory :=
  (WikiCrawler.addCategory requests_get BeautifulSoup page_fuel).
Local Abbreviation startFrom :=
  (WikiCrawler.startFrom requests_get BeautifulSoup page_fuel).

(** X5.  A category whose page cannot be loaded leaves no trace: when
    [WikiCategory(name, link)] raises -- the three requests failed, or
    the page says that the category is empty -- [addCategory] and
    [startFrom] raise the same exception, and the crawler, the files and
    the output are what they were. *)
Theorem addCategory_load_failure (name : string) (link : option string)
  (root : option nat) (s : state) (e : exn) :
  (WikiCategory.__init__ requests_get BeautifulSoup name link true s).1
  = Raises e ->
  let r := addCategory name link root s in
  let r' := startFrom name s in
  (r.1 = Raises e /\ crawler r.2 = crawler s /\ files r.2 = files s
   /\ stdout r.2 = stdout s)
  /\ (link = None ->
      r'.1 = Raises e /\ crawler r'.2 = crawler s /\ files r'.2 = files s
      /\ stdout r'.2 = stdout s).
Proof.
  intros Hinit r r'.
  pose proof (category_init_clock requests_get BeautifulSoup name link true s)
    as (Hc & Hf & Ho).
  destruct (WikiCategory.__init__ _ _ name link true s) as [o s1] eqn:E.
  cbn [fst snd] in *. subst o.
  assert (Hr : r = (Raises e, s1)).
  { subst r. unfold WikiCrawler.addCategory. apply bind_raises, E. }
  split; [rewrite Hr; auto|].
  intros ->. subst r'. unfold WikiCrawler.startFrom.
  rewrite (bind_raises _ _ s s1 e); [auto|].
  unfold WikiCrawler.addCategory. apply bind_raises, E.
Qed.

Lemma _loadPageLinks_link (self : WikiCategory.t) (s s' : state)
  (r : list string * WikiCategory.t) :
  WikiCategory._loadPageLinks self s = (Returns r, s') ->
  WikiCategory.link r.2 = WikiCategory.link self.
Proof.
  unfold WikiCategory._loadPageLinks, WikiCategory.the_doc, bind.
  destruct (WikiCategory.doc self); [|discriminate].
  intros [= <- _]. reflexivity.
Qed.

Lemma getPages_loop_link (fuel : nat) :
  forall (next_link : list string) (self : WikiCategory.t) (s s' : state)
         (r : dict string * WikiCategory.t),
    WikiCategory.getPages_loop requests_get BeautifulSoup fuel next_link
      self s = (Returns r, s') ->
    WikiCategory.link r.2 = WikiCategory.link self.
Proof.
  induction fuel as [|fuel IH]; intros [|next rest] self s s' r;
    cbn [WikiCategory.getPages_loop]; try discriminate;
    try (intros [= <- _]; reflexivity).
  intros H.
  apply bind_returns_inv in H as (response & s1 & _ & H).
  apply bind_returns_inv in H as (text & s2 & _ & H).
  cbv zeta in H.
  apply bind_returns_inv in H as (r1 & s3 & H1 & H).
  apply IH in H. rewrite H. apply (_loadPageLinks_link _ _ _ _ H1).
Qed.

Lemma getPages_link (self : WikiCategory.t) (s s' : state)
  (r : dict string * WikiCategory.t) :
  WikiCategory.getPages requests_get BeautifulSoup page_fuel self s
  = (Returns r, s') ->
  WikiCategory.link r.2 = WikiCategory.link self.
Proof.
  unfold WikiCategory.getPages. cbv zeta. intros H.
  apply bind_returns_inv in H as (r1 & s1 & H1 & H).
  apply getPages_loop_link in H. rewrite H.
  apply (_loadPageLinks_link _ _ _ _ H1).
Qed.

End AddCategoryMore.

(** The category "Physics" while every request fails. *)
Lemma addCategory_load_failure_witness :
  (WikiCrawler.addCategory Scenario.web_down Scenario.parse 0
     "Physics" None None Scenario.fresh).1 = Raises RequestException
  /\ crawler (WikiCrawler.addCategory Scenario.web_down Scenario.parse 0
                "Physics" None None Scenario.fresh).2
     = crawler Scenario.fresh.
Proof.
  pose proof (addCategory_load_failure Scenario.web_down Scenario.parse 0
                "Physics" None None Scenario.fresh RequestException) as H.
  cbv zeta in H.
  destruct H as [(H1 & H2 & _) _]; [vm_compute; reflexivity|].
  split; [exact H1|exact H2].
Defined.

(** ** What a successful [addCategory] has recorded *)

Lemma dict_get_not_in {V} (k : string) (d : dict V) :
  k ∉ keys d -> dict_get k d = None.
Proof.
  induction d as [|[k' v] d IH]; [reflexivity|]. cbn. intros H.
  apply not_elem_of_cons in H as [Hne Hin].
  apply String.eqb_neq in Hne. rewrite Hne. apply IH, Hin.
Qed.

Lemma dict_get_in {V} (k : string) (d : dict V) (v : V) :
  dict_get k d = Some v -> k ∈ keys d.
Proof.
  induction d as [|[k' v'] d IH]; [discriminate|]. cbn.
  destruct (String.eqb k k') eqn:E.
  - apply String.eqb_eq in E. subst. intros _. left.
  - intros H. right. apply IH, H.
Qed.

Lemma keys_dict_set {V} (k : string) (v : V) (d : dict V) :
  keys (dict_set k v d) = if bool_decide (k ∈ keys d) then keys d
                          else keys d ++ [k].
Proof.
  induction d as [|[k' v'] d IH]; [reflexivity|]. cbn [dict_set keys map fst].
  destruct (String.eqb k k') eqn:E.
  - apply String.eqb_eq in E. subst k'.
    rewrite bool_decide_eq_true_2 by left. reflexivity.
  - apply String.eqb_neq in E. cbn [map fst]. fold (keys (dict_set k v d)).
    fold (keys d). rewrite IH.
    destruct (bool_decide (k ∈ keys d)) eqn:B.
    + apply bool_decide_eq_true in B.
      rewrite bool_decide_eq_true_2 by (right; exact B). reflexivity.
    + apply bool_decide_eq_false in B.
      rewrite bool_decide_eq_false_2; [reflexivity|].
      intros H. apply elem_of_cons in H as [H|H]; [congruence|contradiction].
Qed.

Lemma keys_dict_set_NoDup {V} (k : string) (v : V) (d : dict V) :
  NoDup (keys d) -> NoDup (keys (dict_set k v d)).
Proof.
  intros H. rewrite keys_dict_set.
  destruct (bool_decide (k ∈ keys d)) eqn:B; [exact H|].
  apply bool_decide_eq_false in B. apply NoDup_app. split; [exact H|].
  split; [|apply NoDup_singleton].
  intros x Hx Hk. apply list_elem_of_singleton in Hk. subst. contradiction.
Qed.

Lemma keys_dict_update_NoDup {V} (d e : dict V) :
  NoDup (keys d) -> NoDup (keys (dict_update d e)).
Proof.
  unfold dict_update. revert d. induction e as [|[k v] e IH]; intros d H;
    [exact H|].
  cbn [fold_left]. apply IH, keys_dict_set_NoDup, H.
Qed.

(** [d.update(e)]: the entries of [e] win, the others stay. *)
Lemma dict_get_update {V} (k : string) (d e : dict V) :
  NoDup (keys e) ->
  dict_get k (dict_update d e)
  = match dict_get k e with
    | Some v => Some v
    | None => dict_get k d
    end.
Proof.
  unfold dict_update. revert d. induction e as [|[k' v'] e IH]; intros d H;
    [reflexivity|].
  cbn [keys map fst] in H. apply NoDup_cons in H as [Hk' He].
  cbn [fold_left dict_get fst snd]. rewrite (IH _ He).
  destruct (String.eqb k k') eqn:E.
  - apply String.eqb_eq in E. subst k'.
    rewrite (dict_get_not_in _ _ Hk'). apply dict_get_set_eq.
  - apply String.eqb_neq in E. rewrite dict_get_set_ne by exact E.
    reflexivity.
Qed.

#[local] Instance writes_graph_only_preorder : PreOrder writes_graph_only.
Proof.
  split.
  - intros s. exists (heap (crawler s)), (category_tree (crawler s)).
    symmetry. apply set_graph_id.
  - intros s1 s2 s3 (h1 & t1 & C1) (h2 & t2 & C2).
    exists h2, t2. rewrite C2, C1. reflexivity.
Qed.

Lemma writes_graph_only_getitem (k : string) :
  stable writes_graph_only (category_tree_getitem k).
Proof. intros s. apply (category_tree_getitem_reads k s). Qed.

Lemma writes_graph_only_list_append (a : nat) (x : string) :
  stable writes_graph_only (list_append a x).
Proof.
  intros s. unfold list_append, modify_self. cbn.
  exists (alter (fun l => l ++ [x]) a (heap (crawler s))),
    (category_tree (crawler s)).
  destruct (crawler s). reflexivity.
Qed.

#[local] Hint Resolve writes_graph_only_getitem writes_graph_only_list_append
  : stable.

(** The loop [for new_link in ...: self.category_tree[new_link].append(x)]
    on a well-formed graph. *)
Lemma record_edges (x : string) (links : list string) :
  forall s s',
    graph_well_formed (crawler s) ->
    for_each links (fun new_link =>
      do a <- category_tree_getitem new_link; list_append a x) s
    = (Returns tt, s') ->
    graph_well_formed (crawler s')
    /\ forall l, l ∈ links -> x ∈ parents_of (crawler s') l.
Proof.
  induction links as [|link links IH]; intros s s' Hwf H.
  - injection H as <-. split; [exact Hwf|]. intros l Hl. inversion Hl.
  - cbn [for_each] in H.
    apply bind_returns_inv in H as ([] & sb & Hbody & Hrest).
    apply bind_returns_inv in Hbody as (a & sg & Hget & Happ).
    (* after the lookup *)
    assert (Hg : dict_get link (category_tree (crawler sg)) = Some a
                 /\ graph_well_formed (crawler sg)).
    { revert Hget. unfold category_tree_getitem, bind at 1, get_self.
      destruct (dict_get link (category_tree (crawler s))) as [a0|] eqn:E.
      - intros [= <- <-]. split; [exact E|exact Hwf].
      - unfold new_list, bind, get_self, modify_self.
        cbn [fst snd ret crawler set_crawler heap category_tree set_heap
               set_category_tree].
        intros [= <- <-].
        cbn [crawler set_crawler heap category_tree set_heap
               set_category_tree].
        split; [apply dict_get_set_eq|].
        intros k a0 Hk. cbn in Hk |- *. rewrite length_app. cbn [length].
        destruct (decide (k = link)) as [->|Hne].
        + rewrite dict_get_set_eq in Hk. injection Hk as <-. lia.
        + rewrite dict_get_set_ne in Hk by exact Hne.
          specialize (Hwf k a0 Hk). lia. }
    destruct Hg as (Hbound & Hwfg).
    (* after the append *)
    unfold list_append, modify_self in Happ. injection Happ as <-.
    set (sb := set_crawler _ sg) in *.
    assert (Hwfb : graph_well_formed (crawler sb)).
    { intros k a0 Hk. subst sb. cbn in *. rewrite length_alter.
      apply (Hwfg k a0 Hk). }
    assert (Hx : x ∈ parents_of (crawler sb) link).
    { unfold parents_of. subst sb. cbn. rewrite Hbound.
      rewrite list_lookup_alter_eq.
      destruct (lookup_lt_is_Some_2 (heap (crawler sg)) a
                  (Hwfg link a Hbound)) as [l0 ->].
      cbn. apply elem_of_app. right. left. }
    destruct (IH sb s' Hwfb Hrest) as (Hwf' & Hall).
    split; [exact Hwf'|]. intros l Hl.
    destruct (decide (l ∈ links)) as [Hin|Hnin]; [apply Hall, Hin|].
    apply elem_of_cons in Hl as [->|Hl]; [|contradiction].
    assert (Hkept : edges_kept (fun _ => True) sb s').
    { pose proof (stable_for_each (edges_kept (fun _ => True)) links
                    (fun new_link =>
                       do a <- category_tree_getitem new_link;
                       list_append a x)) as Hs.
      rewrite <- (f_equal snd Hrest : _ = s'). apply Hs.
      intros l. stable_solve. }
    destruct (edges_kept_prefix _ _ _ link Hkept I) as [tail ->].
    apply elem_of_app. left. exact Hx.
Qed.

Section AddCategoryRecords.
Variable requests_get : nat -> string -> get_result.
Variable BeautifulSoup : string -> document.
Variable page_fuel : nat.

Local Abbreviation addCategory :=
  (WikiCrawler.addCategory requests_get BeautifulSoup page_fuel).

Lemma _loadPageLinks_pages (self : WikiCategory.t) (s s' : state)
  (r : list string * WikiCategory.t) :
  NoDup (keys (WikiCategory.pages self)) ->
  WikiCategory._loadPageLinks self s = (Returns r, s') ->
  NoDup (keys (WikiCategory.pages r.2)).
Proof.
  unfold WikiCategory._loadPageLinks, WikiCategory.the_doc, bind.
  destruct (WikiCategory.doc self); [|discriminate].
  intros H [= <- _]. cbn. apply keys_dict_update_NoDup, H.
Qed.

Lemma getPages_loop_pages (fuel : nat) :
  forall (next_link : list string) (self : WikiCategory.t) (s s' : state)
         (r : dict string * WikiCategory.t),
    NoDup (keys (WikiCategory.pages self)) ->
    WikiCategory.getPages_loop requests_get BeautifulSoup fuel next_link
      self s = (Returns r, s') ->
    r.1 = WikiCategory.pages r.2 /\ NoDup (keys r.1).
Proof.
  induction fuel as [|fuel IH]; intros [|next rest] self s s' r Hnd;
    cbn [WikiCategory.getPages_loop]; try discriminate;
    try (intros [= <- _]; split; [reflexivity|exact Hnd]).
  intros H.
  apply bind_returns_inv in H as (response & s1 & _ & H).
  apply bind_returns_inv in H as (text & s2 & _ & H).
  cbv zeta in H.
  apply bind_returns_inv in H as (r1 & s3 & H1 & H).
  apply IH in H; [exact H|].
  eapply _loadPageLinks_pages; [|exact H1]. exact Hnd.
Qed.

Lemma getPages_pages (self : WikiCategory.t) (s s' : state)
  (r : dict string * WikiCategory.t) :
  WikiCategory.getPages requests_get BeautifulSoup page_fuel self s
  = (Returns r, s') ->
  r.1 = WikiCategory.pages r.2 /\ NoDup (keys r.1).
Proof.
  unfold WikiCategory.getPages. cbv zeta. intros H.
  apply bind_returns_inv in H as (r1 & s1 & H1 & H).
  apply getPages_loop_pages in H; [exact H|].
  eapply _loadPageLinks_pages; [|exact H1]. apply NoDup_nil_2.
Qed.

Lemma dict_of_NoDup {V} (l : list (string * V)) : NoDup (keys (dict_of l)).
Proof. apply keys_dict_update_NoDup, NoDup_nil_2. Qed.

Lemma parents_of_kept (x l : string) (s s' : state) :
  edges_kept (fun _ => True) s s' ->
  x ∈ parents_of (crawler s) l -> x ∈ parents_of (crawler s') l.
Proof.
  intros Hk Hx. destruct (edges_kept_prefix _ _ _ l Hk I) as [tail ->].
  apply elem_of_app. left. exact Hx.
Qed.

(** X6.  What [addCategory] has recorded when it returns, on a graph
    whose links are bound to existing lists: the object it returns
    carries the normal link of the category; every page the object lists
    is in the article index under its title and has the category among
    its parents; and every subcategory of the first page of the category
    is in the frontier and in the category index under its title, with
    the category among its parents. *)
Theorem addCategory_records
  (name : string) (link : option string) (root : option nat)
  (s s' : state) (new_category : WikiCategory.t) :
  graph_well_formed (crawler s) ->
  (forall r, root = Some r -> (r < length (heap (crawler s)))%nat) ->
  addCategory name link root s = (Returns new_category, s') ->
  let category := WikiCategory.normal_link name link in
  WikiCategory.link new_category = category
  /\ (forall l title,
        dict_get l (WikiCategory.pages new_category) = Some title ->
        dict_get l (article_list (crawler s')) = Some title
        /\ category ∈ parents_of (crawler s') l)
  /\ (forall first s1 d l title,
        WikiCategory.__init__ requests_get BeautifulSoup name link true s
        = (Returns first, s1) ->
        WikiCategory.doc first = Some d ->
        dict_get l (dict_of (mw_subcategories d)) = Some title ->
        dict_get l (open_categories (crawler s')) = Some title
        /\ dict_get l (category_list (crawler s')) = Some title
        /\ category ∈ parents_of (crawler s') l).
Proof.
  intros Hwf Hroot H category. unfold WikiCrawler.addCategory in H.
  cbv zeta in H.
  apply bind_returns_inv in H as (first & s1 & Hinit & H).
  pose proof (category_init_link _ _ _ _ _ _ _ Hinit) as Hlink.
  pose proof (category_init_clock requests_get BeautifulSoup name link true s)
    as (Hc1 & _). rewrite Hinit in Hc1. cbn [snd] in Hc1.
  apply bind_returns_inv in H as (ra & s2 & Halloc & H).
  assert (H2 : graph_well_formed (crawler s2)
               /\ (ra < length (heap (crawler s2)))%nat).
  { destruct root as [r|].
    - injection Halloc as <- <-. rewrite Hc1. split; [exact Hwf|].
      apply Hroot. reflexivity.
    - unfold new_list, bind, get_self, modify_self in Halloc.
      injection Halloc as <- <-. split.
      + intros k a Hk. cbn in Hk |- *. rewrite Hc1 in *.
        rewrite length_app. specialize (Hwf k a Hk). lia.
      + cbn. rewrite length_app. cbn. lia. }
  destruct H2 as (Hwf2 & Hra).
  apply bind_returns_inv in H as ([] & s3 & Hassign & H).
  unfold modify_self in Hassign. injection Hassign as <-.
  set (s3 := set_crawler _ s2) in *.
  assert (Hwf3 : graph_well_formed (crawler s3)).
  { intros k a Hk. subst s3. cbn in Hk |- *.
    destruct (decide (k = WikiCategory.link first)) as [->|Hne].
    - rewrite dict_get_set_eq in Hk. injection Hk as <-. exact Hra.
    - rewrite dict_get_set_ne in Hk by exact Hne. apply (Hwf2 k a Hk). }
  apply bind_returns_inv in H as (sub & s3' & Hsub & H).
  assert (Hsub' : s3' = s3
                  /\ forall d, WikiCategory.doc first = Some d ->
                               sub = dict_of (mw_subcategories d)).
  { revert Hsub. unfold WikiCategory.getSubCategories, WikiCategory.the_doc,
      bind. destruct (WikiCategory.doc first) as [d0|]; [|discriminate].
    intros [= <- <-]. split; [reflexivity|]. intros d [= <-]. reflexivity. }
  destruct Hsub' as (-> & Hsubd).
  apply bind_returns_inv in H as ([] & s4 & H4 & H).
  unfold modify_self in H4. injection H4 as <-.
  apply bind_returns_inv in H as ([] & s5 & H5 & H).
  unfold modify_self in H5. injection H5 as <-.
  set (s5 := set_crawler _ (set_crawler _ s3)) in *.
  apply bind_returns_inv in H as ([] & s6 & Hloop1 & H).
  destruct (record_edges (WikiCategory.link first) (keys sub) s5 s6 Hwf3 Hloop1)
    as (Hwf6 & Hedges1).
  assert (Hw56 : writes_graph_only s5 s6).
  { rewrite <- (f_equal snd Hloop1 : _ = s6).
    apply (stable_for_each writes_graph_only). intros l. stable_solve. }
  apply bind_returns_inv in H as (r & s7 & Hpages & H).
  pose proof (getPages_clock requests_get BeautifulSoup page_fuel first s6)
    as (Hc7 & _). rewrite Hpages in Hc7. cbn [snd] in Hc7.
  destruct (getPages_pages _ _ _ _ Hpages) as (Hr1 & Hnd).
  pose proof (getPages_link _ _ _ _ _ _ _ Hpages) as Hrlink.
  cbv zeta in H.
  apply bind_returns_inv in H as ([] & s8 & H8 & H).
  unfold modify_self in H8. injection H8 as <-.
  set (s8 := set_crawler _ s7) in *.
  apply bind_returns_inv in H as ([] & s9 & Hloop2 & H).
  injection H as <- <-.
  assert (Hwf8 : graph_well_formed (crawler s8)).
  { intros k a Hk. subst s8. cbn in Hk |- *. rewrite Hc7 in *.
    apply (Hwf6 k a Hk). }
  destruct (record_edges (WikiCategory.link first) (keys r.1) s8 s9 Hwf8 Hloop2)
    as (_ & Hedges2).
  assert (Hw89 : writes_graph_only s8 s9).
  { rewrite <- (f_equal snd Hloop2 : _ = s9).
    apply (stable_for_each writes_graph_only). intros l. stable_solve. }
  assert (Hk89 : edges_kept (fun _ => True) s8 s9).
  { rewrite <- (f_equal snd Hloop2 : _ = s9).
    apply (stable_for_each (edges_kept (fun _ => True))). intros l.
    stable_solve. }
  destruct Hw56 as (h6 & t6 & C6). destruct Hw89 as (h9 & t9 & C9).
  fold category in Hlink. rewrite Hlink in *.
  split; [exact Hrlink|]. split.
  - intros l title Hl. rewrite <- Hr1 in Hl. split.
    + rewrite C9. subst s8. cbn. rewrite (dict_get_update _ _ _ Hnd), Hl.
      reflexivity.
    + apply Hedges2, (dict_get_in _ _ _ Hl).
  - intros first' s1' d l title Hinit' Hd Hl.
    rewrite Hinit in Hinit'. injection Hinit' as <- <-.
    rewrite <- (Hsubd d Hd) in Hl.
    assert (Hnds : NoDup (keys sub))
      by (rewrite (Hsubd d Hd); apply dict_of_NoDup).
    split; [|split].
    + rewrite C9. subst s8. cbn. rewrite Hc7, C6. subst s5. cbn.
      rewrite (dict_get_update _ _ _ Hnds), Hl. reflexivity.
    + rewrite C9. subst s8. cbn. rewrite Hc7, C6. subst s5. cbn.
      rewrite (dict_get_update _ _ _ Hnds), Hl. reflexivity.
    + apply (parents_of_kept _ _ s8 s9 Hk89).
      assert (Hp : forall k, parents_of (crawler s8) k
                             = parents_of (crawler s6) k).
      { intros k. subst s8. unfold parents_of. cbn. rewrite Hc7.
        reflexivity. }
      rewrite Hp. apply Hedges1, (dict_get_in _ _ _ Hl).
Qed.

End AddCategoryRecords.

Lemma graph_well_formed_Forall (c : Crawler) :
  Forall (fun entry => (entry.2 < length (heap c))%nat) (category_tree c) ->
  graph_well_formed c.
Proof.
  unfold graph_well_formed. induction 1 as [|[k' a'] t Hh _ IH];
    intros k a; cbn [dict_get]; [discriminate|].
  destruct (String.eqb k k'); [intros [= <-]; exact Hh|apply IH].
Qed.

(** Physics expanded from the frontier of the crawler started at
    Science. *)
Lemma addCategory_records_witness :
  let s' :=
    (WikiCrawler.addCategory Scenario.web Scenario.parse 0 "Category:Physics"
       (Some "/wiki/Category:Physics") (Some 1%nat)
       Scenario.science_started).2 in
  let category :=
    WikiCategory.normal_link "Category:Physics"
      (Some "/wiki/Category:Physics") in
  WikiCategory.link Cases2.physics_object = category
  /\ (forall l title,
        dict_get l (WikiCategory.pages Cases2.physics_object) = Some title ->
        dict_get l (article_list (crawler s')) = Some title
        /\ category ∈ parents_of (crawler s') l)
  /\ (forall first s1 d l title,
        WikiCategory.__init__ Scenario.web Scenario.parse "Category:Physics"
          (Some "/wiki/Category:Physics") true Scenario.science_started
        = (Returns first, s1) ->
        WikiCategory.doc first = Some d ->
        dict_get l (dict_of (mw_subcategories d)) = Some title ->
        dict_get l (open_categories (crawler s')) = Some title
        /\ dict_get l (category_list (crawler s')) = Some title
        /\ category ∈ parents_of (crawler s') l).
Proof.
  apply (addCategory_records Scenario.web Scenario.parse 0 "Category:Physics"
           (Some "/wiki/Category:Physics") (Some 1%nat)
           Scenario.science_started).
  - apply graph_well_formed_Forall. vm_compute. repeat constructor.
  - intros r [= <-]. vm_compute. repeat constructor.
  - vm_compute. reflexivity.
Defined.

Section StartFrom.
Variable requests_get : nat -> string -> get_result.
Variable BeautifulSoup : string -> document.
Variable page_fuel : nat.

Lemma addCategory_returns_link (name : string) (link : option string)
  (root : option nat) (s s' : state) (new_category : WikiCategory.t) :
  WikiCrawler.addCategory requests_get BeautifulSoup page_fuel name link root s
  = (Returns new_category, s') ->
  WikiCategory.link new_category = WikiCategory.normal_link name link
  /\ exists first s1,
      WikiCategory.__init__ requests_get BeautifulSoup name link true s
      = (Returns first, s1).
Proof.
  unfold WikiCrawler.addCategory. cbv zeta. intros H.
  apply bind_returns_inv in H as (first & s1 & Hinit & H).
  split; [|eauto].
  apply bind_returns_inv in H as (ra & s2 & _ & H).
  apply bind_returns_inv in H as ([] & s3 & _ & H).
  apply bind_returns_inv in H as (sub & s4 & _ & H).
  apply bind_returns_inv in H as ([] & s5 & _ & H).
  apply bind_returns_inv in H as ([] & s6 & _ & H).
  apply bind_returns_inv in H as ([] & s7 & _ & H).
  apply bind_returns_inv in H as (r & s8 & Hpages & H).
  cbv zeta in H.
  apply bind_returns_inv in H as ([] & s9 & _ & H).
  apply bind_returns_inv in H as ([] & s10 & _ & H).
  injection H as <- <-.
  rewrite (getPages_link _ _ _ _ _ _ _ Hpages).
  apply (category_init_link _ _ _ _ _ _ _ Hinit).
Qed.

(** X7.  The seed of a crawl: when [startFrom(category)] returns, the
    seed is in the category index under its normal link with the name as
    it was given (no [Category:] prefix is added to the stored name), and
    its parent list starts with the synthetic root. *)
Theorem startFrom_seed (category : string) (s s' : state) :
  WikiCrawler.startFrom requests_get BeautifulSoup page_fuel category s
  = (Returns tt, s') ->
  let link := WikiCategory.normal_link category None in
  dict_get link (category_list (crawler s')) = Some category
  /\ exists l, parents_of (crawler s') link = "" :: l.
Proof.
  intros H link. unfold WikiCrawler.startFrom in H.
  apply bind_returns_inv in H as (init & s1 & Hadd & H).
  unfold modify_self in H. injection H as <-.
  destruct (addCategory_returns_link _ _ _ _ _ _ Hadd)
    as (Hlink & first & s0 & Hinit).
  fold link in Hlink. rewrite Hlink. split.
  - cbn. apply dict_get_set_eq.
  - destruct (addCategory_without_root requests_get BeautifulSoup page_fuel
                category None s s0 first Hinit) as [l Hl].
    rewrite Hadd in Hl. exists l. exact Hl.
Qed.

End StartFrom.

(** The crawl started at Science. *)
Lemma startFrom_seed_witness :
  let link := WikiCategory.normal_link "Science" None in
  dict_get link (category_list (crawler Scenario.science_started))
  = Some "Science"
  /\ exists l, parents_of (crawler Scenario.science_started) link = "" :: l.
Proof.
  apply (startFrom_seed Scenario.web Scenario.parse 0 "Science"
           Scenario.fresh Scenario.science_started).
  vm_compute. reflexivity.
Defined.

(** ** The category policy for articles *)

Section CategoryPolicy.
Variable re_match : string -> string -> bool.

Lemma first_matching_rule_none (rules : list string) (category : string) :
  existsb (fun rule => re_match rule category) rules = false ->
  WikiCrawler.first_matching_rule re_match rules category = None.
Proof.
  unfold WikiCrawler.first_matching_rule.
  induction rules as [|rule rules IH]; [reflexivity|]. cbn.
  destruct (re_match rule category); [discriminate|exact IH].
Qed.

Lemma first_matching_rule_some (rules : list string) (category : string) :
  existsb (fun rule => re_match rule category) rules = true ->
  exists rule,
    WikiCrawler.first_matching_rule re_match rules category = Some rule.
Proof.
  unfold WikiCrawler.first_matching_rule.
  induction rules as [|rule rules IH]; [discriminate|]. cbn.
  destruct (re_match rule category); [eauto|exact IH].
Qed.

Lemma articleCategoriesAreValid_loop_eq (name : string)
  (categories : list string) (s : state) :
  WikiCrawler.articleCategoriesAreValid_loop re_match name categories s
  = match List.find (rejected_category re_match (crawler s)) categories with
    | None => (Returns true, s)
    | Some bad =>
        (Returns false,
         set_crawler
           (set_skipped_articles
              (dict_set name (rejection_reason re_match (crawler s) bad)
                 (skipped_articles (crawler s)))
              (crawler s))
           s)
    end.
Proof.
  induction categories as [|category rest IH]; [reflexivity|].
  cbn [WikiCrawler.articleCategoriesAreValid_loop List.find].
  unfold bind at 1, get_self at 1.
  unfold rejected_category at 1, rejection_reason.
  destruct (bool_decide (category ∈ skip_article_categories (crawler s)))
    eqn:B.
  - cbn [orb]. cbv beta iota. rewrite B. reflexivity.
  - cbn [orb].
    destruct (existsb _ (skip_article_category_rules (crawler s))) eqn:E.
    + cbv beta iota. rewrite B.
      destruct (first_matching_rule_some _ _ E) as [rule ->]. reflexivity.
    + rewrite (first_matching_rule_none _ _ E). exact IH.
Qed.

(** X8.  The first rejected head category decides.
    [articleCategoriesAreValid] goes through the head categories of the
    article in page order and stops at the first one that is in the
    explicit list or matched by a rule: it returns [False] and records,
    under the name of the article, [Category: <category>] when the
    category is listed and [Rule: <rule>] for the first matching rule
    otherwise; nothing else changes.  When no head category is rejected
    it returns [True] and changes nothing.  It never raises. *)
Theorem articleCategoriesAreValid_first_rejected (name : string)
  (article_categories : dict string) (s : state) :
  WikiCrawler.articleCategoriesAreValid re_match name article_categories s
  = match List.find (rejected_category re_match (crawler s))
            (values article_categories) with
    | None => (Returns true, s)
    | Some bad =>
        (Returns false,
         set_crawler
           (set_skipped_articles
              (dict_set name (rejection_reason re_match (crawler s) bad)
                 (skipped_articles (crawler s)))
              (crawler s))
           s)
    end.
Proof. apply articleCategoriesAreValid_loop_eq. Qed.

End CategoryPolicy.

(** An article of a stub category and of an explicitly skipped category:
    the stub category comes first on the page, so the rule is the
    recorded reason. *)
Example articleCategoriesAreValid_stub :
  let r := WikiCrawler.articleCategoriesAreValid Scenario.literal_match
             "Ada" Cases3.head_categories Cases3.category_policy in
  r.1 = Returns false
  /\ skipped_articles (crawler r.2) = [("Ada", "Rule: Category:Physics s")].
Proof. vm_compute. split; reflexivity. Qed.

(** ** The index, line by line *)

Lemma split_length (sep : ascii) (s : string) :
  length (Str.split sep s) = S (count_char sep s).
Proof.
  induction s as [|c s IH]; [reflexivity|]. cbn [Str.split count_char].
  destruct (Ascii.eqb c sep).
  - cbn. rewrite IH. reflexivity.
  - destruct (Str.split sep s) as [|f fs]; [discriminate|]. exact IH.
Qed.

(** A line unpacks exactly when, stripped, it holds one [=]. *)
Lemma unpack_entry_exact (line : string) (s : state) :
  (count_char "=" (Str.strip line) = 1%nat
   /\ exists link, WikiCrawler.unpack_entry line s = (Returns link, s))
  \/ (count_char "=" (Str.strip line) <> 1%nat
      /\ WikiCrawler.unpack_entry line s = (Raises ValueError, s)).
Proof.
  unfold WikiCrawler.unpack_entry.
  pose proof (split_length "=" (Str.strip line)) as H.
  destruct (Str.split "=" (Str.strip line)) as [|a [|b [|c l]]]; cbn in H.
  - discriminate.
  - right. split; [lia|reflexivity].
  - left. split; [lia|]. eexists. reflexivity.
  - right. split; [lia|reflexivity].
Qed.

Lemma comprehension_unpack_exact (lines : list string) (s : state) :
  (Forall (fun line => count_char "=" (Str.strip line) = 1%nat) lines
   /\ exists links,
       comprehension lines WikiCrawler.unpack_entry s = (Returns links, s)
       /\ length links = length lines)
  \/ (Exists (fun line => count_char "=" (Str.strip line) <> 1%nat) lines
      /\ comprehension lines WikiCrawler.unpack_entry s
         = (Raises ValueError, s)).
Proof.
  induction lines as [|line lines IH].
  - left. split; [constructor|]. exists []. split; reflexivity.
  - cbn [comprehension].
    destruct (unpack_entry_exact line s) as [(Hc & link & Hl)|(Hc & Hl)].
    + rewrite (bind_returns _ _ _ _ _ Hl).
      destruct IH as [(Hall & links & Hr & Hlen)|(Hex & Hr)].
      * left. split; [constructor; assumption|]. exists (link :: links).
        rewrite (bind_returns _ _ _ _ _ Hr). split; [reflexivity|].
        cbn. rewrite Hlen. reflexivity.
      * right. split; [right; exact Hex|].
        rewrite (bind_raises _ _ _ _ _ Hr). reflexivity.
    + right. split; [left; exact Hc|].
      rewrite (bind_raises _ _ _ _ _ Hl). reflexivity.
Qed.

(** X9.  [readIndex] in full.  A missing index raises
    [FileNotFoundError]; a snapshot in its place cannot be read as text.
    An index that is a text file is read exactly when every line, with
    the white space at its ends stripped, holds one [=]: one link is
    returned per line.  Otherwise -- a line with no [=], an empty line, a
    link that has an [=] of its own -- the read raises [ValueError].  The
    state is never changed. *)
Theorem readIndex_exact (s : state) :
  match dict_get (WikiCrawler.index_path (crawler s)) (files s) with
  | None => WikiCrawler.readIndex s = (Raises FileNotFoundError, s)
  | Some (Snapshot _) => WikiCrawler.readIndex s = (Raises UnicodeDecodeError, s)
  | Some (TextFile lines) =>
      (Forall (fun line => count_char "=" (Str.strip line) = 1%nat) lines
       /\ exists links,
           WikiCrawler.readIndex s = (Returns links, s)
           /\ length links = length lines)
      \/ (Exists (fun line => count_char "=" (Str.strip line) <> 1%nat) lines
          /\ WikiCrawler.readIndex s = (Raises ValueError, s))
  end.
Proof.
  unfold WikiCrawler.readIndex.
  rewrite (bind_returns _ _ s s (crawler s)) by reflexivity.
  destruct (dict_get _ (files s)) as [[lines|c]|] eqn:E.
  - rewrite (bind_returns _ _ s s lines)
      by (unfold read_lines; rewrite E; reflexivity).
    apply comprehension_unpack_exact.
  - apply bind_raises. unfold read_lines. rewrite E. reflexivity.
  - apply bind_raises. unfold read_lines. rewrite E. reflexivity.
Qed.

(** A link with an [=] of its own makes the index unreadable. *)
Example readIndex_equals_in_link :
  WikiCrawler.readIndex Cases4.equals_in_link
  = (Raises ValueError, Cases4.equals_in_link).
Proof. vm_compute. reflexivity. Qed.

(** ** Edge cases of [collectArticles] *)

Section CollectEdges.
Variable requests_get : nat -> string -> get_result.
Variable BeautifulSoup : string -> document.
Variable md5_hexdigest : string -> string.
Variable re_match : string -> string -> bool.
Variable ancestor_fuel : nat.

Local Abbreviation collectArticles :=
  (WikiCrawler.collectArticles requests_get BeautifulSoup md5_hexdigest
     re_match ancestor_fuel).
Local Abbreviation collect_loop :=
  (WikiCrawler.collect_loop requests_get BeautifulSoup md5_hexdigest
     re_match ancestor_fuel).

(** X10.  A new archive cannot be collected into: with the archive path
    set and no [index.txt] in it -- [setArchivePath] makes the directory,
    nothing makes the index -- [collectArticles] raises
    [FileNotFoundError] before it looks at any article, and changes
    nothing. *)
Theorem collectArticles_new_archive
  (links text categories : bool) (limit : option Z) (save_intervall : Z)
  (path : string) (s : state) :
  archive_path (crawler s) = Some path ->
  dict_get (path +:+ "/index.txt") (files s) = None ->
  collectArticles links text categories limit save_intervall s
  = (Raises FileNotFoundError, s).
Proof.
  intros Hpath Hfile. unfold WikiCrawler.collectArticles.
  apply bind_raises. unfold WikiCrawler.artilces_loaded.
  rewrite (bind_returns _ _ s s (crawler s)) by reflexivity.
  rewrite Hpath. unfold WikiCrawler.readIndex.
  rewrite (bind_returns _ _ s s (crawler s)) by reflexivity.
  apply bind_raises. unfold read_lines, WikiCrawler.index_path.
  rewrite Hpath. cbn [format_path]. rewrite Hfile. reflexivity.
Qed.

(** X11.  Nothing to do: when the index (or, without an archive, the
    texts in memory) can be read and either the limit is 0 or no known
    article is missing from it, [collectArticles] returns at once; no
    page is requested and nothing changes (the logger has its message). *)
Theorem collectArticles_nothing_to_do
  (links text categories : bool) (limit : option Z) (save_intervall : Z)
  (loaded : list string) (s : state) :
  WikiCrawler.artilces_loaded s = (Returns loaded, s) ->
  limit = Some 0
  \/ WikiCrawler.articles_to_collect (article_list (crawler s)) loaded = ∅ ->
  collectArticles links text categories limit save_intervall s
  = (Returns tt, s).
Proof.
  intros Hloaded H. unfold WikiCrawler.collectArticles.
  rewrite (bind_returns _ _ _ _ _ Hloaded).
  rewrite (bind_returns _ _ s s (crawler s)) by reflexivity.
  cbv zeta. destruct H as [-> | ->].
  - destruct (elements _); reflexivity.
  - rewrite elements_empty. reflexivity.
Qed.

Lemma collect_loop_limit (links text categories : bool)
  (limit limit' save_intervall : Z) (pending : list string) :
  forall (i : Z) (s : state),
    (forall j, i <= j < i + Z.of_nat (length pending) ->
               j <> limit /\ j <> limit') ->
    collect_loop links text categories limit save_intervall i pending s
    = collect_loop links text categories limit' save_intervall i pending s.
Proof.
  induction pending as [|article_link rest IH]; intros i s H; [reflexivity|].
  cbn [WikiCrawler.collect_loop].
  cbn [length] in H.
  destruct (H i ltac:(lia)) as [H1 H2].
  apply Z.eqb_neq in H1, H2. rewrite H1, H2.
  apply bind_ext. intros _ s1. apply IH. intros j Hj. apply H. lia.
Qed.

(** X12.  A negative limit is no limit: the loop leaves at the index
    that equals the limit, which no index does, so [collectArticles] goes
    through every pending article, as it does when the limit is left
    out. *)
Theorem collectArticles_negative_limit
  (links text categories : bool) (limit save_intervall : Z) (s : state) :
  limit < 0 ->
  collectArticles links text categories (Some limit) save_intervall s
  = collectArticles links text categories None save_intervall s.
Proof.
  intros Hneg. unfold WikiCrawler.collectArticles.
  apply bind_ext. intros loaded s1. apply bind_ext. intros c s2. cbv zeta.
  apply collect_loop_limit. intros j Hj. split; [lia|].
  unfold size, set_size. cbn. lia.
Qed.

End CollectEdges.

(** The crawler with the archive path set and an empty archive
    directory. *)
Lemma collectArticles_new_archive_witness :
  WikiCrawler.collectArticles Scenario.web Scenario.parse Scenario.md5
    Scenario.literal_match 101 true true true None 10 Cases4.new_archive
  = (Raises FileNotFoundError, Cases4.new_archive).
Proof.
  apply (collectArticles_new_archive Scenario.web Scenario.parse Scenario.md5
           Scenario.literal_match 101 true true true None 10 "arch"
           Cases4.new_archive); reflexivity.
Defined.

(** The page A is pending, and the limit is 0. *)
Lemma collectArticles_nothing_to_do_witness :
  WikiCrawler.collectArticles Scenario.web Scenario.parse Scenario.md5
    Scenario.literal_match 101 true true true (Some 0) 10 Scenario.archiving
  = (Returns tt, Scenario.archiving).
Proof.
  apply (collectArticles_nothing_to_do Scenario.web Scenario.parse
           Scenario.md5 Scenario.literal_match 101 true true true (Some 0) 10
           [] Scenario.archiving).
  - reflexivity.
  - left. reflexivity.
Defined.

(** A limit of -1 on the archive with the page A pending. *)
Lemma collectArticles_negative_limit_witness :
  WikiCrawler.collectArticles Scenario.web Scenario.parse Scenario.md5
    Scenario.literal_match 101 true true true (Some (-1)) 10
    Scenario.archiving
  = WikiCrawler.collectArticles Scenario.web Scenario.parse Scenario.md5
      Scenario.literal_match 101 true true true None 10 Scenario.archiving.
Proof.
  apply (collectArticles_negative_limit Scenario.web Scenario.parse
           Scenario.md5 Scenario.literal_match 101 true true true (-1) 10
           Scenario.archiving).
  lia.
Defined.

(** ** Saving without an archive *)

Lemma keys_dict_set_elem {V} (k x : string) (v : V) (d : dict V) :
  x ∈ keys (dict_set k v d) <-> x = k \/ x ∈ keys d.
Proof.
  rewrite keys_dict_set.
  destruct (bool_decide (k ∈ keys d)) eqn:B.
  - apply bool_decide_eq_true in B. split; [auto|].
    intros [->|H]; assumption.
  - rewrite elem_of_app, list_elem_of_singleton. tauto.
Qed.

(** X13.  In memory the crawler does resume: without an archive path,
    [saveArticle] keeps the text under the link in [article_texts],
    writes no file and prints nothing, and the articles a following
    [collectArticles] would go through are the ones pending before,
    less this one. *)
Theorem saveArticle_in_memory (md5_hexdigest : string -> string)
  (article_link : string) (article_text : list string) (s : state) :
  archive_path (crawler s) = None ->
  let s' :=
    (WikiCrawler.saveArticle md5_hexdigest article_link article_text s).2 in
  dict_get article_link (article_texts (crawler s'))
  = Some (TextKept article_text)
  /\ files s' = files s /\ stdout s' = stdout s
  /\ pending_articles s'
     = Returns
         (WikiCrawler.articles_to_collect (article_list (crawler s))
            (keys (article_texts (crawler s)))
          ∖ {[article_link]}).
Proof.
  intros Hpath s'.
  assert (Hs' : s' = set_crawler
                       (set_article_texts
                          (dict_set article_link (TextKept article_text)
                             (article_texts (crawler s)))
                          (crawler s)) s).
  { subst s'. unfold WikiCrawler.saveArticle.
    rewrite (bind_returns _ _ s s (crawler s)) by reflexivity.
    rewrite Hpath. reflexivity. }
  rewrite Hs'. split; [cbn; apply dict_get_set_eq|].
  split; [reflexivity|]. split; [reflexivity|].
  unfold pending_articles, WikiCrawler.artilces_loaded, bind, get_self.
  cbn [crawler set_crawler archive_path set_article_texts article_texts
         article_list fst snd ret].
  rewrite Hpath. cbn [ret fst]. f_equal.
  unfold WikiCrawler.articles_to_collect. apply set_eq. intros x.
  rewrite !elem_of_difference, !elem_of_list_to_set, keys_dict_set_elem,
    elem_of_singleton.
  tauto.
Qed.

(** The page A kept in memory by the crawler started at Physics. *)
Lemma saveArticle_in_memory_witness :
  let s' :=
    (WikiCrawler.saveArticle Scenario.md5 "/wiki/A" ["<HL1> A"]
       Scenario.started).2 in
  dict_get "/wiki/A" (article_texts (crawler s')) = Some (TextKept ["<HL1> A"])
  /\ files s' = files Scenario.started /\ stdout s' = stdout Scenario.started
  /\ pending_articles s'
     = Returns
         (WikiCrawler.articles_to_collect
            (article_list (crawler Scenario.started))
            (keys (article_texts (crawler Scenario.started)))
          ∖ {["/wiki/A"]}).
Proof.
  apply (saveArticle_in_memory Scenario.md5 "/wiki/A" ["<HL1> A"]
           Scenario.started).
  reflexivity.
Defined.

(** Without an archive the second run finds nothing to collect: no
    request is made after the first run. *)
Example collectArticles_in_memory_twice :
  let collect :=
    WikiCrawler.collectArticles Scenario.web Scenario.parse Scenario.md5
      Scenario.literal_match 101 true true true None 10 in
  let s1 := (collect Scenario.started).2 in
  (collect Scenario.started).1 = Returns tt
  /\ clock Scenario.started = 1%nat /\ clock s1 = 2%nat
  /\ collect s1 = (Returns tt, s1).
Proof. vm_compute. repeat split. Qed.

(** ** What the ancestor traversal reads and what it finds *)

Lemma gather_parents_reads (generation : list string) (next : gset string) :
  stable reads_graph (WikiCrawler.gather_parents generation next).
Proof.
  revert next. induction generation as [|p ps IH]; intros next;
    cbn [WikiCrawler.gather_parents]; stable_solve.
Qed.

Lemma ancestors_loop_reads (fuel : nat) :
  forall generation ancestors : gset string,
    stable reads_graph (WikiCrawler.ancestors_loop fuel generation ancestors).
Proof.
  induction fuel as [|fuel IH]; intros generation ancestors;
    rewrite ancestors_loop_unfold;
    destruct (WikiCrawler.ancestors_guard generation ancestors);
    try (stable_solve; fail).
  stable_step; [apply gather_parents_reads|apply IH].
Qed.

(** X14.  [retrieveCategories] only reads: whatever it returns or raises,
    the indexes, the files, the clock and the output are untouched and
    every link has the parents it had; all it may do to the crawler is
    bind links it looked up in the defaultdict to new empty lists. *)
Theorem retrieveCategories_reads_only (fuel : nat) (article : string)
  (s : state) :
  reads_graph s (WikiCrawler.retrieveCategories fuel article s).2.
Proof.
  revert s. change (stable reads_graph
                      (WikiCrawler.retrieveCategories fuel article)).
  unfold WikiCrawler.retrieveCategories, WikiCrawler.ancestors_of,
    WikiCrawler.category_names.
  pose proof ancestors_loop_reads. stable_solve.
Qed.

Lemma ancestor_extend (c : Crawler) (p g a : string) :
  ancestor c p g -> a ∈ parents_of c g -> ancestor c p a.
Proof.
  induction 1 as [k g Hg|k q g Hq _ IH]; intros Ha.
  - eapply ancestor_step; [exact Hg|]. apply ancestor_parent, Ha.
  - eapply ancestor_step; [exact Hq|]. apply IH, Ha.
Qed.

Lemma gather_parents_spec (generation : list string) :
  forall (next : gset string) (s : state),
    exists r s',
      WikiCrawler.gather_parents generation next s = (Returns r, s')
      /\ reads_graph s s'
      /\ forall a, a ∈ r <->
           a ∈ next
           \/ exists p, p ∈ generation /\ a ∈ parents_of (crawler s) p.
Proof.
  induction generation as [|p ps IH]; intros next s.
  - exists next, s. split; [reflexivity|]. split; [reflexivity|].
    intros a. split; [auto|]. intros [H|(q & Hq & _)]; [exact H|].
    inversion Hq.
  - cbn [WikiCrawler.gather_parents].
    destruct (category_tree_getitem_parents p s) as (a0 & s1 & Hget & Hl).
    pose proof (category_tree_getitem_reads p s) as Hreads.
    rewrite Hget in Hreads. cbn [snd] in Hreads.
    rewrite (bind_returns _ _ _ _ _ Hget).
    rewrite (bind_returns _ _ s1 s1 (default [] (heap (crawler s1) !! a0)))
      by reflexivity.
    rewrite Hl.
    destruct (IH (next ∪ list_to_set (parents_of (crawler s) p)) s1)
      as (r & s' & Hr & Hreads' & Hmem).
    exists r, s'. split; [exact Hr|]. split; [etransitivity; eassumption|].
    destruct Hreads as (_ & _ & _ & _ & Hp).
    intros a. rewrite Hmem, elem_of_union, elem_of_list_to_set.
    split.
    + intros [[H|H]|(q & Hq & H)]; [auto| |].
      * right. exists p. split; [left|exact H].
      * right. exists q. split; [right; exact Hq|]. rewrite <- Hp. exact H.
    + intros [H|(q & Hq & H)]; [auto|].
      apply elem_of_cons in Hq as [->|Hq]; [auto|].
      right. exists q. split; [exact Hq|]. rewrite Hp. exact H.
Qed.

Lemma ancestors_loop_sound (c0 : Crawler) (article_link : string)
  (fuel : nat) :
  forall (generation ancestors visited : gset string) (s s' : state),
    (forall k, parents_of (crawler s) k = parents_of c0 k) ->
    (forall g, g ∈ generation ->
       g ∈ parents_of c0 article_link
       \/ exists p, p ∈ parents_of c0 article_link /\ ancestor c0 p g) ->
    (forall a, a ∈ ancestors ->
       exists p, p ∈ parents_of c0 article_link /\ ancestor c0 p a) ->
    WikiCrawler.ancestors_loop fuel generation ancestors s
    = (Returns visited, s') ->
    forall a, a ∈ visited ->
      exists p, p ∈ parents_of c0 article_link /\ ancestor c0 p a.
Proof.
  induction fuel as [|fuel IH];
    intros generation ancestors visited s s' Hp Hgen Hanc;
    rewrite ancestors_loop_unfold;
    destruct (WikiCrawler.ancestors_guard generation ancestors);
    try discriminate; try (intros [= <- _]; exact Hanc).
  destruct (gather_parents_spec (elements generation) ∅ s)
    as (next & s1 & Hnext & Hreads & Hmem).
  rewrite (bind_returns _ _ _ _ _ Hnext).
  assert (Hnew : forall a, a ∈ next ∖ ancestors ->
            exists p, p ∈ parents_of c0 article_link /\ ancestor c0 p a).
  { intros a Ha. apply elem_of_difference in Ha as [Ha _].
    apply Hmem in Ha as [Ha|(g & Hg & Ha)]; [set_solver|].
    apply elem_of_elements in Hg. rewrite Hp in Ha.
    destruct (Hgen g Hg) as [Hdirect|(p & Hpp & Hpg)].
    - exists g. split; [exact Hdirect|]. apply ancestor_parent, Ha.
    - exists p. split; [exact Hpp|]. apply (ancestor_extend _ _ _ _ Hpg Ha). }
  apply IH.
  - destruct Hreads as (_ & _ & _ & _ & Hp1). intros k.
    rewrite Hp1. apply Hp.
  - intros g Hg. right. apply Hnew, Hg.
  - intros a Ha. apply elem_of_union in Ha as [Ha|Ha];
      [apply Hanc, Ha|apply Hnew, Ha].
Qed.

(** X15.  What the traversal of [retrieveCategories] can find: every
    node it visits is reached from some direct parent of the article by
    one parent edge or more, that is from the article by two or more.  A
    direct parent is in the result only if it is also an ancestor of a
    direct parent. *)
Theorem ancestors_of_sound (fuel : nat) (article_link : string)
  (s s' : state) (visited : gset string) :
  WikiCrawler.ancestors_of fuel article_link s = (Returns visited, s') ->
  forall a, a ∈ visited ->
    exists p, p ∈ parents_of (crawler s) article_link
              /\ ancestor (crawler s) p a.
Proof.
  unfold WikiCrawler.ancestors_of. intros H.
  destruct (category_tree_getitem_parents article_link s)
    as (a0 & s1 & Hget & Hl).
  pose proof (category_tree_getitem_reads article_link s) as Hreads.
  rewrite Hget in Hreads. cbn [snd] in Hreads.
  rewrite (bind_returns _ _ _ _ _ Hget) in H.
  rewrite (bind_returns _ _ s1 s1 (default [] (heap (crawler s1) !! a0)))
    in H by reflexivity.
  rewrite Hl in H.
  apply (ancestors_loop_sound (crawler s) article_link fuel _ _ _ _ _
           (proj2 (proj2 (proj2 (proj2 Hreads))))) with (3 := H).
  - intros g Hg. left. apply elem_of_list_to_set in Hg. exact Hg.
  - intros a Ha. set_solver.
Qed.

(** The traversal from X on the graph with a cycle reaches Loop B. *)
Lemma ancestors_of_sound_witness :
  exists p, p ∈ parents_of (crawler Scenario.cyclic) "/wiki/X"
            /\ ancestor (crawler Scenario.cyclic) p "/wiki/Category:Loop_B".
Proof.
  apply (ancestors_of_sound 101 "/wiki/X" Scenario.cyclic
           (WikiCrawler.ancestors_of 101 "/wiki/X" Scenario.cyclic).2
           {["/wiki/Category:Loop_A"; "/wiki/Category:Loop_B"]}).
  - vm_compute. reflexivity.
  - apply elem_of_union. right. apply elem_of_singleton. reflexivity.
Defined.

(** ** Printing the hierarchy *)

Lemma prints_nothing (s : state) : prints [] s s.
Proof. unfold prints. rewrite app_nil_r. auto. Qed.

Lemma prints_more (out out' : list string) (s s' s'' : state) :
  prints out s s' -> prints out' s' s'' -> prints (out ++ out') s s''.
Proof.
  intros (H1 & H2 & H3 & H4) (H1' & H2' & H3' & H4').
  unfold prints. rewrite H1', H2', H3', H4', H4, app_assoc. auto.
Qed.

(** A loop whose body prints lines in [P] and returns or raises
    [KeyError] does so itself. *)
Lemma for_each_prints {A} (P : string -> Prop) (body : A -> M unit)
  (l : list A) :
  (forall x s,
     ((body x s).1 = Returns tt \/ (body x s).1 = Raises KeyError)
     /\ exists out, prints out s (body x s).2 /\ Forall P out) ->
  forall s,
    ((for_each l body s).1 = Returns tt
     \/ (for_each l body s).1 = Raises KeyError)
    /\ exists out, prints out s (for_each l body s).2 /\ Forall P out.
Proof.
  induction l as [|x l IH]; intros Hbody s; cbn [for_each].
  - split; [left; reflexivity|]. exists []. split; [apply prints_nothing|].
    constructor.
  - destruct (Hbody x s) as (Ho & out & Hout & HP).
    destruct (body x s) as [o s1] eqn:E. cbn [fst snd] in *.
    destruct Ho as [-> | ->].
    + rewrite (bind_returns _ _ _ _ _ E).
      destruct (IH Hbody s1)
        as (Ho' & out' & Hout' & HP').
      split; [exact Ho'|]. exists (out ++ out').
      split; [eapply prints_more; eassumption|]. apply Forall_app; auto.
    + rewrite (bind_raises _ _ _ _ _ E). cbn [fst snd].
      split; [right; reflexivity|]. exists out. auto.
Qed.

(** X16.  [_printChildNodes] ends on every graph, one with cycles
    included: a recursion depth of [max_level - level + 1] is enough, and
    the call returns or raises [KeyError] (a child without a name in
    [category_list]).  It changes nothing but the output, and every line
    it prints is the line of some level from [level] to [max_level + 1]:
    with [max_level = 1] two levels are printed.  (The limit Python puts
    on the depth of a recursion is not part of the model.) *)
Theorem printChildNodes_ends (fuel : nat) :
  forall (node : string) (level max_level : Z) (s : state),
    (Z.to_nat (max_level - level + 1) <= fuel)%nat ->
    let r := Hierarchy._printChildNodes fuel node level max_level s in
    (r.1 = Returns tt \/ r.1 = Raises KeyError)
    /\ exists out,
         prints out s r.2
         /\ Forall (fun line =>
              exists l name n m,
                line = Hierarchy.hierarchy_line l name n m
                /\ (level <= l <= Z.max level (max_level + 1))%Z) out.
Proof.
  induction fuel as [|fuel IH]; intros node level max_level s Hfuel r;
    subst r.
  - cbn [Hierarchy._printChildNodes].
    rewrite (bind_returns _ _ s s (crawler s)) by reflexivity.
    apply for_each_prints. intros child s1.
    rewrite (bind_returns _ _ s1 s1 (crawler s1)) by reflexivity.
    unfold getitem. destruct (dict_get child _) as [name|].
    + rewrite (bind_returns _ _ s1 s1 name) by reflexivity.
      rewrite (bind_returns _ _ s1 _ tt) by reflexivity.
      destruct (max_level >=? level)%Z eqn:G; [lia|].
      cbn [ret fst snd]. split; [left; reflexivity|].
      eexists [_]. split; [unfold prints; cbn; auto|].
      repeat constructor. do 4 eexists. split; [reflexivity|lia].
    + rewrite (bind_raises _ _ s1 s1 KeyError) by reflexivity.
      cbn [fst snd]. split; [right; reflexivity|].
      exists []. split; [apply prints_nothing|constructor].
  - cbn [Hierarchy._printChildNodes].
    rewrite (bind_returns _ _ s s (crawler s)) by reflexivity.
    apply for_each_prints. intros child s1.
    rewrite (bind_returns _ _ s1 s1 (crawler s1)) by reflexivity.
    unfold getitem. destruct (dict_get child _) as [name|].
    + rewrite (bind_returns _ _ s1 s1 name) by reflexivity.
      rewrite (bind_returns _ _ s1 _ tt) by reflexivity.
      destruct (max_level >=? level)%Z eqn:G.
      * match goal with
        | |- context [Hierarchy._printChildNodes fuel child _ _ ?s2] =>
            destruct (IH child (level + 1)%Z max_level s2)
              as (Ho & out & Hout & HP); [lia|];
            assert (H1 : prints [Hierarchy.hierarchy_line level name
                         (length (Hierarchy.links_below (crawler s1) child
                            Hierarchy.is_category_link))
                         (length (Hierarchy.links_below (crawler s1) child
                            (fun link =>
                               negb (Hierarchy.is_category_link link))))]
                      s1 s2) by (unfold prints; cbn; auto)
        end.
        split; [exact Ho|]. eexists (_ :: out).
        split; [apply (prints_more [_] out _ _ _ H1 Hout)|].
        constructor.
        -- do 4 eexists. split; [reflexivity|lia].
        -- eapply Forall_impl; [exact HP|].
           intros line (l & n & a & b & -> & Hl).
           do 4 eexists. split; [reflexivity|lia].
      * cbn [ret fst snd]. split; [left; reflexivity|].
        eexists [_]. split; [unfold prints; cbn; auto|].
        repeat constructor. do 4 eexists. split; [reflexivity|lia].
    + rewrite (bind_raises _ _ s1 s1 KeyError) by reflexivity.
      cbn [fst snd]. split; [right; reflexivity|].
      exists []. split; [apply prints_nothing|constructor].
Qed.

(** Two levels below Loop B on the graph with a cycle. *)
Lemma printChildNodes_ends_witness :
  (Hierarchy._printChildNodes 2 "/wiki/Category:Loop_B" 1 2
     Scenario.cyclic).1 = Returns tt.
Proof.
  destruct (printChildNodes_ends 2 "/wiki/Category:Loop_B" 1 2
              Scenario.cyclic) as ([H|H] & _);
    [vm_compute; lia|exact H|vm_compute in H; discriminate H].
Defined.

(** Whatever node is asked for, the hierarchy is printed from the seeds
    down; with [max_level = 1] that is two levels. *)
Example printCategoryHierachy_two_levels :
  stdout (Hierarchy.printCategoryHierachy 1 "/wiki/Category:Physics" 1
            Cases5.two_levels).2
  = ["Science(1 Categories,0 Articles)";
     Hierarchy.tab +:+ "Physics(0 Categories,1 Articles)"].
Proof. vm_compute. reflexivity. Qed.

(** ** The name and the link of a category *)

Lemma replace_space_cons (c : ascii) (s : string) :
  Str.replace " " "_" (String c s)
  = String (if Ascii.eqb c " " then "_"%char else c)
      (Str.replace " " "_" s).
Proof.
  unfold Str.replace. cbn [Str.replace_from String.prefix].
  destruct (ascii_dec " " c) as [<-|Hc].
  - destruct s; reflexivity.
  - destruct (Ascii.eqb_spec c " ") as [->|_]; [congruence|reflexivity].
Qed.

Lemma replace_space_length (s : string) :
  String.length (Str.replace " " "_" s) = String.length s.
Proof.
  induction s as [|c s IH]; [reflexivity|].
  rewrite replace_space_cons. cbn [String.length]. rewrite IH. reflexivity.
Qed.

Lemma replace_space_count (s : string) :
  count_char " " (Str.replace " " "_" s) = 0%nat.
Proof.
  induction s as [|c s IH]; [reflexivity|].
  rewrite replace_space_cons. cbn [count_char]. rewrite IH.
  destruct (Ascii.eqb_spec c " ") as [->|Hc]; [reflexivity|].
  destruct (Ascii.eqb_spec c " "); [contradiction|reflexivity].
Qed.

Lemma replace_space_prefix (p : string) :
  forall s, count_char " " p = 0%nat -> String.prefix p s = true ->
            String.prefix p (Str.replace " " "_" s) = true.
Proof.
  induction p as [|a p IH]; intros s Hp Hs;
    [destruct (Str.replace " " "_" s); reflexivity|].
  destruct s as [|b s]; [discriminate|].
  cbn [String.prefix count_char] in *.
  destruct (ascii_dec a b) as [<-|]; [|discriminate].
  rewrite replace_space_cons.
  destruct (Ascii.eqb_spec a " ") as [->|Ha]; [discriminate|].
  cbn [String.prefix]. destruct (ascii_dec a a); [|congruence].
  apply IH; [exact Hp|exact Hs].
Qed.

Lemma prefix_app (a b : string) : String.prefix a (a +:+ b) = true.
Proof.
  induction a as [|c a IH]; [destruct b; reflexivity|].
  change (String c a +:+ b) with (String c (a +:+ b)).
  cbn [String.prefix]. destruct (ascii_dec c c); [exact IH|congruence].
Qed.

Lemma prefix_app_same (a b c : string) :
  String.prefix (a +:+ b) (a +:+ c) = String.prefix b c.
Proof.
  induction a as [|x a IH]; [reflexivity|].
  change (String x a +:+ b) with (String x (a +:+ b)).
  change (String x a +:+ c) with (String x (a +:+ c)).
  cbn [String.prefix]. destruct (ascii_dec x x); [exact IH|congruence].
Qed.

Lemma contains_prefix (sub s : string) :
  String.prefix sub s = true -> Str.contains sub s = true.
Proof. intros H. destruct s; cbn [Str.contains]; rewrite H; reflexivity. Qed.

Lemma count_char_app (c : ascii) (a b : string) :
  count_char c (a +:+ b) = (count_char c a + count_char c b)%nat.
Proof.
  induction a as [|x a IH]; [reflexivity|].
  change (String x a +:+ b) with (String x (a +:+ b)).
  cbn [count_char]. rewrite IH. lia.
Qed.

Lemma normal_name_prefix (name : string) :
  String.prefix "Category:" (WikiCategory.normal_name name) = true.
Proof.
  unfold WikiCategory.normal_name.
  destruct (String.prefix "Category:" name) eqn:E; [exact E|].
  apply prefix_app.
Qed.

Section CategoryObject.
Variable requests_get : nat -> string -> get_result.
Variable BeautifulSoup : string -> document.

Lemma category_init_fields (name : string) (link : option string)
  (load : bool) (s s' : state) (self : WikiCategory.t) :
  WikiCategory.__init__ requests_get BeautifulSoup name link load s
  = (Returns self, s') ->
  WikiCategory.name self = WikiCategory.normal_name name
  /\ WikiCategory.link self = WikiCategory.normal_link name link.
Proof.
  unfold WikiCategory.__init__. destruct load.
  - unfold WikiCategory._requestCategory, bind.
    destruct (WikiCategory._make_request _ _ s) as [[[text|]|e|] s1];
      cbn; try discriminate.
    destruct (mw_category_empty _); [discriminate|].
    intros [= <- _]. split; reflexivity.
  - intros [= <- _]. split; reflexivity.
Qed.

(** X17.  A category made from a name alone: the name it stores starts
    with [Category:] (the prefix is added once, never twice), and its
    link is [/wiki/] and that name with every space replaced by an
    underscore, so it has no space, is as long as the name and six
    characters, and is a category link for the test
    ["/wiki/Category:" in link] of the crawler.  Making the category
    again from the stored name gives the same name and link. *)
Theorem category_default_link (name : string) (load : bool)
  (s s' : state) (self : WikiCategory.t) :
  WikiCategory.__init__ requests_get BeautifulSoup name None load s
  = (Returns self, s') ->
  String.prefix "Category:" (WikiCategory.name self) = true
  /\ count_char " " (WikiCategory.link self) = 0%nat
  /\ String.length (WikiCategory.link self)
     = (6 + String.length (WikiCategory.name self))%nat
  /\ Hierarchy.is_category_link (WikiCategory.link self) = true
  /\ WikiCategory.normal_name (WikiCategory.name self)
     = WikiCategory.name self
  /\ WikiCategory.normal_link (WikiCategory.name self) None
     = WikiCategory.link self.
Proof.
  intros H. apply category_init_fields in H as [-> ->].
  pose proof (normal_name_prefix name) as Hp.
  assert (Hn : WikiCategory.normal_name (WikiCategory.normal_name name)
               = WikiCategory.normal_name name).
  { unfold WikiCategory.normal_name at 1. rewrite Hp. reflexivity. }
  unfold WikiCategory.normal_link, WikiCategory.CATEGORY_URL_PREFIX.
  split; [exact Hp|].
  split; [rewrite count_char_app, replace_space_count; reflexivity|].
  split; [rewrite string_length_append, replace_space_length; reflexivity|].
  split; [|split; [exact Hn|rewrite Hn; reflexivity]].
  apply contains_prefix.
  change "/wiki/Category:" with ("/wiki/" +:+ "Category:").
  rewrite prefix_app_same. apply replace_space_prefix; [reflexivity|exact Hp].
Qed.

End CategoryObject.

(** The category History of science, not loaded. *)
Lemma category_default_link_witness :
  WikiCategory.link
    (WikiCategory.mk "Category:History of science"
       "/wiki/Category:History_of_science" None [])
  = "/wiki/Category:History_of_science"
  /\ count_char " " "/wiki/Category:History_of_science" = 0%nat.
Proof.
  split; [reflexivity|].
  apply (category_default_link Scenario.web Scenario.parse
           "History of science" false Scenario.fresh Scenario.fresh
           (WikiCategory.mk "Category:History of science"
              "/wiki/Category:History_of_science" None [])).
  vm_compute. reflexivity.
Defined.

(** ** The checkpoints of [collectArticles] *)

#[local] Instance save_path_kept_preorder : PreOrder save_path_kept.
Proof.
  split; [intros s; reflexivity|].
  intros s1 s2 s3 H1 H2. unfold save_path_kept in *. congruence.
Qed.

Lemma save_path_kept_bookkeeping {A} (m : M A) :
  stable bookkeeping m -> stable save_path_kept m.
Proof. intros H s. apply (H s). Qed.

Lemma save_path_kept_modify (f : Crawler -> Crawler) :
  (forall c, save_path (f c) = save_path c) ->
  stable save_path_kept (modify_self f).
Proof. intros Hf s. apply Hf. Qed.

Lemma save_path_kept_write_lines (file : string) (lines : list string) :
  stable save_path_kept (write_lines file lines).
Proof. intros s. reflexivity. Qed.

Lemma save_path_kept_open_append (file : string) :
  stable save_path_kept (open_append file).
Proof.
  intros s. unfold open_append. destruct (dict_get file (files s)); reflexivity.
Qed.

Lemma save_path_kept_print (line : string) :
  stable save_path_kept (print line).
Proof. intros s. reflexivity. Qed.

Lemma save_path_kept_checkpoint (save_intervall i : Z) :
  stable save_path_kept (WikiCrawler.checkpoint save_intervall i).
Proof.
  intros s. unfold WikiCrawler.checkpoint, bind, get_self.
  destruct (save_path (crawler s)) as [file|] eqn:E; [|reflexivity].
  destruct (_ =? _)%Z; [reflexivity|].
  destruct (_ =? _)%Z; [|reflexivity].
  unfold save_path_kept. cbn. congruence.
Qed.

#[local] Hint Resolve save_path_kept_write_lines save_path_kept_open_append
  save_path_kept_print save_path_kept_checkpoint : stable.
#[local] Hint Extern 1 (stable save_path_kept (modify_self _)) =>
  (apply save_path_kept_modify; intros; reflexivity) : stable.
#[local] Hint Extern 3 (stable save_path_kept _) =>
  (apply save_path_kept_bookkeeping; solve [eauto 3 with stable nocore])
  : stable.

(** Two continuations that agree while nothing was saved. *)
Lemma bind_unsaved {A B} (m : M A) (k1 k2 : A -> M B) (s : state) :
  stable save_path_kept m ->
  save_path (crawler s) = None ->
  (forall a s', save_path (crawler s') = None -> k1 a s' = k2 a s') ->
  bind m k1 s = bind m k2 s.
Proof.
  intros Hm Hs Hk. unfold bind. specialize (Hm s).
  destruct (m s) as [[a|e|] s']; [|reflexivity|reflexivity].
  apply Hk. etransitivity; [exact Hm|exact Hs].
Qed.

(** A continuation that cannot return once something was saved. *)
Lemma bind_saved {A B} (m : M A) (k : A -> M B) (s : state) (file : string) :
  stable save_path_kept m ->
  save_path (crawler s) = Some file ->
  (forall a s', save_path (crawler s') = Some file ->
                forall b, (k a s').1 <> Returns b) ->
  forall b, (bind m k s).1 <> Returns b.
Proof.
  intros Hm Hs Hk b. unfold bind. specialize (Hm s).
  destruct (m s) as [[a|e|] s']; [|discriminate|discriminate].
  apply Hk. etransitivity; [exact Hm|exact Hs].
Qed.

Lemma artilces_loaded_state (s : state) :
  (WikiCrawler.artilces_loaded s).2 = s.
Proof.
  unfold WikiCrawler.artilces_loaded, WikiCrawler.readIndex, bind, get_self,
    read_lines.
  destruct (archive_path (crawler s)); [|reflexivity].
  destruct (dict_get _ (files s)) as [[lines|c]|]; try reflexivity.
  destruct (comprehension_unpack_pure lines) as [o Ho]. rewrite Ho.
  destruct o; reflexivity.
Qed.

Section Checkpoints.
Variable requests_get : nat -> string -> get_result.
Variable BeautifulSoup : string -> document.
Variable md5_hexdigest : string -> string.
Variable re_match : string -> string -> bool.
Variable ancestor_fuel : nat.

Local Abbreviation collect_article :=
  (WikiCrawler.collect_article requests_get BeautifulSoup md5_hexdigest
     re_match ancestor_fuel).
Local Abbreviation collect_loop :=
  (WikiCrawler.collect_loop requests_get BeautifulSoup md5_hexdigest
     re_match ancestor_fuel).
Local Abbreviation collectArticles :=
  (WikiCrawler.collectArticles requests_get BeautifulSoup md5_hexdigest
     re_match ancestor_fuel).

Lemma saveArticle_save_path (article_link : string)
  (article_text : list string) :
  stable save_path_kept
    (WikiCrawler.saveArticle md5_hexdigest article_link article_text).
Proof. unfold WikiCrawler.saveArticle. cbv zeta. stable_solve. Qed.

Lemma writeMetaInfo_save_path (article_link : string)
  (meta_infos : dict WikiCrawler.meta_value) :
  stable save_path_kept
    (WikiCrawler.writeMetaInfo md5_hexdigest article_link meta_infos).
Proof. unfold WikiCrawler.writeMetaInfo. cbv zeta. stable_solve. Qed.

Lemma collect_article_save_path (links text categories : bool)
  (save_intervall i : Z) (article_link : string) :
  stable save_path_kept
    (collect_article links text categories save_intervall i article_link).
Proof.
  unfold WikiCrawler.collect_article.
  pose proof saveArticle_save_path.
  pose proof writeMetaInfo_save_path.
  pose proof (collectMetaInfo_bookkeeping ancestor_fuel).
  pose proof (articleIsValid_bookkeeping re_match).
  pose proof (articleCategoriesAreValid_bookkeeping re_match).
  unfold WikiCrawler.record_broken_link, WikiArticle.getHeadCategories,
    WikiArticle.getLinks, WikiArticle.getText, WikiArticle.the_doc.
  stable_solve.
Qed.

Lemma checkpoint_unsaved (si1 si2 i : Z) (s : state) :
  save_path (crawler s) = None ->
  WikiCrawler.checkpoint si1 i s = WikiCrawler.checkpoint si2 i s.
Proof.
  intros H. unfold WikiCrawler.checkpoint, bind, get_self. rewrite H.
  reflexivity.
Qed.

Lemma checkpoint_zero (i : Z) (s : state) (file : string) :
  save_path (crawler s) = Some file ->
  WikiCrawler.checkpoint 0 i s = (Raises ZeroDivisionError, s).
Proof.
  intros H. unfold WikiCrawler.checkpoint, bind, get_self. rewrite H.
  reflexivity.
Qed.

Ltac collect_steps lemma :=
  unfold WikiCrawler.collect_article;
  pose proof saveArticle_save_path;
  pose proof writeMetaInfo_save_path;
  pose proof (collectMetaInfo_bookkeeping ancestor_fuel);
  pose proof (articleIsValid_bookkeeping re_match);
  pose proof (articleCategoriesAreValid_bookkeeping re_match);
  unfold WikiCrawler.record_broken_link, WikiArticle.getHeadCategories,
    WikiArticle.getLinks, WikiArticle.getText, WikiArticle.the_doc;
  do 7 (lemma; [stable_solve|eassumption|intros ? ? ?]).

Lemma collect_article_unsaved (links text categories : bool)
  (si1 si2 i : Z) (article_link : string) (s : state) :
  save_path (crawler s) = None ->
  collect_article links text categories si1 i article_link s
  = collect_article links text categories si2 i article_link s.
Proof.
  intros Hs. collect_steps ltac:(apply bind_unsaved).
  apply checkpoint_unsaved. assumption.
Qed.

Lemma collect_article_saved (links text categories : bool)
  (i : Z) (article_link : string) (s : state) (file : string) :
  save_path (crawler s) = Some file ->
  forall b, (collect_article links text categories 0 i article_link s).1
            <> Returns b.
Proof.
  intros Hs. collect_steps ltac:(apply (bind_saved _ _ _ file)).
  intros b. erewrite checkpoint_zero by eassumption. discriminate.
Qed.

Lemma collect_loop_unsaved (links text categories : bool)
  (limit si1 si2 : Z) (pending : list string) :
  forall (i : Z) (s : state),
    save_path (crawler s) = None ->
    collect_loop links text categories limit si1 i pending s
    = collect_loop links text categories limit si2 i pending s.
Proof.
  induction pending as [|article_link rest IH]; intros i s Hs;
    cbn [WikiCrawler.collect_loop]; [reflexivity|].
  destruct (i =? limit)%Z; [reflexivity|].
  unfold bind.
  rewrite (collect_article_unsaved links text categories si1 si2 i
             article_link s Hs).
  pose proof (collect_article_save_path links text categories si2 i
                article_link s) as Hkept.
  destruct (collect_article _ _ _ si2 _ _ s) as [[[]|e|] s1];
    [|reflexivity|reflexivity].
  apply IH. etransitivity; [exact Hkept|exact Hs].
Qed.

(** X18.  Until [save] has been called the crawler has no [save_path],
    and [collectArticles] makes no checkpoint: the value of
    [save_intervall] has no effect at all on the outcome and on the
    state, zero included. *)
Theorem collectArticles_interval_unused_before_save
  (links text categories : bool) (limit : option Z) (si1 si2 : Z)
  (s : state) :
  save_path (crawler s) = None ->
  collectArticles links text categories limit si1 s
  = collectArticles links text categories limit si2 s.
Proof.
  intros Hs. unfold WikiCrawler.collectArticles.
  apply bind_unsaved; [|exact Hs|intros loaded s1 Hs1].
  { intros s0. rewrite artilces_loaded_state. reflexivity. }
  apply bind_unsaved; [apply stable_get_self, _|exact Hs1|intros c s2 Hs2].
  cbv zeta. apply collect_loop_unsaved, Hs2.
Qed.

(** X19.  Once [save] has been called, [collectArticles] with
    [save_intervall = 0] cannot complete when there is an article to
    collect and the limit is not zero: the first article is processed,
    and if that does not fail already, the test [(i+1) % save_intervall]
    raises [ZeroDivisionError]. *)
Theorem collectArticles_zero_interval_after_save
  (links text categories : bool) (limit : option Z) (s : state)
  (file : string) (pending : gset string) (article_link : string) :
  save_path (crawler s) = Some file ->
  pending_articles s = Returns pending ->
  article_link ∈ pending ->
  limit <> Some 0%Z ->
  (collectArticles links text categories limit 0 s).1 <> Returns tt.
Proof.
  intros Hs Hp Hin Hlimit. unfold pending_articles in Hp.
  unfold WikiCrawler.collectArticles, bind at 1.
  pose proof (artilces_loaded_state s) as Hstate.
  destruct (WikiCrawler.artilces_loaded s) as [[loaded|e|] s0];
    cbn [fst snd] in *; try discriminate.
  subst s0. injection Hp as Hp.
  unfold bind at 1, get_self. cbv zeta. rewrite Hp.
  destruct (elements pending) as [|first rest] eqn:E.
  { apply elements_empty_inv in E. set_solver. }
  assert (Hsize : size pending = S (length rest)).
  { unfold size, set_size. cbn. rewrite E. reflexivity. }
  cbn [WikiCrawler.collect_loop].
  destruct (0 =? _)%Z eqn:L.
  { apply Z.eqb_eq in L. destruct limit as [l|]; [congruence|lia]. }
  pose proof (collect_article_saved links text categories 0 first s file Hs)
    as Hfirst.
  unfold bind.
  destruct (collect_article _ _ _ 0 0 first s) as [[b|e|] s1];
    [destruct (Hfirst b); reflexivity|discriminate|discriminate].
Qed.

End Checkpoints.

(** The crawler started from Physics, never saved: an interval of zero
    and one of ten. *)
Lemma collectArticles_interval_unused_before_save_witness :
  WikiCrawler.collectArticles Scenario.web Scenario.parse Scenario.md5
    Scenario.literal_match 101 true true true None 0 Scenario.started
  = WikiCrawler.collectArticles Scenario.web Scenario.parse Scenario.md5
      Scenario.literal_match 101 true true true None 10 Scenario.started.
Proof.
  apply (collectArticles_interval_unused_before_save Scenario.web
           Scenario.parse Scenario.md5 Scenario.literal_match 101
           true true true None 0 10 Scenario.started).
  reflexivity.
Defined.

(** The same crawler after [save]: the article A is pending. *)
Lemma collectArticles_zero_interval_after_save_witness :
  (WikiCrawler.collectArticles Scenario.web Scenario.parse Scenario.md5
     Scenario.literal_match 101 true true true None 0
     (WikiCrawler.save "crawler.pkl" Scenario.started).2).1
  <> Returns tt.
Proof.
  apply (collectArticles_zero_interval_after_save Scenario.web
           Scenario.parse Scenario.md5 Scenario.literal_match 101
           true true true None
           (WikiCrawler.save "crawler.pkl" Scenario.started).2
           "crawler.pkl" {["/wiki/A"]} "/wiki/A").
  - reflexivity.
  - vm_compute. reflexivity.
  - apply elem_of_singleton. reflexivity.
  - discriminate.
Defined.

(** ** An article that its categories reject *)

Section Rejected.
Variable requests_get : nat -> string -> get_result.
Variable BeautifulSoup : string -> document.
Variable md5_hexdigest : string -> string.
Variable re_match : string -> string -> bool.
Variable ancestor_fuel : nat.

Local Abbreviation collect_article :=
  (WikiCrawler.collect_article requests_get BeautifulSoup md5_hexdigest
     re_match ancestor_fuel).


End Rejected.


(** ** The listing of a category *)

Lemma keys_dict_set_mono {V} (k x : string) (v : V) (d : dict V) :
  x ∈ keys d -> x ∈ keys (dict_set k v d).
Proof.
  intros H. rewrite keys_dict_set.
  destruct (bool_decide (k ∈ keys d)); [exact H|].
  apply elem_of_app. left. exact H.
Qed.

Lemma keys_dict_update_mono {V} (x : string) (d e : dict V) :
  x ∈ keys d -> x ∈ keys (dict_update d e).
Proof.
  unfold dict_update. revert d. induction e as [|[k v] e IH]; intros d H;
    [exact H|].
  cbn [fold_left]. apply IH, keys_dict_set_mono, H.
Qed.

Lemma keys_dict_update_new {V} (x : string) (d e : dict V) :
  x ∈ keys e -> x ∈ keys (dict_update d e).
Proof.
  unfold dict_update. revert d. induction e as [|[k v] e IH]; intros d H;
    [inversion H|].
  cbn [fold_left fst snd]. cbn [keys map fst] in H.
  apply elem_of_cons in H as [->|H]; [|apply IH, H].
  apply (keys_dict_update_mono k (dict_set k v d) e).
  rewrite keys_dict_set.
  destruct (bool_decide (k ∈ keys d)) eqn:B;
    [apply bool_decide_eq_true in B; exact B|].
  apply elem_of_app. right. left.
Qed.

Lemma _loadPageLinks_inv (self : WikiCategory.t) (s s' : state)
  (r : list string * WikiCategory.t) :
  WikiCategory._loadPageLinks self s = (Returns r, s') ->
  exists d,
    WikiCategory.doc self = Some d
    /\ r = (mw_pages_next d,
            WikiCategory.mk (WikiCategory.name self) (WikiCategory.link self)
              (Some d)
              (dict_update (WikiCategory.pages self) (dict_of (mw_pages d))))
    /\ s' = s.
Proof.
  unfold WikiCategory._loadPageLinks, WikiCategory.the_doc, bind.
  destruct (WikiCategory.doc self) as [d|]; [|discriminate].
  intros [= <- <-]. exists d. auto.
Qed.

Section Listing.
Variable requests_get : nat -> string -> get_result.
Variable BeautifulSoup : string -> document.
Variable page_fuel : nat.

Lemma getPages_loop_listing (fuel : nat) :
  forall (next_link : list string) (self : WikiCategory.t) (s s' : state)
         (r : dict string * WikiCategory.t),
    (exists d, WikiCategory.doc self = Some d /\ mw_pages_next d = next_link) ->
    WikiCategory.getPages_loop requests_get BeautifulSoup fuel next_link
      self s = (Returns r, s') ->
    WikiCategory.name r.2 = WikiCategory.name self
    /\ (forall k, k ∈ keys (WikiCategory.pages self) -> k ∈ keys r.1)
    /\ (exists d, WikiCategory.doc r.2 = Some d /\ mw_pages_next d = []).
Proof.
  induction fuel as [|fuel IH]; intros [|next rest] self s s' r Hdoc;
    cbn [WikiCategory.getPages_loop]; try discriminate;
    try (intros [= <- _]; cbn [fst snd]; auto).
  intros H.
  apply bind_returns_inv in H as (response & s1 & _ & H).
  apply bind_returns_inv in H as (text & s2 & _ & H).
  cbv zeta in H.
  apply bind_returns_inv in H as (r1 & s3 & H1 & H).
  apply _loadPageLinks_inv in H1 as (d & Hd & -> & ->).
  cbn [WikiCategory.doc WikiCategory.name WikiCategory.link
       WikiCategory.pages fst snd] in *.
  apply IH in H as (Hname & Hkeys & Hlast);
    [|exists d; split; [reflexivity|reflexivity]].
  cbn [WikiCategory.name WikiCategory.pages] in *.
  split; [exact Hname|]. split; [|exact Hlast].
  intros k Hk. apply Hkeys, keys_dict_update_mono, Hk.
Qed.

(** X21.  What [getPages] hands back.  When it returns, the dict has
    every link once and is the [pages] of the object; it holds every
    page of the listing the object showed when the call began; the name
    and the link of the object are unchanged, but the object now shows
    the last page of the listing, the one without a next-page link.  A
    listing of one page is read without a request. *)
Theorem getPages_listing (self : WikiCategory.t) (s s' : state)
  (r : dict string * WikiCategory.t) :
  WikiCategory.getPages requests_get BeautifulSoup page_fuel self s
  = (Returns r, s') ->
  r.1 = WikiCategory.pages r.2 /\ NoDup (keys r.1)
  /\ WikiCategory.name r.2 = WikiCategory.name self
  /\ WikiCategory.link r.2 = WikiCategory.link self
  /\ (exists d0,
        WikiCategory.doc self = Some d0
        /\ (forall k, k ∈ keys (mw_pages d0) -> k ∈ keys r.1)
        /\ (mw_pages_next d0 = [] ->
            s' = s /\ WikiCategory.doc r.2 = Some d0))
  /\ (exists d, WikiCategory.doc r.2 = Some d /\ mw_pages_next d = []).
Proof.
  intros H.
  destruct (getPages_pages _ _ _ _ _ _ _ H) as [Hpages Hnd].
  pose proof (getPages_link _ _ _ _ _ _ _ H) as Hlink.
  split; [exact Hpages|]. split; [exact Hnd|].
  unfold WikiCategory.getPages in H. cbv zeta in H.
  apply bind_returns_inv in H as (r1 & s1 & H1 & H).
  apply _loadPageLinks_inv in H1 as (d0 & Hd0 & -> & ->).
  cbn [WikiCategory.doc WikiCategory.name WikiCategory.link
       WikiCategory.pages fst snd] in *.
  pose proof H as Hloop.
  apply getPages_loop_listing in H as (Hname & Hkeys & Hlast);
    [|exists d0; split; reflexivity].
  cbn [WikiCategory.name WikiCategory.pages] in *.
  split; [exact Hname|]. split; [exact Hlink|]. split; [|exact Hlast].
  exists d0. split; [exact Hd0|]. split.
  - intros k Hk. apply Hkeys, keys_dict_update_new.
    unfold dict_of. apply keys_dict_update_new, Hk.
  - intros Hnext. rewrite Hnext in Hloop.
    destruct page_fuel; cbn [WikiCategory.getPages_loop] in Hloop;
      injection Hloop as <- <-; split; reflexivity.
Qed.

End Listing.

(** The listing of Physics: one page, with the article A. *)
Lemma getPages_listing_witness :
  NoDup (keys [("/wiki/A", "A")])
  /\ WikiCategory.link Cases2.physics_object = "/wiki/Category:Physics".
Proof.
  destruct (getPages_listing Scenario.web Scenario.parse 0
              Cases2.physics_object Scenario.fresh Scenario.fresh
              ([("/wiki/A", "A")], Cases2.physics_object))
    as (_ & Hnd & _ & Hlink & _); [vm_compute; reflexivity|].
  split; [exact Hnd|exact Hlink].
Defined.
